(** * Cloud inventory scripts: a shallow embedding

    The two operator scripts
      - [aws/aws_inventory_check-v3.py]
      - [azure/azure_inventory_check-v7-with-csv.py]
    are embedded as functions of an error-and-state monad.  The cloud SDK
    clients, the command-line tools started through [subprocess] and the
    terminal are external to the scripts: they are the fields of a
    [Services] record, and every function of the scripts is parametric in
    it.  The Python fragments the scripts rely on ([str.strip],
    [str.lower], [str.split], [re.match] with the subscription pattern,
    [len], [csv.DictWriter] in its default dialect) are written out as
    functions below.

    Strings are Rocq [string]s and read as ASCII text. *)

From Stdlib Require Import String Ascii List Bool Arith ZArith Lia.
From Stdlib Require Import DecimalString DecimalNat.
Import ListNotations.
Open Scope list_scope.
Open Scope string_scope.

Set Implicit Arguments.

(* ================================================================== *)
(** ** Python strings *)

Module Py.

Definition chr (n : nat) : ascii := ascii_of_nat n.

Definition between (lo hi n : nat) : bool := Nat.leb lo n && Nat.leb n hi.

Definition LF : ascii := Eval cbv in chr 10.
Definition CR : ascii := Eval cbv in chr 13.

(** [str.isspace] on one ASCII character: TAB, LF, VT, FF, CR,
    FS, GS, RS, US and the space. *)
Definition isspace (c : ascii) : bool :=
  let n := nat_of_ascii c in
  between 9 13 n || between 28 32 n.

Fixpoint lstrip (s : list ascii) : list ascii :=
  match s with
  | [] => []
  | c :: r => if isspace c then lstrip r else s
  end.

Definition rstrip (s : list ascii) : list ascii := rev (lstrip (rev s)).

(** [s.strip()] *)
Definition strip (s : string) : string :=
  string_of_list_ascii (rstrip (lstrip (list_ascii_of_string s))).

Definition lower_char (c : ascii) : ascii :=
  let n := nat_of_ascii c in
  if between 65 90 n then ascii_of_nat (n + 32) else c.

(** [s.lower()] *)
Fixpoint lower (s : string) : string :=
  match s with
  | EmptyString => EmptyString
  | String c r => String (lower_char c) (lower r)
  end.

(** [x in xs] for a list of strings *)
Definition contains (x : string) (xs : list string) : bool :=
  existsb (String.eqb x) xs.

(** [s.split(sep)] for a one-character separator *)
Fixpoint split_aux (sep : ascii) (cur : list ascii) (s : list ascii)
  : list string :=
  match s with
  | [] => [string_of_list_ascii (rev cur)]
  | c :: r =>
      if Ascii.eqb c sep
      then string_of_list_ascii (rev cur) :: split_aux sep [] r
      else split_aux sep (c :: cur) r
  end.

Definition split (sep : ascii) (s : string) : list string :=
  split_aux sep [] (list_ascii_of_string s).

(** [str(n)] for a non-negative integer *)
Definition str_nat (n : nat) : string :=
  NilZero.string_of_uint (Nat.to_uint n).

(** [str(z)] for an integer *)
Definition str_Z (z : Z) : string :=
  match z with
  | Z0 => "0"
  | Zpos p => str_nat (Pos.to_nat p)
  | Zneg p => "-" ++ str_nat (Pos.to_nat p)
  end.

(** The subscription pattern of [login_azure],
    [^[0-9a-f]{8}-[0-9a-f]{4}-[0-9a-f]{4}-[0-9a-f]{4}-[0-9a-f]{12}$]
    under [re.I], as a sequence of pattern items. *)
Inductive pat_item :=
| Hex (count : nat)      (* [0-9a-f]{count}, case-insensitive *)
| Dash.                  (* a literal - *)

Definition subscription_pattern : list pat_item :=
  [Hex 8; Dash; Hex 4; Dash; Hex 4; Dash; Hex 4; Dash; Hex 12].

Definition is_hex_ci (c : ascii) : bool :=
  let n := nat_of_ascii c in
  between 48 57 n          (* 0-9 *)
  || between 97 102 n      (* a-f *)
  || between 65 70 n.      (* A-F, through re.I *)

Fixpoint match_hex (count : nat) (s : list ascii) : option (list ascii) :=
  match count with
  | 0 => Some s
  | S k =>
      match s with
      | c :: r => if is_hex_ci c then match_hex k r else None
      | [] => None
      end
  end.

Fixpoint match_items (p : list pat_item) (s : list ascii)
  : option (list ascii) :=
  match p with
  | [] => Some s
  | Hex n :: p' =>
      match match_hex n s with
      | Some r => match_items p' r
      | None => None
      end
  | Dash :: p' =>
      match s with
      | c :: r => if Ascii.eqb c "-"%char then match_items p' r else None
      | [] => None
      end
  end.

(** [$] without [re.M]: the end of the string, or just before a final
    line feed. *)
Definition at_dollar (rest : list ascii) : bool :=
  match rest with
  | [] => true
  | [c] => Ascii.eqb c LF
  | _ => false
  end.

(** [re.match(pattern, s, re.I)] is not [None] *)
Definition re_match_subscription (s : string) : bool :=
  match match_items subscription_pattern (list_ascii_of_string s) with
  | Some rest => at_dollar rest
  | None => false
  end.

End Py.

(* ================================================================== *)
(** ** Processes, exceptions and the external services *)

(** What [subprocess.run] hands back. *)
Record completed := mkCompleted {
  returncode : Z;
  stdout : string;
  stderr : string
}.

Inductive exn :=
| EOFError
| FileNotFoundError (what : string)
| CalledProcessError (cmd : string) (rc : Z)
| IndexError
| ValueError (msg : string)
| ServiceError (msg : string)
| ClientError (msg : string).

(** [str(e)] as the diagnostics print it. *)
Definition exn_str (e : exn) : string :=
  match e with
  | EOFError => "EOF when reading a line"
  | FileNotFoundError w => "[Errno 2] No such file or directory: '" ++ w ++ "'"
  | CalledProcessError c rc =>
      "Command '" ++ c ++ "' returned non-zero exit status "
        ++ Py.str_Z rc ++ "."
  | IndexError => "list index out of range"
  | ValueError m => m
  | ServiceError m => m
  | ClientError m => m
  end.

(** The collaborators of the scripts.  [machine] is everything outside the
    Python process: the cloud account, the clusters, the local kube
    configuration, the installed tools and the files that tools and shell
    redirections write.  Listing calls are reads and answer [None] when
    the SDK raises; a listing answers with its pages.  The identity call
    of AWS answers with the exception it raises, if any: a
    [ServiceError] stands for the errors of botocore's own family
    ([BotoCoreError], [NoCredentialsError] among them), a [ClientError]
    for a request that the service turned down, which is not of that
    family.  A tool started by argument vector answers [None] when the
    executable is missing; a tool started through the shell always
    completes.  Tools see the [KUBECONFIG] variable of the process and may
    change the machine. *)
Record Services := mkServices {
  machine : Type;
  api_list : string -> machine -> option (list (list string));
  api_describe_cluster_arn : string -> machine -> option string;
  api_caller_identity : machine -> option exn;
  new_credential : machine -> bool;
  getcwd : machine -> string;
  exec_argv : list string -> option string -> machine
              -> option completed * machine;
  exec_shell : string -> option string -> machine -> completed * machine
}.

Inductive event :=
| EPrint (line : string)
| EInput (line : string)
| ERun (argv : list string)
| EShell (cmd : string)
| ECredential
| EApi (call : string)
| ESetenv (name value : string)
| EWrite (path : string).

(** An in-process action that reaches the provider or starts a tool. *)
Definition is_external_call (e : event) : bool :=
  match e with
  | EPrint _ | EInput _ => false
  | _ => true
  end.

(* ================================================================== *)
(** ** Shell pipelines

    The scripts count Kubernetes objects with shell pipelines: the first
    stage is a tool, the later stages are [tr] and [wc -l].  The tool is
    a collaborator; the text filters are modelled. *)

Module Sh.

Definition DQ : string := Eval cbv in String (Py.chr 34) EmptyString.
Definition NL : string := Eval cbv in String Py.LF EmptyString.

Inductive filter :=
| Tr_space_newline     (* tr " " "\n" *)
| Wc_l.                (* wc -l *)

Fixpoint count_lf (s : string) : nat :=
  match s with
  | EmptyString => 0
  | String c r => (if Ascii.eqb c Py.LF then 1 else 0) + count_lf r
  end.

Fixpoint tr_space_newline (s : string) : string :=
  match s with
  | EmptyString => EmptyString
  | String c r =>
      String (if Ascii.eqb c " "%char then Py.LF else c) (tr_space_newline r)
  end.

(** [wc -l] prints the number of line feeds of its input and a line
    feed. *)
Definition wc_l (s : string) : string := Py.str_nat (count_lf s) ++ NL.

Definition apply_filter (f : filter) (s : string) : string :=
  match f with
  | Tr_space_newline => tr_space_newline s
  | Wc_l => wc_l s
  end.

Definition filter_text (f : filter) : string :=
  match f with
  | Tr_space_newline => "tr " ++ DQ ++ " " ++ DQ ++ " " ++ DQ ++ NL ++ DQ
  | Wc_l => "wc -l"
  end.

(** The command line as the script writes it. *)
Definition render (tool : string) (fs : list filter) : string :=
  fold_left (fun acc f => acc ++ " | " ++ filter_text f) fs tool.

(** The pipeline's output is the tool's output passed through the
    filters; its status is the status of its last stage, and the filters
    succeed. *)
Definition pipe (fs : list filter) (p : completed) : completed :=
  match fs with
  | [] => p
  | _ => mkCompleted 0 (fold_left (fun s f => apply_filter f s) fs (stdout p))
                     (stderr p)
  end.

End Sh.

(* ================================================================== *)
(** ** The process: state, outcomes and the monad *)

Inductive outcome (A : Type) :=
| Ok (a : A)
| Raise (e : exn)
| Exit (code : Z).

Arguments Ok {A} a.
Arguments Raise {A} e.
Arguments Exit {A} code.

Section Process.

Variable S : Services.

(** [stdin] holds the lines still to be typed; [trace] what the process
    did so far; [kubeconfig] the value of [os.environ["KUBECONFIG"]];
    [files] the files the process itself wrote with [open(.., 'w')], the
    two reports.  What a tool or a shell redirection writes is part of
    the machine. *)
Record pstate := mkState {
  stdin : list string;
  trace : list event;
  kubeconfig : option string;
  files : list (string * string);
  mach : machine S
}.

Definition M (A : Type) : Type := pstate -> outcome A * pstate.

Definition ret {A} (a : A) : M A := fun st => (Ok a, st).

Definition bind {A B} (m : M A) (k : A -> M B) : M B :=
  fun st =>
    match m st with
    | (Ok a, st') => k a st'
    | (Raise e, st') => (Raise e, st')
    | (Exit c, st') => (Exit c, st')
    end.

Definition raise {A} (e : exn) : M A := fun st => (Raise e, st).

(** [sys.exit(code)]: [SystemExit] is no [Exception], no handler of the
    scripts catches it. *)
Definition sys_exit {A} (code : Z) : M A := fun st => (Exit code, st).

(** [try: m  except <catches> as e: h e] *)
Definition try_except {A} (m : M A) (catches : exn -> bool)
           (h : exn -> M A) : M A :=
  fun st =>
    match m st with
    | (Raise e, st') => if catches e then h e st' else (Raise e, st')
    | r => r
    end.

Definition log (e : event) (st : pstate) : pstate :=
  mkState (stdin st) (trace st ++ [e])%list (kubeconfig st) (files st) (mach st).

Definition set_mach (m : machine S) (st : pstate) : pstate :=
  mkState (stdin st) (trace st) (kubeconfig st) (files st) m.

Definition print (line : string) : M unit :=
  fun st => (Ok tt, log (EPrint line) st).

(** [input()]: the next line without its line feed; [EOFError] at the
    end of the input. *)
Definition input : M string :=
  fun st =>
    match stdin st with
    | [] => (Raise EOFError, st)
    | l :: rest =>
        (Ok l, log (EInput l)
                 (mkState rest (trace st) (kubeconfig st) (files st) (mach st)))
    end.

(** [os.environ["KUBECONFIG"] = v] *)
Definition set_kubeconfig (v : string) : M unit :=
  fun st =>
    (Ok tt, log (ESetenv "KUBECONFIG" v)
              (mkState (stdin st) (trace st) (Some v) (files st) (mach st))).

Definition set_files (fs : list (string * string)) (st : pstate) : pstate :=
  mkState (stdin st) (trace st) (kubeconfig st) fs (mach st).

Fixpoint file_put (path content : string) (fs : list (string * string))
  : list (string * string) :=
  match fs with
  | [] => [(path, content)]
  | (p, c) :: r =>
      if String.eqb p path then (p, content) :: r
      else (p, c) :: file_put path content r
  end.

Fixpoint file_get (path : string) (fs : list (string * string))
  : option string :=
  match fs with
  | [] => None
  | (p, c) :: r => if String.eqb p path then Some c else file_get path r
  end.

(** [open(path, 'w', newline='')]: the file is created or emptied. *)
Definition open_w (path : string) : M unit :=
  fun st => (Ok tt, log (EWrite path)
                      (set_files (file_put path "" (files st)) st)).

(** [f.write(text)] on the file opened at [path] *)
Definition file_write (path text : string) : M unit :=
  fun st =>
    let old := match file_get path (files st) with
               | Some c => c
               | None => ""
               end in
    (Ok tt, set_files (file_put path (old ++ text) (files st)) st).

Definition checked (check : bool) (cmd : string) (p : completed)
  : outcome completed :=
  if check && negb (Z.eqb (returncode p) 0)
  then Raise (CalledProcessError cmd (returncode p))
  else Ok p.

(** [subprocess.run(argv, check=check)] *)
Definition run_argv (argv : list string) (check : bool) : M completed :=
  fun st =>
    let st1 := log (ERun argv) st in
    match exec_argv S argv (kubeconfig st) (mach st) with
    | (None, m) => (Raise (FileNotFoundError (hd "" argv)), set_mach m st1)
    | (Some p, m) =>
        (checked check (String.concat " " argv) p, set_mach m st1)
    end.

(** [subprocess.run(cmd, shell=True, check=check, ...)] for the
    pipeline [tool | fs]. *)
Definition run_shell (tool : string) (fs : list Sh.filter) (check : bool)
  : M completed :=
  fun st =>
    let cmd := Sh.render tool fs in
    let st1 := log (EShell cmd) st in
    let (p, m) := exec_shell S tool (kubeconfig st) (mach st) in
    (checked check cmd (Sh.pipe fs p), set_mach m st1).

(** [subprocess.check_output(cmd, shell=True).decode().strip()] *)
Definition check_output_stripped (tool : string) (fs : list Sh.filter)
  : M string :=
  bind (run_shell tool fs true) (fun p => ret (Py.strip (stdout p))).

(** A listing call of an SDK client; the answer is the list of pages. *)
Definition sdk_list (call : string) : M (list (list string)) :=
  fun st =>
    let st1 := log (EApi call) st in
    match api_list S call (mach st) with
    | Some pages => (Ok pages, st1)
    | None => (Raise (ServiceError (call ++ " failed")), st1)
    end.

End Process.

Arguments ret {S A} a.
Arguments raise {S A} e.
Arguments sys_exit {S A} code.
Arguments input {S}.

Notation "x <- m ;; k" := (bind m (fun x => k))
  (at level 61, m at next level, right associativity).
Notation "m ;;; k" := (bind m (fun _ => k))
  (at level 61, right associativity).

(* ================================================================== *)
(** ** Python's [csv] module in its default dialect

    The scripts write their reports with [csv.DictWriter(f, fieldnames)]
    on a file opened with [newline='']: a comma as delimiter, the double
    quote as quote character, doubled quotes, minimal quoting, line terminator CR LF.  The
    reader is [csv.reader] of the same dialect (without its field size
    limit) on a file opened with [newline='']; it is what a report is
    parsed back with. *)

Module Csv.

Definition COMMA : ascii := ","%char.
Definition QUOTE : ascii := Eval cbv in Py.chr 34.
Definition CR : ascii := Eval cbv in Py.CR.
Definition LF : ascii := Eval cbv in Py.LF.

Definition is_newline (c : ascii) : bool := Ascii.eqb c LF || Ascii.eqb c CR.

(** *** Writer *)

(** Characters that force a field into quotes: the delimiter, the
    quote character and the characters of the line terminator. *)
Definition special (c : ascii) : bool :=
  Ascii.eqb c COMMA || Ascii.eqb c QUOTE || is_newline c.

Fixpoint escape (f : list ascii) : list ascii :=
  match f with
  | [] => []
  | c :: r => if Ascii.eqb c QUOTE then QUOTE :: QUOTE :: escape r
              else c :: escape r
  end.

Definition write_field (f : list ascii) : list ascii :=
  if existsb special f then (QUOTE :: escape f ++ [QUOTE])%list else f.

Fixpoint join_fields (fs : list (list ascii)) : list ascii :=
  match fs with
  | [] => []
  | [f] => write_field f
  | f :: rest => (write_field f ++ COMMA :: join_fields rest)%list
  end.

(** [writer.writerow(fields)]: a row of one empty field is written as
    a pair of quotes. *)
Definition write_row (fs : list (list ascii)) : list ascii :=
  match fs with
  | [[]] => [QUOTE; QUOTE; CR; LF]
  | _ => (join_fields fs ++ [CR; LF])%list
  end.

Definition write_rows (rows : list (list (list ascii))) : list ascii :=
  concat (map write_row rows).

(** *** Reader *)

Inductive mode :=
| START_RECORD
| START_FIELD
| IN_FIELD
| IN_QUOTED_FIELD
| QUOTE_IN_QUOTED_FIELD
| EAT_CRNL.

(** [cur] is the field being read, last character first; [row] the
    fields of the record being read, last field first; [out] the
    records read, last record first.  [pending_cr] says the last
    character was a CR whose line is not closed yet; [line_open] that
    characters were read since the last end of line. *)
Record reader := mkReader {
  md : mode;
  cur : list ascii;
  row : list (list ascii);
  out : list (list (list ascii));
  pending_cr : bool;
  line_open : bool
}.

Definition reset : reader := mkReader START_RECORD [] [] [] false false.

Definition with_mode (m : mode) (r : reader) : reader :=
  mkReader m (cur r) (row r) (out r) (pending_cr r) (line_open r).

(** [parse_add_char] *)
Definition add_char (c : ascii) (r : reader) : reader :=
  mkReader (md r) (c :: cur r) (row r) (out r) (pending_cr r) (line_open r).

(** [parse_save_field] *)
Definition save_field (r : reader) : reader :=
  mkReader (md r) [] (rev (cur r) :: row r) (out r)
           (pending_cr r) (line_open r).

Definition start_field (c : ascii) (r : reader) : reader :=
  if is_newline c then with_mode EAT_CRNL (save_field r)
  else if Ascii.eqb c QUOTE then with_mode IN_QUOTED_FIELD r
  else if Ascii.eqb c COMMA then with_mode START_FIELD (save_field r)
  else with_mode IN_FIELD (add_char c r).

(** [parse_process_char] on a character; [None] is [csv.Error]. *)
Definition process_char (c : ascii) (r : reader) : option reader :=
  match md r with
  | START_RECORD =>
      if is_newline c then Some (with_mode EAT_CRNL r)
      else Some (start_field c r)
  | START_FIELD => Some (start_field c r)
  | IN_FIELD =>
      if is_newline c then Some (with_mode EAT_CRNL (save_field r))
      else if Ascii.eqb c COMMA then Some (with_mode START_FIELD (save_field r))
      else Some (add_char c r)
  | IN_QUOTED_FIELD =>
      if Ascii.eqb c QUOTE then Some (with_mode QUOTE_IN_QUOTED_FIELD r)
      else Some (add_char c r)
  | QUOTE_IN_QUOTED_FIELD =>
      if Ascii.eqb c QUOTE then Some (with_mode IN_QUOTED_FIELD (add_char c r))
      else if Ascii.eqb c COMMA then Some (with_mode START_FIELD (save_field r))
      else if is_newline c then Some (with_mode EAT_CRNL (save_field r))
      else Some (with_mode IN_FIELD (add_char c r))
  | EAT_CRNL =>
      if is_newline c then Some r else None
  end.

(** [parse_process_char] on the end of a line. *)
Definition process_eol (r : reader) : reader :=
  match md r with
  | START_RECORD => r
  | START_FIELD | IN_FIELD | QUOTE_IN_QUOTED_FIELD =>
      with_mode START_RECORD (save_field r)
  | IN_QUOTED_FIELD => r
  | EAT_CRNL => with_mode START_RECORD r
  end.

(** The end of a line: the reader sees the end-of-line mark, and a
    record is handed out when the reader is back at the start of a
    record. *)
Definition end_line (r : reader) : reader :=
  let r1 := process_eol r in
  match md r1 with
  | START_RECORD =>
      mkReader START_RECORD [] [] (rev (row r1) :: out r1) false false
  | _ => mkReader (md r1) (cur r1) (row r1) (out r1) false false
  end.

Definition opened (pend : bool) (r : reader) : reader :=
  mkReader (md r) (cur r) (row r) (out r) pend true.

(** One character of the file.  Lines end after LF, after CR LF and
    after a CR that no LF follows. *)
Definition feed_char (c : ascii) (r : reader) : option reader :=
  if Ascii.eqb c LF then
    option_map (fun r' => end_line (opened false r')) (process_char c r)
  else
    let r0 := if pending_cr r then end_line r else r in
    option_map (opened (Ascii.eqb c CR)) (process_char c r0).

Fixpoint feed (s : list ascii) (r : reader) : option reader :=
  match s with
  | [] => Some r
  | c :: rest =>
      match feed_char c r with
      | Some r' => feed rest r'
      | None => None
      end
  end.

(** The end of the input: an open line is ended; a field left open is
    saved and its record handed out. *)
Definition finish (r : reader) : list (list (list ascii)) :=
  let r1 := if line_open r then end_line r else r in
  let o :=
    match md r1, cur r1 with
    | IN_QUOTED_FIELD, _ | _, _ :: _ =>
        rev (row (save_field r1)) :: out r1
    | _, [] => out r1
    end in
  rev o.

(** [list(csv.reader(f))] *)
Definition read (s : list ascii) : option (list (list (list ascii))) :=
  option_map finish (feed s reset).

(** *** [DictWriter] *)

Inductive value :=
| VStr (s : string)
| VInt (n : nat).

(** A field value as [writerow] writes it. *)
Definition value_str (v : value) : string :=
  match v with
  | VStr s => s
  | VInt n => Py.str_nat n
  end.

(** A Python [dict] with string keys, in insertion order. *)
Definition dict := list (string * value).

Fixpoint dict_get (d : dict) (k : string) : option value :=
  match d with
  | [] => None
  | (k', v) :: r => if String.eqb k' k then Some v else dict_get r k
  end.

(** [d[k] = v] *)
Fixpoint dict_set (d : dict) (k : string) (v : value) : dict :=
  match d with
  | [] => [(k, v)]
  | (k', v') :: r =>
      if String.eqb k' k then (k', v) :: r else (k', v') :: dict_set r k v
  end.

(** [DictWriter._dict_to_list]: keys outside [fieldnames] are refused
    ([None] is [ValueError]); missing keys are written as the empty
    string. *)
Definition dict_to_list (fieldnames : list string) (d : dict)
  : option (list string) :=
  if forallb (fun kv => Py.contains (fst kv) fieldnames) d
  then Some (map (fun k => match dict_get d k with
                           | Some v => value_str v
                           | None => ""
                           end) fieldnames)
  else None.

Definition row_text (fields : list string) : string :=
  string_of_list_ascii (write_row (map list_ascii_of_string fields)).

(** [writer.writeheader()] *)
Definition header_text (fieldnames : list string) : string :=
  row_text fieldnames.

(** [read] on file contents, with fields as strings *)
Definition read_text (content : string) : option (list (list string)) :=
  option_map (map (map string_of_list_ascii))
             (read (list_ascii_of_string content)).

End Csv.

Arguments print {S} line.
Arguments set_kubeconfig {S} v.
Arguments open_w {S} path.
Arguments file_write {S} path text.
Arguments run_argv {S} argv check.
Arguments run_shell {S} tool fs check.
Arguments check_output_stripped {S} tool fs.
Arguments sdk_list {S} call.

(* ================================================================== *)
(** ** What both scripts share *)

Section Common.

Variable S : Services.

(** [except Exception] *)
Definition any_exception (e : exn) : bool := true.

Definition is_FileNotFoundError (e : exn) : bool :=
  match e with FileNotFoundError _ => true | _ => false end.

Definition is_CalledProcessError (e : exn) : bool :=
  match e with CalledProcessError _ _ => true | _ => false end.

(** [for x in xs: body x] *)
Fixpoint for_each {A} (xs : list A) (body : A -> M S unit) : M S unit :=
  match xs with
  | [] => ret tt
  | x :: rest => body x ;;; for_each rest body
  end.

(** [writer.writerow(rowdict)] of a [DictWriter] on the file at [path] *)
Definition dict_writerow (path : string) (fieldnames : list string)
           (d : Csv.dict) : M S unit :=
  match Csv.dict_to_list fieldnames d with
  | Some fields => file_write path (Csv.row_text fields)
  | None => raise (ValueError "dict contains fields not in fieldnames")
  end.

(** [writer.writeheader()] *)
Definition dict_writeheader (path : string) (fieldnames : list string)
  : M S unit :=
  file_write path (Csv.header_text fieldnames).

Definition inventory_fieldnames : list string := ["Resource Type"; "Count"].

Definition cluster_fieldnames : list string :=
  ["Cluster Name"; "Nodes"; "Pods"; "Containers"].

(** The first report of the [__main__] blocks. *)
Definition write_inventory_csv (path : string) (inventory : Csv.dict)
  : M S unit :=
  open_w path ;;;
  dict_writeheader path inventory_fieldnames ;;;
  for_each inventory (fun item =>
    dict_writerow path inventory_fieldnames
      [("Resource Type", Csv.VStr (fst item)); ("Count", snd item)]).

(** The second report of the [__main__] blocks. *)
Definition write_cluster_csv (path : string) (data : list Csv.dict)
  : M S unit :=
  open_w path ;;;
  dict_writeheader path cluster_fieldnames ;;;
  for_each data (fun cluster_data =>
    dict_writerow path cluster_fieldnames cluster_data).

(** The three counting pipelines, the same text in both scripts. *)
Definition nodes_tool : string := "kubectl get nodes --no-headers".
Definition pods_tool : string :=
  "kubectl get pods --all-namespaces --no-headers".
Definition containers_tool : string :=
  "kubectl get pods --all-namespaces -o jsonpath=" ++ Sh.DQ
    ++ "{..status.containerStatuses[].name}" ++ Sh.DQ.

Definition nodes_filters : list Sh.filter := [Sh.Wc_l].
Definition pods_filters : list Sh.filter := [Sh.Wc_l].
Definition containers_filters : list Sh.filter :=
  [Sh.Tr_space_newline; Sh.Wc_l].

(** The dictionary appended to [clusters_data]. *)
Definition cluster_summary (name nodes pods containers : string)
  : Csv.dict :=
  [("Cluster Name", Csv.VStr name);
   ("Nodes", Csv.VStr nodes);
   ("Pods", Csv.VStr pods);
   ("Containers", Csv.VStr containers)].

End Common.

(* ================================================================== *)
(** ** [azure/azure_inventory_check-v7-with-csv.py] *)

Module Azure.
Section Script.

Variable S : Services.

Definition install_tool (tool : string) : M S unit :=
  if String.eqb tool "az" then
    run_shell "curl -sL https://aka.ms/InstallAzureCLIDeb | sudo bash"
              [] true ;;; ret tt
  else if String.eqb tool "kubectl" then
    run_shell "sudo snap install kubectl --classic" [] true ;;; ret tt
  else ret tt.

Definition tools : list (string * list string) :=
  [("az", ["--version"]); ("kubectl", ["version"; "--client"])].

Definition check_tools : M S unit :=
  for_each tools (fun t =>
    let tool := fst t in
    try_except
      (run_argv (tool :: snd t) true ;;; ret tt)
      is_FileNotFoundError
      (fun _ =>
         print (tool ++ " is not installed. Installing...") ;;;
         try_except (install_tool tool) is_CalledProcessError
           (fun e =>
              print ("Error installing " ++ tool ++ ": " ++ exn_str e) ;;;
              sys_exit 1))).

(** [InteractiveBrowserCredential()] *)
Definition interactive_browser_credential : M S unit :=
  fun st =>
    let st1 := log (ECredential) st in
    if new_credential S (mach st) then (Ok tt, st1)
    else (Raise (ServiceError "credential unavailable"), st1).

(** Returns the subscription id; the credential is a token without
    content. *)
Definition login_azure : M S string :=
  print "Please enter your Azure subscription ID:" ;;;
  line <- input ;;
  let subscription_id := Py.strip line in
  if negb (Py.re_match_subscription subscription_id) then
    print "Invalid subscription ID." ;;;
    sys_exit 1
  else
    try_except interactive_browser_credential any_exception
      (fun e =>
         print ("Error logging into Azure: " ++ exn_str e) ;;;
         sys_exit 1) ;;;
    ret subscription_id.

(** [len(list(pager))]: the pager walks every page. *)
Definition count_all (pages : list (list string)) : nat :=
  length (concat pages).

Definition get_inventory : M S Csv.dict :=
  try_except
    (let inventory : Csv.dict := [] in
     vms <- sdk_list "compute.virtual_machines.list_all" ;;
     let inventory := Csv.dict_set inventory "VMs"
                        (Csv.VInt (count_all vms)) in
     nets <- sdk_list "network.virtual_networks.list_all" ;;
     let inventory := Csv.dict_set inventory "Networks"
                        (Csv.VInt (count_all nets)) in
     accts <- sdk_list "storage.storage_accounts.list" ;;
     let inventory := Csv.dict_set inventory "Storage Accounts"
                        (Csv.VInt (count_all accts)) in
     aks <- sdk_list "containerservice.managed_clusters.list" ;;
     let inventory := Csv.dict_set inventory "AKS Clusters"
                        (Csv.VInt (count_all aks)) in
     ret inventory)
    any_exception
    (fun e =>
       print ("Error getting Azure inventory: " ++ exn_str e) ;;;
       sys_exit 1).

(** The accepted branch of the selection loop: lines 127 to 159. *)
Definition scan_cluster (cluster_name : string) (clusters_data : list Csv.dict)
  : M S (list Csv.dict) :=
  print "Enter the Resource Group of the AKS cluster:" ;;;
  line <- input ;;
  let resource_group := Py.strip line in
  print ("Getting data for " ++ cluster_name ++ "...") ;;;
  let cmd := "az aks get-credentials --resource-group " ++ resource_group
               ++ " --name " ++ cluster_name in
  result <- run_shell cmd [] false ;;
  if negb (Z.eqb (returncode result) 0) then
    print ("Error running '" ++ cmd
             ++ "'. Please check the resource group and cluster name."
             ++ Sh.NL ++ "Error details: " ++ stderr result) ;;;
    ret clusters_data
  else
    run_shell "kubectl config view --merge --flatten" [] true ;;;
    run_shell "kubectl get pods --all-namespaces" [] true ;;;
    result <- run_shell nodes_tool nodes_filters false ;;
    let nodes := Py.strip (stdout result) in
    result <- run_shell pods_tool pods_filters false ;;
    let pods := Py.strip (stdout result) in
    result <- run_shell containers_tool containers_filters false ;;
    let containers := Py.strip (stdout result) in
    ret (clusters_data
           ++ [cluster_summary cluster_name nodes pods containers])%list.

(** The [while True] loop of [get_aks_data].  Every round reads a line,
    so [rounds] larger than the number of lines left is never used up
    (lemma [selection_loop_rounds] below); [get_aks_data] starts it with
    one more round than there are lines. *)
Fixpoint selection_loop (rounds : nat) (clusters : list string)
         (clusters_data : list Csv.dict) : M S (list Csv.dict) :=
  match rounds with
  | 0 => raise EOFError
  | Datatypes.S rounds' =>
      print "Enter the name of the AKS cluster you want to scan, or 'done' to finish:" ;;;
      line <- input ;;
      let cluster_name := Py.strip line in
      if String.eqb (Py.lower cluster_name) "done" then
        ret clusters_data
      else if Py.contains cluster_name clusters then
        clusters_data' <- scan_cluster cluster_name clusters_data ;;
        selection_loop rounds' clusters clusters_data'
      else
        print "Invalid cluster name. Please try again." ;;;
        selection_loop rounds' clusters clusters_data
  end.

Definition get_aks_data : M S (list Csv.dict) :=
  try_except
    (pages <- sdk_list "containerservice.managed_clusters.list" ;;
     let clusters := concat pages in
     fun st => selection_loop (Datatypes.S (length (stdin st))) clusters [] st)
    any_exception
    (fun e =>
       print ("Error getting AKS data: " ++ exn_str e) ;;;
       sys_exit 1).

Definition main : M S unit :=
  check_tools ;;;
  _subscription_id <- login_azure ;;
  inventory <- get_inventory ;;
  aks_data <- get_aks_data ;;
  write_inventory_csv "azure_inventory.csv" inventory ;;;
  write_cluster_csv "aks_data.csv" aks_data.

End Script.
End Azure.

(* ================================================================== *)
(** ** [aws/aws_inventory_check-v3.py] *)

Module Aws.
Section Script.

Variable S : Services.

Definition install_tool (tool : string) : M S unit :=
  if String.eqb tool "aws" then
    run_shell "pip3 uninstall -y awscli" [] true ;;;
    run_shell ("curl " ++ Sh.DQ
                 ++ "https://awscli.amazonaws.com/awscli-exe-linux-x86_64.zip"
                 ++ Sh.DQ ++ " -o " ++ Sh.DQ ++ "awscliv2.zip" ++ Sh.DQ)
              [] true ;;;
    run_shell "unzip awscliv2.zip" [] true ;;;
    run_shell "sudo ./aws/install" [] true ;;;
    ret tt
  else if String.eqb tool "kubectl" then
    run_shell "sudo snap install kubectl --classic" [] true ;;; ret tt
  else ret tt.

Definition tools : list (string * list string) :=
  [("aws", ["--version"]); ("kubectl", ["version"; "--client"])].

Definition check_tools : M S unit :=
  for_each tools (fun t =>
    let tool := fst t in
    try_except
      (run_argv (tool :: snd t) true ;;;
       print (tool ++ " is installed correctly."))
      is_FileNotFoundError
      (fun _ =>
         print (tool ++ " is not installed. Installing...") ;;;
         try_except (install_tool tool) is_CalledProcessError
           (fun e =>
              print ("Error installing " ++ tool ++ ": " ++ exn_str e) ;;;
              sys_exit 1))).

(** [boto3.client('sts').get_caller_identity()] *)
Definition get_caller_identity : M S unit :=
  fun st =>
    let st1 := log (EApi "sts.get_caller_identity") st in
    match api_caller_identity S (mach st) with
    | None => (Ok tt, st1)
    | Some e => (Raise e, st1)
    end.

(** [except (NoCredentialsError, BotoCoreError)]: the errors of
    botocore's own family.  [ClientError] derives from [Exception]
    directly and is not caught here. *)
Definition is_BotoCoreError (e : exn) : bool :=
  match e with ServiceError _ => true | _ => false end.

Definition login_aws : M S unit :=
  try_except
    (get_caller_identity ;;;
     print "Logged into AWS successfully.")
    is_BotoCoreError
    (fun e =>
       print ("Error logging into AWS: " ++ exn_str e) ;;;
       sys_exit 1).

(** [response[key]] of one call without a continuation token: what the
    service puts on its first page. *)
Definition first_page (pages : list (list string)) : list string :=
  hd [] pages.

Definition get_inventory : M S Csv.dict :=
  try_except
    (let inventory : Csv.dict := [] in
     reservations <- sdk_list "ec2.describe_instances" ;;
     let inventory := Csv.dict_set inventory "EC2 Instances"
                        (Csv.VInt (length (first_page reservations))) in
     vpcs <- sdk_list "ec2.describe_vpcs" ;;
     let inventory := Csv.dict_set inventory "VPCs"
                        (Csv.VInt (length (first_page vpcs))) in
     buckets <- sdk_list "s3.list_buckets" ;;
     let inventory := Csv.dict_set inventory "S3 Buckets"
                        (Csv.VInt (length (first_page buckets))) in
     clusters <- sdk_list "eks.list_clusters" ;;
     let inventory := Csv.dict_set inventory "EKS Clusters"
                        (Csv.VInt (length (first_page clusters))) in
     ret inventory)
    any_exception
    (fun e =>
       print ("Error getting AWS inventory: " ++ exn_str e) ;;;
       sys_exit 1).

(** [eks.describe_cluster(name=..)["cluster"]["arn"].split(":")[3]] *)
Definition cluster_region (cluster_name : string) : M S string :=
  fun st =>
    let st1 := log (EApi "eks.describe_cluster") st in
    match api_describe_cluster_arn S cluster_name (mach st) with
    | None => (Raise (ServiceError "eks.describe_cluster failed"), st1)
    | Some arn =>
        match nth_error (Py.split ":"%char arn) 3 with
        | Some region => (Ok region, st1)
        | None => (Raise IndexError, st1)
        end
    end.

(** [os.getcwd()] *)
Definition py_getcwd : M S string := fun st => (Ok (getcwd S (mach st)), st).

(** The body of the [for] loop of [get_eks_data]: lines 96 to 110.  The
    file [kubeconfig.yaml] that the redirection of line 98 creates or
    empties is written by the shell: it is part of the machine, which the
    command may change, and not of [files]. *)
Definition scan_cluster (cluster_name : string)
           (clusters_data : list Csv.dict) : M S (list Csv.dict) :=
  region <- cluster_region cluster_name ;;
  let cmd := "aws eks update-kubeconfig --region " ++ region
               ++ " --name " ++ cluster_name in
  run_shell cmd [] true ;;;
  run_shell "kubectl config view --merge --flatten > kubeconfig.yaml"
            [] true ;;;
  cwd <- py_getcwd ;;
  set_kubeconfig (cwd ++ "/kubeconfig.yaml") ;;;
  nodes <- check_output_stripped nodes_tool nodes_filters ;;
  pods <- check_output_stripped pods_tool pods_filters ;;
  containers <- check_output_stripped containers_tool containers_filters ;;
  ret (clusters_data
         ++ [cluster_summary cluster_name nodes pods containers])%list.

Fixpoint scan_clusters (clusters : list string)
         (clusters_data : list Csv.dict) : M S (list Csv.dict) :=
  match clusters with
  | [] => ret clusters_data
  | cluster_name :: rest =>
      clusters_data' <- scan_cluster cluster_name clusters_data ;;
      scan_clusters rest clusters_data'
  end.

Definition get_eks_data : M S (list Csv.dict) :=
  try_except
    (pages <- sdk_list "eks.list_clusters" ;;
     scan_clusters (first_page pages) [])
    any_exception
    (fun e =>
       print ("Error getting EKS data: " ++ exn_str e) ;;;
       sys_exit 1).

Definition main : M S unit :=
  check_tools ;;;
  login_aws ;;;
  inventory <- get_inventory ;;
  eks_data <- get_eks_data ;;
  write_inventory_csv "aws_inventory.csv" inventory ;;;
  write_cluster_csv "eks_data.csv" eks_data.

End Script.
End Aws.

(* ================================================================== *)
(** ** A table-driven machine

    Concrete collaborators for running the scripts on examples: the
    machine is the name of the current kube context; listings, cluster
    descriptions and tool answers are looked up in tables.  A shell entry
    is keyed by the tool text and, when given, by the context it needs; it
    carries the tool's answer and the context it leaves behind. *)

Module Table.

Record shell_entry := mkEntry {
  se_tool : string;
  se_context : option string;
  se_answer : completed;
  se_new_context : option string
}.

Record table := mkTable {
  listings : list (string * list (list string));
  arns : list (string * string);
  identity_ok : bool;
  credential_ok : bool;
  missing_tools : list string;
  shell : list shell_entry
}.

Fixpoint lookup {A} (k : string) (t : list (string * A)) : option A :=
  match t with
  | [] => None
  | (k', a) :: r => if String.eqb k' k then Some a else lookup k r
  end.

Definition entry_matches (tool ctx : string) (e : shell_entry) : bool :=
  String.eqb (se_tool e) tool
  && match se_context e with
     | None => true
     | Some c => String.eqb c ctx
     end.

Definition ok_completed : completed := mkCompleted 0 "" "".

Definition run_shell_entry (t : table) (tool : string) (ctx : string)
  : completed * string :=
  match find (entry_matches tool ctx) (shell t) with
  | Some e => (se_answer e,
               match se_new_context e with Some c => c | None => ctx end)
  | None => (ok_completed, ctx)
  end.

Definition services (t : table) : Services :=
  mkServices
    (machine := string)
    (fun call _ => lookup call (listings t))
    (fun name _ => lookup name (arns t))
    (fun _ => if identity_ok t then None
              else Some (ServiceError "Unable to locate credentials"))
    (fun _ => credential_ok t)
    (fun _ => "/home/operator")
    (fun argv _ ctx =>
       if Py.contains (hd "" argv) (missing_tools t) then (None, ctx)
       else (Some ok_completed, ctx))
    (fun tool _ ctx => run_shell_entry t tool ctx).

Definition start (t : table) (lines : list string) : pstate (services t) :=
  mkState (services t) lines [] None [] "".

End Table.

(* ================================================================== *)
(** ** Example machines *)

Module Demo.

Import Table.

(** An account whose EKS listing needs two pages: a full page of
    [page_size] names and one more name. *)
Definition page_size : nat := 100.

Definition two_page_listing : list (list string) :=
  [repeat "prod" page_size; ["extra"]].

Definition two_page_account : table :=
  mkTable
    [("ec2.describe_instances", [["r-1"]]);
     ("ec2.describe_vpcs", [["vpc-1"]]);
     ("s3.list_buckets", [["logs"]]);
     ("eks.list_clusters", two_page_listing);
     ("compute.virtual_machines.list_all", [["vm-1"]]);
     ("network.virtual_networks.list_all", [["net-1"]]);
     ("storage.storage_accounts.list", [["store1"]]);
     ("containerservice.managed_clusters.list", two_page_listing)]
    [] true true [] [].

(** An account with the clusters [a], [b] and [empty].  The credentials
    of [a] cannot be fetched; on [b] the tools print two node lines, three
    pod lines and five container names; on [empty] they print nothing. *)
Definition denied : completed := mkCompleted 1 "" "access denied".

Definition kubectl_on (context tool out : string) : shell_entry :=
  mkEntry tool (Some context) (mkCompleted 0 out "") None.

Definition two_lines : string := "n1 Ready" ++ Sh.NL ++ "n2 Ready" ++ Sh.NL.

Definition three_lines : string :=
  "kube-system p1" ++ Sh.NL ++ "kube-system p2" ++ Sh.NL
    ++ "default p3" ++ Sh.NL.

Definition fleet : table :=
  mkTable
    [("compute.virtual_machines.list_all", [["vm-1"; "vm-2"]; ["vm-3"]]);
     ("network.virtual_networks.list_all", [["net-1"]]);
     ("storage.storage_accounts.list", [[]]);
     ("containerservice.managed_clusters.list", [["a"; "b"; "empty"]]);
     ("ec2.describe_instances", [["r-1"]]);
     ("ec2.describe_vpcs", [["vpc-1"]]);
     ("s3.list_buckets", [["logs"]]);
     ("eks.list_clusters", [["b"; "a"]])]
    [("a", "arn:aws:eks:us-east-1:111122223333:cluster/a");
     ("b", "arn:aws:eks:us-east-1:111122223333:cluster/b");
     ("empty", "arn:aws:eks:us-east-1:111122223333:cluster/empty")]
    true true []
    [mkEntry "az aks get-credentials --resource-group rg --name a" None
             denied None;
     mkEntry "az aks get-credentials --resource-group rg --name b" None
             ok_completed (Some "b");
     mkEntry "az aks get-credentials --resource-group rg --name empty" None
             ok_completed (Some "empty");
     mkEntry "aws eks update-kubeconfig --region us-east-1 --name a" None
             denied None;
     mkEntry "aws eks update-kubeconfig --region us-east-1 --name empty" None
             ok_completed (Some "empty");
     mkEntry "aws eks update-kubeconfig --region us-east-1 --name b" None
             ok_completed (Some "b");
     kubectl_on "b" nodes_tool two_lines;
     kubectl_on "b" pods_tool three_lines;
     kubectl_on "b" containers_tool "c1 c2 c3 c4 c5"].

(** The same account with the storage listing out of order. *)
Definition storage_down : table :=
  mkTable
    [("compute.virtual_machines.list_all", [["vm-1"]]);
     ("network.virtual_networks.list_all", [["net-1"]]);
     ("containerservice.managed_clusters.list", [["a"]]);
     ("ec2.describe_instances", [["r-1"]]);
     ("ec2.describe_vpcs", [["vpc-1"]]);
     ("eks.list_clusters", [["a"]])]
    [] true true [] [].

Definition subscription : string := "0f8fad5b-d9cb-469f-a165-70867728950e".

(** A cluster name with a comma, a quote and a line break. *)
Definition awkward_name : string :=
  "prod,eu" ++ Sh.DQ ++ "west" ++ Sh.NL ++ "1".

(** An AWS account that lists [b] alone. *)
Definition only_b : table :=
  mkTable [("eks.list_clusters", [["b"]])] (arns fleet) true true []
          (shell fleet).

(** The account of [fleet] with the AWS listing reduced to [b]. *)
Definition fleet_of_b : table :=
  mkTable
    [("ec2.describe_instances", [["r-1"]]);
     ("ec2.describe_vpcs", [["vpc-1"]]);
     ("s3.list_buckets", [["logs"]]);
     ("eks.list_clusters", [["b"]])]
    (arns fleet) true true [] (shell fleet).


End Demo.

(* ================================================================== *)
(** * Properties *)

(** Projections of a state after logging or after a tool ran. *)
Ltac state_simpl :=
  cbv beta zeta;
  cbn [kubeconfig mach stdin files trace set_mach log set_files].

(** ** The monad *)

Section MonadFacts.

Variable S : Services.

Lemma bind_ok {A B} (m : M S A) (k : A -> M S B) st a st' :
  m st = (Ok a, st') -> bind m k st = k a st'.
Proof. intros H. unfold bind. now rewrite H. Qed.

Lemma bind_raise {A B} (m : M S A) (k : A -> M S B) st e st' :
  m st = (Raise e, st') -> bind m k st = (Raise e, st').
Proof. intros H. unfold bind. now rewrite H. Qed.

Lemma bind_exit {A B} (m : M S A) (k : A -> M S B) st c st' :
  m st = (Exit c, st') -> bind m k st = (Exit c, st').
Proof. intros H. unfold bind. now rewrite H. Qed.

Lemma bind_assoc {A B C} (m : M S A) (k : A -> M S B) (h : B -> M S C) st :
  bind (bind m k) h st = bind m (fun a => bind (k a) h) st.
Proof.
  unfold bind. destruct (m st) as [[a | e | c] st1]; reflexivity.
Qed.

Lemma bind_ext {A B} (m : M S A) (k1 k2 : A -> M S B) st :
  (forall a st1, k1 a st1 = k2 a st1) -> bind m k1 st = bind m k2 st.
Proof.
  intros H. unfold bind. destruct (m st) as [[a | e | c] st1]; auto.
Qed.

Lemma bind_ret_l {A B} (a : A) (k : A -> M S B) st :
  bind (ret a) k st = k a st.
Proof. reflexivity. Qed.

Lemma input_cons (st : pstate S) line rest :
  stdin st = line :: rest ->
  input st = (Ok line,
              log (EInput line)
                  (mkState S rest (trace st) (kubeconfig st) (files st)
                           (mach st))).
Proof. intros H. unfold input. now rewrite H. Qed.

Lemma input_nil (st : pstate S) :
  stdin st = [] -> input st = (Raise EOFError, st).
Proof. intros H. unfold input. now rewrite H. Qed.

End MonadFacts.

(** ** Identifier validation in [login_azure] *)

Section Login.

Variable S : Services.

Definition login_rejection_events (line : string) : list event :=
  [EPrint "Please enter your Azure subscription ID:";
   EInput line;
   EPrint "Invalid subscription ID."].

Lemma login_azure_invalid (st : pstate S) line rest :
  stdin st = line :: rest ->
  Py.re_match_subscription (Py.strip line) = false ->
  Azure.login_azure st =
    (Exit 1,
     mkState S rest (trace st ++ login_rejection_events line)%list
             (kubeconfig st) (files st) (mach st)).
Proof.
  intros Hin Hbad.
  unfold Azure.login_azure, bind, print, input, log. simpl.
  rewrite Hin. simpl. rewrite Hbad. simpl.
  unfold sys_exit, login_rejection_events.
  repeat rewrite <- app_assoc. reflexivity.
Qed.

(** C4.  A subscription identifier that fails the syntax pattern makes
    [login_azure] exit with status 1 having only printed and read: no
    credential is requested, no SDK call and no tool is started, and the
    machine is untouched.  In [main] the run ends there, so everything
    the run did after the tool check is those three terminal events. *)
Theorem invalid_subscription_fails_before_any_call
        (st : pstate S) (line : string) (rest : list string) :
  stdin st = line :: rest ->
  Py.re_match_subscription (Py.strip line) = false ->
  (exists st',
      Azure.login_azure st = (Exit 1, st')
      /\ trace st' = (trace st ++ login_rejection_events line)%list
      /\ forallb (fun e => negb (is_external_call e))
                 (login_rejection_events line) = true
      /\ mach st' = mach st /\ files st' = files st)
  /\ (forall st0,
         Azure.check_tools st0 = (Ok tt, st) ->
         exists st',
           Azure.main st0 = (Exit 1, st')
           /\ trace st' = (trace st ++ login_rejection_events line)%list
           /\ mach st' = mach st /\ files st' = files st).
Proof.
  intros Hin Hbad.
  pose proof (login_azure_invalid st Hin Hbad) as Hlogin.
  split.
  - eexists. split; [exact Hlogin|]. simpl. repeat split; reflexivity.
  - intros st0 Htools. eexists. split.
    + unfold Azure.main. rewrite (bind_ok _ _ _ Htools).
      rewrite (bind_exit _ _ _ Hlogin). reflexivity.
    + simpl. repeat split; reflexivity.
Qed.

End Login.

(** ** What the primitives leave alone *)

Section Frames.

Variable S : Services.

(** [m] reads no input and writes no file. *)
Definition quiet {A} (m : M S A) : Prop :=
  forall st r st', m st = (r, st') ->
                   stdin st' = stdin st /\ files st' = files st.

Lemma quiet_print line : quiet (print (S:=S) line).
Proof. intros st r st' H. inversion H; subst. auto. Qed.

Lemma quiet_ret {A} (a : A) : quiet (ret (S:=S) a).
Proof. intros st r st' H. inversion H; subst. auto. Qed.

Lemma quiet_run_shell tool fs check : quiet (run_shell (S:=S) tool fs check).
Proof.
  intros st r st' H. unfold run_shell in H.
  destruct (exec_shell S tool (kubeconfig st) (mach st)) as [p m].
  inversion H; subst. auto.
Qed.

Lemma quiet_sdk_list call : quiet (sdk_list (S:=S) call).
Proof.
  intros st r st' H. unfold sdk_list in H.
  destruct (api_list S call (mach st)); inversion H; subst; auto.
Qed.

Lemma quiet_set_kubeconfig v : quiet (set_kubeconfig (S:=S) v).
Proof. intros st r st' H. inversion H; subst. auto. Qed.

Lemma quiet_bind {A B} (m : M S A) (k : A -> M S B) :
  quiet m -> (forall a, quiet (k a)) -> quiet (bind m k).
Proof.
  intros Hm Hk st r st' H. unfold bind in H.
  destruct (m st) as [[a | e | c] st1] eqn:E;
    destruct (Hm _ _ _ E) as [H1 H2].
  - destruct (Hk a _ _ _ H) as [H3 H4]. split; congruence.
  - inversion H; subst. auto.
  - inversion H; subst. auto.
Qed.

Lemma quiet_check_output tool fs :
  quiet (check_output_stripped (S:=S) tool fs).
Proof.
  apply quiet_bind; [apply quiet_run_shell | intros; apply quiet_ret].
Qed.

End Frames.

Create HintDb quiet.

#[local] Hint Resolve quiet_print quiet_ret quiet_run_shell quiet_sdk_list
  quiet_set_kubeconfig quiet_check_output : quiet.

(** ** The selection loop of [get_aks_data] *)

Section Selection.

Variable S : Services.

Definition is_sentinel (line : string) : bool :=
  String.eqb (Py.lower (Py.strip line)) "done".

(** A line the loop turns down: neither the sentinel nor the name of an
    enumerated cluster. *)
Definition turned_down (clusters : list string) (line : string) : bool :=
  negb (is_sentinel line) && negb (Py.contains (Py.strip line) clusters).

Definition selection_prompt : string :=
  "Enter the name of the AKS cluster you want to scan, or 'done' to finish:".

(** One round of the loop, unfolded. *)
Lemma selection_loop_step rounds clusters data (st : pstate S) line rest :
  stdin st = line :: rest ->
  Azure.selection_loop (Datatypes.S rounds) clusters data st =
    let st1 := log (EInput line)
                 (mkState S rest (trace st ++ [EPrint selection_prompt])%list
                          (kubeconfig st) (files st) (mach st)) in
    if is_sentinel line then (Ok data, st1)
    else if Py.contains (Py.strip line) clusters then
      bind (Azure.scan_cluster (Py.strip line) data)
           (Azure.selection_loop rounds clusters) st1
    else
      bind (print "Invalid cluster name. Please try again.")
           (fun _ => Azure.selection_loop rounds clusters data) st1.
Proof.
  intros Hin. simpl. unfold bind at 1. simpl.
  unfold bind at 1. unfold input. simpl. rewrite Hin. simpl.
  unfold is_sentinel.
  destruct (String.eqb (Py.lower (Py.strip line)) "done"); [reflexivity|].
  destruct (Py.contains (Py.strip line) clusters); reflexivity.
Qed.

Lemma selection_loop_eof rounds clusters data (st : pstate S) :
  stdin st = [] ->
  Azure.selection_loop (Datatypes.S rounds) clusters data st =
    (Raise EOFError, log (EPrint selection_prompt) st).
Proof.
  intros Hin. simpl. unfold bind at 1. simpl.
  unfold bind at 1. unfold input. simpl. rewrite Hin. reflexivity.
Qed.

(** The accepted branch reads exactly one line when it reads at all. *)
Lemma scan_cluster_stdin name data (st : pstate S) r st' :
  Azure.scan_cluster name data st = (r, st') ->
  length (stdin st') <= length (stdin st).
Proof.
  unfold Azure.scan_cluster. intros H.
  unfold bind at 1 in H. simpl in H.
  unfold bind at 1 in H. unfold input in H. simpl in H.
  destruct (stdin st) as [|line rest] eqn:Hin.
  - inversion H; subst. simpl. rewrite Hin. auto.
  - simpl in H.
    match type of H with
    | ?m ?s = _ =>
        assert (Hq : quiet m);
        [| destruct (Hq _ _ _ H) as [Hs _]; rewrite Hs; simpl; lia]
    end.
    apply quiet_bind; [auto with quiet|]. intros _.
    apply quiet_bind; [auto with quiet|]. intros res.
    destruct (negb (returncode res =? 0)%Z).
    + apply quiet_bind; [auto with quiet|]. intros; auto with quiet.
    + repeat (apply quiet_bind; [auto with quiet|]; intros).
      auto with quiet.
Qed.

(** Rounds beyond the lines left are never used. *)
Lemma selection_loop_rounds r1 : forall r2 clusters data (st : pstate S),
  length (stdin st) < r1 -> length (stdin st) < r2 ->
  Azure.selection_loop r1 clusters data st =
  Azure.selection_loop r2 clusters data st.
Proof.
  induction r1 as [|r1 IH]; intros r2 clusters data st H1 H2; [lia|].
  destruct r2 as [|r2]; [lia|].
  destruct (stdin st) as [|line rest] eqn:Hin.
  - now rewrite !selection_loop_eof.
  - rewrite !(selection_loop_step _ _ _ _ Hin). cbv zeta.
    simpl in H1, H2.
    destruct (is_sentinel line); [reflexivity|].
    destruct (Py.contains (Py.strip line) clusters).
    + unfold bind.
      match goal with
      | |- context [Azure.scan_cluster ?n ?d ?s] =>
          destruct (Azure.scan_cluster n d s) as [[d' | e | c] st2] eqn:E;
          try reflexivity;
          apply scan_cluster_stdin in E; simpl in E
      end.
      apply IH; lia.
    + unfold bind. simpl. apply IH; simpl; lia.
Qed.

(** *** The sentinel *)

Lemma list_ascii_of_string_app (a b : string) :
  list_ascii_of_string (a ++ b)
  = (list_ascii_of_string a ++ list_ascii_of_string b)%list.
Proof. induction a as [|c a IH]; simpl; [reflexivity | now rewrite IH]. Qed.

Lemma upper_not_space (c : ascii) :
  Py.between 65 90 (nat_of_ascii c) = true -> Py.isspace c = false.
Proof.
  destruct c as [[] [] [] [] [] [] [] []]; vm_compute; congruence.
Qed.

Lemma lower_char_not_space (c x : ascii) :
  Py.lower_char c = x -> Py.isspace x = false -> Py.isspace c = false.
Proof.
  unfold Py.lower_char. intros H Hx.
  destruct (Py.between 65 90 (nat_of_ascii c)) eqn:E.
  - now apply upper_not_space.
  - now subst.
Qed.

Lemma lstrip_spaces (ws : list ascii) c t :
  forallb Py.isspace ws = true -> Py.isspace c = false ->
  Py.lstrip (ws ++ c :: t) = c :: t.
Proof.
  intros Hws Hc. induction ws as [|w ws IH]; simpl.
  - now rewrite Hc.
  - simpl in Hws. apply andb_prop in Hws as [Hw Hws].
    rewrite Hw. now apply IH.
Qed.

Lemma forallb_rev {A} (f : A -> bool) (l : list A) :
  forallb f l = true -> forallb f (rev l) = true.
Proof.
  rewrite !forallb_forall. intros H x Hx. apply H. now apply in_rev.
Qed.

(** Surrounding white space and letter case do not matter: a line made
    of white space, a spelling of [done] in any letter case, and white
    space again is the sentinel. *)
Lemma sentinel_padded (ws1 ws2 : list ascii) (w : string) :
  forallb Py.isspace ws1 = true ->
  forallb Py.isspace ws2 = true ->
  Py.lower w = "done" ->
  is_sentinel (string_of_list_ascii ws1 ++ w ++ string_of_list_ascii ws2)
  = true.
Proof.
  intros H1 H2 Hw.
  destruct w as [|c1 [|c2 [|c3 [|c4 [|c5 w]]]]]; try discriminate.
  simpl in Hw. injection Hw as E1 E2 E3 E4.
  assert (N1 : Py.isspace c1 = false)
    by (eapply lower_char_not_space; [exact E1 | reflexivity]).
  assert (N4 : Py.isspace c4 = false)
    by (eapply lower_char_not_space; [exact E4 | reflexivity]).
  unfold is_sentinel, Py.strip.
  rewrite !list_ascii_of_string_app, !list_ascii_of_string_of_list_ascii.
  simpl list_ascii_of_string.
  change ((c1 :: c2 :: c3 :: c4 :: []) ++ ws2)%list
    with (c1 :: ([c2; c3; c4] ++ ws2))%list.
  rewrite lstrip_spaces by assumption.
  unfold Py.rstrip.
  change (c1 :: [c2; c3; c4] ++ ws2)%list with ([c1; c2; c3; c4] ++ ws2)%list.
  rewrite rev_app_distr.
  change (rev [c1; c2; c3; c4]) with (c4 :: [c3; c2; c1]).
  rewrite lstrip_spaces by (try apply forallb_rev; assumption).
  simpl. now rewrite E1, E2, E3, E4.
Qed.

(** *** Lines turned down, then the sentinel *)

Lemma loop_until_sentinel clusters line rest :
  is_sentinel line = true ->
  forall pre rounds data (st : pstate S),
    stdin st = (pre ++ line :: rest)%list ->
    length pre < rounds ->
    forallb (turned_down clusters) pre = true ->
    exists st',
      Azure.selection_loop rounds clusters data st = (Ok data, st')
      /\ stdin st' = rest /\ files st' = files st /\ mach st' = mach st.
Proof.
  intros Hs. induction pre as [|l pre IH]; intros rounds data st Hin Hr Hpre.
  - destruct rounds as [|rounds]; [simpl in Hr; lia|].
    simpl in Hin. rewrite (selection_loop_step _ _ _ _ Hin). cbv zeta.
    rewrite Hs. eexists. split; [reflexivity|]. simpl. auto.
  - destruct rounds as [|rounds]; [simpl in Hr; lia|].
    simpl in Hin, Hpre, Hr. apply andb_prop in Hpre as [Hl Hpre].
    unfold turned_down in Hl. apply andb_prop in Hl as [Hl1 Hl2].
    rewrite (selection_loop_step _ _ _ _ Hin). cbv zeta.
    apply negb_true_iff in Hl1, Hl2. rewrite Hl1, Hl2.
    unfold bind at 1. simpl.
    match goal with
    | |- context [Azure.selection_loop rounds clusters data ?s] =>
        destruct (IH rounds data s) as [st' [E [A [B C]]]];
        [reflexivity | lia | exact Hpre |]
    end.
    exists st'. split; [exact E|]. simpl in B, C. auto.
Qed.

Definition managed_clusters_list : string :=
  "containerservice.managed_clusters.list".

Lemma get_aks_data_listed (st : pstate S) pages :
  api_list S managed_clusters_list (mach st) = Some pages ->
  Azure.get_aks_data st =
    try_except
      (Azure.selection_loop (Datatypes.S (length (stdin st)))
                            (concat pages) [])
      any_exception
      (fun e => print ("Error getting AKS data: " ++ exn_str e) ;;;
                sys_exit 1)
      (log (EApi managed_clusters_list) st).
Proof.
  intros H. unfold Azure.get_aks_data, try_except, bind, sdk_list.
  unfold managed_clusters_list in H. rewrite H. reflexivity.
Qed.

Lemma get_aks_data_list_fails (st : pstate S) :
  api_list S managed_clusters_list (mach st) = None ->
  fst (Azure.get_aks_data st) = Exit 1.
Proof.
  intros H. unfold Azure.get_aks_data, try_except, bind, sdk_list.
  unfold managed_clusters_list in H. rewrite H. reflexivity.
Qed.

End Selection.

(** ** Files and reports *)

Section Reports.

Variable S : Services.

Lemma str_app_assoc (a b c : string) : (a ++ b) ++ c = a ++ (b ++ c).
Proof. induction a as [|x a IH]; simpl; [reflexivity | now rewrite IH]. Qed.

Lemma str_app_nil_r (a : string) : a ++ "" = a.
Proof. induction a as [|x a IH]; simpl; [reflexivity | now rewrite IH]. Qed.

Lemma string_of_list_ascii_app (a b : list ascii) :
  string_of_list_ascii (a ++ b)
  = string_of_list_ascii a ++ string_of_list_ascii b.
Proof. induction a as [|x a IH]; simpl; [reflexivity | now rewrite IH]. Qed.

Lemma file_get_put_same path c fs :
  file_get path (file_put path c fs) = Some c.
Proof.
  induction fs as [|[p x] fs IH]; simpl.
  - now rewrite String.eqb_refl.
  - destruct (String.eqb p path) eqn:E; simpl; now rewrite E.
Qed.

Lemma file_get_put_other path q c fs :
  q <> path -> file_get q (file_put path c fs) = file_get q fs.
Proof.
  intros Hne. induction fs as [|[p x] fs IH]; simpl.
  - destruct (String.eqb path q) eqn:E; [|reflexivity].
    apply String.eqb_eq in E. congruence.
  - destruct (String.eqb p path) eqn:E; simpl.
    + apply String.eqb_eq in E. subst p.
      destruct (String.eqb path q) eqn:E2; [|reflexivity].
      apply String.eqb_eq in E2. congruence.
    + now rewrite IH.
Qed.

(** The paths that hold a file, in the order of their creation. *)
Definition paths (fs : list (string * string)) : list string := map fst fs.

Lemma paths_put_present path c fs :
  In path (paths fs) -> paths (file_put path c fs) = paths fs.
Proof.
  induction fs as [|[p x] fs IH]; simpl; [tauto|].
  intros [H | H].
  - subst. now rewrite String.eqb_refl.
  - destruct (String.eqb p path) eqn:E; simpl; [reflexivity|].
    now rewrite IH.
Qed.

Lemma paths_put_absent path c fs :
  ~ In path (paths fs) -> paths (file_put path c fs) = (paths fs ++ [path])%list.
Proof.
  induction fs as [|[p x] fs IH]; simpl; [reflexivity|].
  intros H. destruct (String.eqb p path) eqn:E.
  - apply String.eqb_eq in E. tauto.
  - simpl. rewrite IH; tauto.
Qed.

Lemma in_paths_put path c fs : In path (paths (file_put path c fs)).
Proof.
  induction fs as [|[p x] fs IH]; simpl; [auto|].
  destruct (String.eqb p path) eqn:E; simpl; [|auto].
  apply String.eqb_eq in E. auto.
Qed.

(** [st'] differs from [st] in the content of [path] at most. *)
Definition wrote_only (path : string) (st st' : pstate S) : Prop :=
  stdin st' = stdin st /\ trace st' = trace st
  /\ kubeconfig st' = kubeconfig st /\ mach st' = mach st
  /\ paths (files st') = paths (files st)
  /\ forall q, q <> path -> file_get q (files st') = file_get q (files st).

Lemma wrote_only_refl path st : wrote_only path st st.
Proof. unfold wrote_only. intuition. Qed.

Lemma wrote_only_trans path st1 st2 st3 :
  wrote_only path st1 st2 -> wrote_only path st2 st3 ->
  wrote_only path st1 st3.
Proof.
  unfold wrote_only.
  intros (A1 & A2 & A3 & A4 & A5 & A6) (B1 & B2 & B3 & B4 & B5 & B6).
  repeat split; try congruence.
  intros q Hq. rewrite B6, A6; auto.
Qed.

Lemma file_write_spec path text (st : pstate S) old :
  file_get path (files st) = Some old ->
  In path (paths (files st)) ->
  exists st',
    file_write path text st = (Ok tt, st')
    /\ file_get path (files st') = Some (old ++ text)
    /\ wrote_only path st st'.
Proof.
  intros Hold Hin. unfold file_write. rewrite Hold.
  eexists. split; [reflexivity|]. simpl. split.
  - apply file_get_put_same.
  - unfold wrote_only. simpl. repeat split; auto.
    + now apply paths_put_present.
    + intros q Hq. now apply file_get_put_other.
Qed.

(** Rows written one after the other add their texts to the file. *)
Lemma writerows_spec path fieldnames (row_of : Csv.dict -> list string) :
  forall (ds : list Csv.dict) (st : pstate S) old,
    (forall d, In d ds -> Csv.dict_to_list fieldnames d = Some (row_of d)) ->
    file_get path (files st) = Some old ->
    In path (paths (files st)) ->
    exists st',
      for_each ds (@dict_writerow S path fieldnames) st = (Ok tt, st')
      /\ file_get path (files st')
         = Some (old ++ String.concat "" (map (fun d => Csv.row_text (row_of d)) ds))
      /\ wrote_only path st st'.
Proof.
  induction ds as [|d ds IH]; intros st old Hrows Hold Hin.
  - exists st. simpl. rewrite str_app_nil_r.
    repeat split; auto.
  - assert (Hd : Csv.dict_to_list fieldnames d = Some (row_of d))
      by (apply Hrows; now left).
    destruct (file_write_spec path (Csv.row_text (row_of d)) st Hold Hin)
      as [st1 [E1 [G1 W1]]].
    destruct (IH st1 (old ++ Csv.row_text (row_of d))) as [st2 [E2 [G2 W2]]].
    + intros d' Hd'. apply Hrows. now right.
    + exact G1.
    + destruct W1 as (_ & _ & _ & _ & P & _). now rewrite P.
    + exists st2. split; [|split].
      * simpl. unfold bind at 1. unfold dict_writerow at 1.
        rewrite Hd, E1. exact E2.
      * rewrite G2. f_equal. rewrite str_app_assoc. f_equal.
        simpl. destruct ds; simpl; [now rewrite str_app_nil_r | reflexivity].
      * eapply wrote_only_trans; eassumption.
Qed.

Lemma for_each_map {A B} (g : A -> B) (f : B -> M S unit) (xs : list A) st :
  for_each xs (fun x => f (g x)) st = for_each (map g xs) f st.
Proof.
  revert st. induction xs as [|x xs IH]; intros st; simpl; [reflexivity|].
  unfold bind. destruct (f (g x) st) as [[[] | e | c] st1]; auto.
Qed.

Definition CRLF : string := String Csv.CR (String Csv.LF EmptyString).

(** What a report holds once it is written: the header line and the
    lines of the rows. *)
Definition report_text (fieldnames : list string) (rows : list (list string))
  : string :=
  Csv.header_text fieldnames ++ String.concat "" (map Csv.row_text rows).

(** [st'] is [st] after the file [path] was opened for writing and
    filled with [content]. *)
Definition wrote_report (path content : string) (st st' : pstate S) : Prop :=
  file_get path (files st') = Some content
  /\ trace st' = (trace st ++ [EWrite path])%list
  /\ stdin st' = stdin st /\ kubeconfig st' = kubeconfig st
  /\ mach st' = mach st
  /\ paths (files st') =
       (if in_dec string_dec path (paths (files st))
        then paths (files st) else paths (files st) ++ [path])%list
  /\ forall q, q <> path -> file_get q (files st') = file_get q (files st).

Lemma report_spec path fieldnames (row_of : Csv.dict -> list string)
      (ds : list Csv.dict) (st : pstate S) :
  (forall d, In d ds -> Csv.dict_to_list fieldnames d = Some (row_of d)) ->
  exists st',
    (open_w path ;;;
     @dict_writeheader S path fieldnames ;;;
     for_each ds (@dict_writerow S path fieldnames)) st = (Ok tt, st')
    /\ wrote_report path (report_text fieldnames (map row_of ds)) st st'.
Proof.
  intros Hrows.
  set (st0 := log (EWrite path) (set_files (file_put path "" (files st)) st)).
  assert (G0 : file_get path (files st0) = Some "")
    by apply file_get_put_same.
  assert (I0 : In path (paths (files st0))) by apply in_paths_put.
  destruct (file_write_spec path (Csv.header_text fieldnames) st0 G0 I0)
    as [st1 [E1 [G1 W1]]].
  assert (I1 : In path (paths (files st1)))
    by (destruct W1 as (_ & _ & _ & _ & P & _); now rewrite P).
  destruct (writerows_spec path fieldnames row_of ds st1 Hrows G1 I1)
    as [st2 [E2 [G2 W2]]].
  exists st2. split.
  - unfold bind at 1. unfold open_w. fold st0.
    unfold bind at 1. unfold dict_writeheader. rewrite E1. exact E2.
  - pose proof (wrote_only_trans W1 W2) as (A1 & A2 & A3 & A4 & A5 & A6).
    unfold wrote_report, report_text. rewrite map_map.
    repeat split; try (rewrite ?A1, ?A2, ?A3, ?A4; reflexivity).
    + exact G2.
    + rewrite A5. simpl.
      destruct (in_dec string_dec path (paths (files st))) as [i | n].
      * now apply paths_put_present.
      * now apply paths_put_absent.
    + intros q Hq. rewrite (A6 q Hq). simpl.
      now apply file_get_put_other.
Qed.

(** The row of a summary dictionary: its four values in the order the
    script builds them. *)
Definition summary_row (d : Csv.dict) : list string :=
  map (fun kv => Csv.value_str (snd kv)) d.

Definition is_summary (d : Csv.dict) : Prop :=
  exists name nodes pods containers,
    d = cluster_summary name nodes pods containers.

Lemma summary_to_list d :
  is_summary d ->
  Csv.dict_to_list cluster_fieldnames d = Some (summary_row d).
Proof. intros (n & a & b & c & ->). reflexivity. Qed.

Lemma write_cluster_csv_spec path (data : list Csv.dict) (st : pstate S) :
  (forall d, In d data -> is_summary d) ->
  exists st',
    @write_cluster_csv S path data st = (Ok tt, st')
    /\ wrote_report path
         (report_text cluster_fieldnames (map summary_row data)) st st'.
Proof.
  intros H. apply report_spec.
  intros d Hd. apply summary_to_list. auto.
Qed.

(** The row of an inventory entry. *)
Definition inventory_row (item : string * Csv.value) : list string :=
  [fst item; Csv.value_str (snd item)].

Lemma write_inventory_csv_spec path (inventory : Csv.dict) (st : pstate S) :
  exists st',
    @write_inventory_csv S path inventory st = (Ok tt, st')
    /\ wrote_report path
         (report_text inventory_fieldnames (map inventory_row inventory))
         st st'.
Proof.
  set (as_dict := fun item : string * Csv.value =>
         [("Resource Type", Csv.VStr (fst item)); ("Count", snd item)]).
  destruct (report_spec path inventory_fieldnames
              (fun d => match d with
                        | [(_, k); (_, v)] => [Csv.value_str k; Csv.value_str v]
                        | _ => []
                        end)
              (map as_dict inventory) st) as [st' [E W]].
  - intros d Hd. apply in_map_iff in Hd as [[k v] [<- _]]. reflexivity.
  - exists st'. split.
    + rewrite <- E.
      unfold write_inventory_csv, bind, open_w, dict_writeheader, file_write.
      cbv beta iota. fold as_dict.
      apply (for_each_map as_dict
               (@dict_writerow S path inventory_fieldnames)).
    + rewrite map_map in W. exact W.
Qed.

End Reports.

(** ** The sentinel and the empty selection *)

Section EmptySelection.

Variable S : Services.

Lemma try_except_ok {A} (m : M S A) catches h st a st' :
  m st = (Ok a, st') -> try_except m catches h st = (Ok a, st').
Proof. intros H. unfold try_except. now rewrite H. Qed.

(** C10.  The sentinel test strips surrounding white space and ignores
    letter case; and when every line typed before the sentinel is turned
    down, [get_aks_data] returns the empty list, and the cluster report
    written from it holds the header line and nothing else. *)
Theorem sentinel_before_any_cluster :
  (forall (ws1 ws2 : list ascii) (w : string),
      forallb Py.isspace ws1 = true ->
      forallb Py.isspace ws2 = true ->
      Py.lower w = "done" ->
      is_sentinel (string_of_list_ascii ws1 ++ w ++ string_of_list_ascii ws2)
      = true)
  /\ (forall (st : pstate S) pages pre line rest,
         api_list S managed_clusters_list (mach st) = Some pages ->
         stdin st = (pre ++ line :: rest)%list ->
         forallb (turned_down (concat pages)) pre = true ->
         is_sentinel line = true ->
         exists st1 st2,
           Azure.get_aks_data st = (Ok [], st1)
           /\ stdin st1 = rest
           /\ @write_cluster_csv S "aks_data.csv" [] st1 = (Ok tt, st2)
           /\ file_get "aks_data.csv" (files st2)
              = Some ("Cluster Name,Nodes,Pods,Containers" ++ CRLF)
           /\ Csv.read_text ("Cluster Name,Nodes,Pods,Containers" ++ CRLF)
              = Some [cluster_fieldnames]).
Proof.
  split; [exact sentinel_padded|].
  intros st pages pre line rest Hlist Hin Hpre Hs.
  destruct (@loop_until_sentinel S (concat pages) line rest Hs pre
              (Datatypes.S (length (stdin st))) []
              (log (EApi managed_clusters_list) st))
    as [st1 [E [A _]]].
  - exact Hin.
  - simpl. rewrite Hin, length_app. simpl. lia.
  - exact Hpre.
  - destruct (@write_cluster_csv_spec S "aks_data.csv" [] st1)
      as [st2 [E2 W2]]; [intros d []|].
    exists st1, st2. repeat split.
    + rewrite (get_aks_data_listed _ Hlist). now apply try_except_ok.
    + exact A.
    + exact E2.
    + destruct W2 as [G _]. exact G.
Qed.

End EmptySelection.

(** ** Where the names of the summaries come from *)

Section Names.

Variable S : Services.

Lemma bind_ok_inv {A B} (m : M S A) (k : A -> M S B) st b st' :
  bind m k st = (Ok b, st') ->
  exists a st1, m st = (Ok a, st1) /\ k a st1 = (Ok b, st').
Proof.
  unfold bind. destruct (m st) as [[a | e | c] st1]; intros H;
    try discriminate. eauto.
Qed.

(** A handler that prints and exits hands nothing back. *)
Lemma try_exit_ok_inv {A} (m : M S A) catches (msg : exn -> string)
      st a st' :
  try_except m catches (fun e => print (msg e) ;;; sys_exit 1) st
  = (Ok a, st') ->
  m st = (Ok a, st').
Proof.
  unfold try_except. destruct (m st) as [[x | e | c] st1]; intros H;
    try discriminate; [exact H|].
  destruct (catches e); discriminate.
Qed.

Lemma contains_In x xs : Py.contains x xs = true -> In x xs.
Proof.
  unfold Py.contains. intros H. apply existsb_exists in H as [y [Hy E]].
  apply String.eqb_eq in E. now subst.
Qed.

(** [d] is the summary of a cluster whose name is among [clusters]. *)
Definition named_in (clusters : list string) (d : Csv.dict) : Prop :=
  exists name nodes pods containers,
    d = cluster_summary name nodes pods containers /\ In name clusters.

Ltac bind_inv H :=
  let a := fresh "a" in
  let s := fresh "st" in
  let E := fresh "E" in
  apply bind_ok_inv in H as (a & s & E & H).

Lemma azure_scan_cluster_ok name data (st : pstate S) data' st' :
  Azure.scan_cluster name data st = (Ok data', st') ->
  (data' = data
   \/ exists nodes pods containers,
       data' = (data ++ [cluster_summary name nodes pods containers])%list)
  /\ exists line, stdin st = line :: stdin st'.
Proof.
  intros H. split.
  - unfold Azure.scan_cluster in H.
    bind_inv H. bind_inv H. bind_inv H. bind_inv H.
    destruct (negb (returncode a2 =? 0)%Z).
    + bind_inv H. inversion H; subst. now left.
    + do 5 bind_inv H. inversion H; subst. right. eauto.
  - pose proof H as H0. unfold Azure.scan_cluster in H.
    bind_inv H. bind_inv H.
    inversion E; subst; clear E.
    unfold input in E0. simpl in E0.
    destruct (stdin st) as [|line rest] eqn:Hin; [discriminate|].
    inversion E0; subst; clear E0.
    exists a0. f_equal.
    match type of H with
    | ?m ?s = _ => assert (Hq : quiet m)
    end.
    { apply quiet_bind; [auto with quiet|]. intros _.
      apply quiet_bind; [auto with quiet|]. intros res.
      destruct (negb (returncode res =? 0)%Z).
      - apply quiet_bind; [auto with quiet|]. intros; auto with quiet.
      - repeat (apply quiet_bind; [auto with quiet|]; intros).
        auto with quiet. }
    destruct (Hq _ _ _ H) as [Hs _]. now rewrite Hs.
Qed.

Lemma selection_loop_sound clusters :
  forall rounds data (st : pstate S) data' st',
    Azure.selection_loop rounds clusters data st = (Ok data', st') ->
    (forall d, In d data -> named_in clusters d) ->
    (forall d, In d data' -> named_in clusters d)
    /\ exists consumed line,
        stdin st = (consumed ++ line :: stdin st')%list
        /\ is_sentinel line = true.
Proof.
  induction rounds as [|rounds IH]; intros data st data' st' H Hdata;
    [discriminate|].
  destruct (stdin st) as [|line rest] eqn:Hin.
  - rewrite selection_loop_eof in H by assumption. discriminate.
  - rewrite (selection_loop_step _ _ _ _ Hin) in H. cbv zeta in H.
    destruct (is_sentinel line) eqn:Hs.
    + inversion H; subst. split; [assumption|].
      exists [], line. simpl. auto.
    + destruct (Py.contains (Py.strip line) clusters) eqn:Hc.
      * bind_inv H.
        apply azure_scan_cluster_ok in E as [Hd [l Hl]].
        simpl in Hl.
        destruct (IH _ _ _ _ H) as [Hall (consumed & sl & Hcons & Hsl)].
        { intros d Hd'. destruct Hd as [-> | (n & p & c & ->)]; auto.
          apply in_app_or in Hd' as [Hd' | [<- | []]]; auto.
          exists (Py.strip line), n, p, c. split; [reflexivity|].
          now apply contains_In. }
        split; [exact Hall|].
        exists (line :: l :: consumed), sl. simpl.
        split; [|exact Hsl]. now rewrite Hl, Hcons.
      * bind_inv H. inversion E; subst; clear E.
        destruct (IH _ _ _ _ H Hdata)
          as [Hall (consumed & sl & Hcons & Hsl)].
        split; [exact Hall|].
        exists (line :: consumed), sl. simpl in Hcons. simpl.
        split; [|exact Hsl]. now rewrite Hcons.
Qed.

Definition eks_list_clusters : string := "eks.list_clusters".

(** [d] is the summary of the cluster called [name]. *)
Definition summary_of (name : string) (d : Csv.dict) : Prop :=
  exists nodes pods containers,
    d = cluster_summary name nodes pods containers.

Lemma aws_scan_cluster_ok name data (st : pstate S) data' st' :
  Aws.scan_cluster name data st = (Ok data', st') ->
  exists d, summary_of name d /\ data' = (data ++ [d])%list.
Proof.
  intros H. unfold Aws.scan_cluster in H.
  do 8 bind_inv H. inversion H; subst.
  eexists. split; [|reflexivity]. unfold summary_of. eauto.
Qed.

Lemma aws_scan_clusters_ok :
  forall clusters data (st : pstate S) data' st',
    Aws.scan_clusters clusters data st = (Ok data', st') ->
    exists new, data' = (data ++ new)%list /\ Forall2 summary_of clusters new.
Proof.
  induction clusters as [|name clusters IH]; intros data st data' st' H.
  - inversion H; subst. exists []. rewrite app_nil_r. auto.
  - simpl in H. bind_inv H.
    apply aws_scan_cluster_ok in E as (d & Hd & ->).
    destruct (IH _ _ _ _ H) as (new & -> & Hnew).
    exists (d :: new). rewrite <- app_assoc. simpl. auto.
Qed.

(** C8.  Azure: when [get_aks_data] returns, every summary carries a
    name that the listing of managed clusters returned (the name passed
    the membership test), and the last line read is the sentinel.  AWS:
    the summaries are those of the listed clusters, one each, in the
    order of the listing. *)
Theorem summary_names_come_from_the_enumerator :
  (forall (st : pstate S) data st',
      Azure.get_aks_data st = (Ok data, st') ->
      exists pages,
        api_list S managed_clusters_list (mach st) = Some pages
        /\ (forall d, In d data -> named_in (concat pages) d)
        /\ exists consumed line,
            stdin st = (consumed ++ line :: stdin st')%list
            /\ is_sentinel line = true)
  /\ (forall (st : pstate S) data st',
         Aws.get_eks_data st = (Ok data, st') ->
         exists pages,
           api_list S eks_list_clusters (mach st) = Some pages
           /\ Forall2 summary_of (Aws.first_page pages) data).
Proof.
  split; intros st data st' H.
  - destruct (api_list S managed_clusters_list (mach st)) as [pages|] eqn:L.
    + exists pages. split; [reflexivity|].
      rewrite (get_aks_data_listed _ L) in H.
      apply try_exit_ok_inv in H.
      apply selection_loop_sound in H; [exact H | intros d []].
    + pose proof (get_aks_data_list_fails _ L) as F.
      rewrite H in F. discriminate.
  - unfold Aws.get_eks_data in H. apply try_exit_ok_inv in H.
    bind_inv H. unfold sdk_list in E. unfold eks_list_clusters.
    destruct (api_list S "eks.list_clusters" (mach st)) as [pages|];
      [|discriminate].
    inversion E; subst. exists a. split; [reflexivity|].
    apply aws_scan_clusters_ok in H as (new & -> & Hnew). exact Hnew.
Qed.

End Names.

(** ** The inventory *)

Section Inventory.

Variable S : Services.

Definition azure_listings : list string :=
  ["compute.virtual_machines.list_all";
   "network.virtual_networks.list_all";
   "storage.storage_accounts.list";
   "containerservice.managed_clusters.list"].

Definition azure_categories : list string :=
  ["VMs"; "Networks"; "Storage Accounts"; "AKS Clusters"].

Definition aws_listings : list string :=
  ["ec2.describe_instances"; "ec2.describe_vpcs"; "s3.list_buckets";
   "eks.list_clusters"].

Definition aws_categories : list string :=
  ["EC2 Instances"; "VPCs"; "S3 Buckets"; "EKS Clusters"].

(** Every listing of [calls] answers on machine [m]. *)
Definition all_answer (calls : list string) (m : machine S) : Prop :=
  forall call, In call calls -> api_list S call m <> None.

Ltac four_listings st :=
  unfold try_except, bind, sdk_list; simpl;
  repeat match goal with
         | |- context [api_list S ?c (mach st)] =>
             destruct (api_list S c (mach st)) eqn:?; simpl
         end.

Lemma azure_inventory_cases (st : pstate S) :
  (all_answer azure_listings (mach st)
   /\ exists inv st', Azure.get_inventory st = (Ok inv, st')
                      /\ map fst inv = azure_categories)
  \/ ((exists call, In call azure_listings
                    /\ api_list S call (mach st) = None)
      /\ exists st', Azure.get_inventory st = (Exit 1, st')
                     /\ files st' = files st /\ mach st' = mach st).
Proof.
  unfold Azure.get_inventory, all_answer, azure_listings.
  four_listings st;
    try (right; split;
         [eexists; split; [|eassumption]; simpl; tauto
         | eexists; split; [reflexivity | split; reflexivity]]).
  left. split.
  - intros call [<- | [<- | [<- | [<- | []]]]]; congruence.
  - eexists. eexists. split; reflexivity.
Qed.

Lemma aws_inventory_cases (st : pstate S) :
  (all_answer aws_listings (mach st)
   /\ exists inv st', Aws.get_inventory st = (Ok inv, st')
                      /\ map fst inv = aws_categories)
  \/ ((exists call, In call aws_listings
                    /\ api_list S call (mach st) = None)
      /\ exists st', Aws.get_inventory st = (Exit 1, st')
                     /\ files st' = files st /\ mach st' = mach st).
Proof.
  unfold Aws.get_inventory, all_answer, aws_listings.
  four_listings st;
    try (right; split;
         [eexists; split; [|eassumption]; simpl; tauto
         | eexists; split; [reflexivity | split; reflexivity]]).
  left. split.
  - intros call [<- | [<- | [<- | [<- | []]]]]; congruence.
  - eexists. eexists. split; reflexivity.
Qed.

(** C3.  In both scripts: when one of the four listing calls fails,
    [get_inventory] ends the run with exit status 1 and hands back no
    inventory; and an inventory that is handed back has all four
    categories, every listing having answered. *)
Theorem inventory_is_all_or_nothing (st : pstate S) :
  ((exists call, In call azure_listings /\ api_list S call (mach st) = None)
   -> exists st', Azure.get_inventory st = (Exit 1, st'))
  /\ (forall inv st',
         Azure.get_inventory st = (Ok inv, st') ->
         map fst inv = azure_categories
         /\ all_answer azure_listings (mach st))
  /\ ((exists call, In call aws_listings /\ api_list S call (mach st) = None)
      -> exists st', Aws.get_inventory st = (Exit 1, st'))
  /\ (forall inv st',
         Aws.get_inventory st = (Ok inv, st') ->
         map fst inv = aws_categories
         /\ all_answer aws_listings (mach st)).
Proof.
  repeat split.
  - intros (call & Hin & Hnone).
    destruct (azure_inventory_cases st) as [[Hall _] | [_ (st' & E & _)]];
      [exfalso; exact (Hall call Hin Hnone) | eauto].
  - destruct (azure_inventory_cases st)
      as [[_ (i & s & E & C)] | [_ (s & E & _)]]; congruence.
  - destruct (azure_inventory_cases st)
      as [[Hall _] | [_ (s & E & _)]]; [exact Hall | congruence].
  - intros (call & Hin & Hnone).
    destruct (aws_inventory_cases st) as [[Hall _] | [_ (st' & E & _)]];
      [exfalso; exact (Hall call Hin Hnone) | eauto].
  - destruct (aws_inventory_cases st)
      as [[_ (i & s & E & C)] | [_ (s & E & _)]]; congruence.
  - destruct (aws_inventory_cases st)
      as [[Hall _] | [_ (s & E & _)]]; [exact Hall | congruence].
Qed.

(** The category each listing is counted under. *)
Definition azure_sources : list (string * string) :=
  combine azure_categories azure_listings.

Definition aws_sources : list (string * string) :=
  combine aws_categories aws_listings.

(** The Azure script counts what its pagers yield: every category holds
    the number of items on all the pages of its listing. *)
Lemma azure_inventory_counts_all_pages (st : pstate S) inv st' :
  Azure.get_inventory st = (Ok inv, st') ->
  forall category call pages,
    In (category, call) azure_sources ->
    api_list S call (mach st) = Some pages ->
    Csv.dict_get inv category = Some (Csv.VInt (length (concat pages))).
Proof.
  intros H category call pages Hin Hp.
  unfold Azure.get_inventory in H. revert H. four_listings st;
    intros H; try discriminate.
  inversion H; subst; clear H.
  simpl in Hin.
  destruct Hin as [E | [E | [E | [E | []]]]]; inversion E; subst;
    simpl; unfold Azure.count_all; congruence.
Qed.

(** The AWS script takes one answer per listing: every category holds
    the number of items on the first page. *)
Lemma aws_inventory_counts_first_page (st : pstate S) inv st' :
  Aws.get_inventory st = (Ok inv, st') ->
  forall category call pages,
    In (category, call) aws_sources ->
    api_list S call (mach st) = Some pages ->
    Csv.dict_get inv category
    = Some (Csv.VInt (length (Aws.first_page pages))).
Proof.
  intros H category call pages Hin Hp.
  unfold Aws.get_inventory in H. revert H. four_listings st;
    intros H; try discriminate.
  inversion H; subst; clear H.
  simpl in Hin.
  destruct Hin as [E | [E | [E | [E | []]]]]; inversion E; subst;
    simpl; congruence.
Qed.

End Inventory.

(** C2.  On an account whose EKS listing holds one name more than a
    page, [page_size + 1] names, the AWS inventory reports [page_size]
    clusters: the count of the first page.  The Azure inventory of the
    same listing reports [page_size + 1]. *)
Theorem aws_inventory_stops_at_first_page :
  length (concat Demo.two_page_listing) = Datatypes.S Demo.page_size
  /\ (exists inv st',
         Aws.get_inventory (Table.start Demo.two_page_account [])
         = (Ok inv, st')
         /\ Csv.dict_get inv "EKS Clusters" = Some (Csv.VInt Demo.page_size))
  /\ (exists inv st',
         Azure.get_inventory (Table.start Demo.two_page_account [])
         = (Ok inv, st')
         /\ Csv.dict_get inv "AKS Clusters"
            = Some (Csv.VInt (Datatypes.S Demo.page_size))).
Proof.
  split; [reflexivity|].
  split; eexists; eexists; split; vm_compute; reflexivity.
Qed.

(** ** Counting the objects of a cluster *)

Section Counting.

Variable S : Services.

(** What a tool answers on machine [m] under [KUBECONFIG = env], and the
    machine it leaves. *)
Definition answer (tool : string) (env : option string) (m : machine S)
  : completed := fst (exec_shell S tool env m).

Definition after1 (tool : string) (env : option string) (m : machine S)
  : machine S := snd (exec_shell S tool env m).

(** The machine after the tools of [tools] ran one after the other. *)
Definition after (tools : list string) (env : option string) (m : machine S)
  : machine S := fold_left (fun m' t => after1 t env m') tools m.

Lemma run_shell_eq tool fs check (st : pstate S) :
  run_shell tool fs check st =
    (checked check (Sh.render tool fs)
             (Sh.pipe fs (answer tool (kubeconfig st) (mach st))),
     set_mach (after1 tool (kubeconfig st) (mach st))
              (log (EShell (Sh.render tool fs)) st)).
Proof.
  unfold run_shell, answer, after1.
  destruct (exec_shell S tool (kubeconfig st) (mach st)); reflexivity.
Qed.

(** A pipeline that ends in [wc -l] succeeds whatever its tool did. *)
Lemma counting_pipeline_succeeds check cmd fs p :
  fs <> [] -> checked check cmd (Sh.pipe fs p) = Ok (Sh.pipe fs p).
Proof.
  intros H. destruct fs as [|f fs]; [congruence|].
  unfold checked. simpl. now rewrite andb_false_r.
Qed.

(** The count read off a pipeline. *)
Definition counted (fs : list Sh.filter) (p : completed) : string :=
  Py.strip (stdout (Sh.pipe fs p)).

Lemma counted_nothing_wc p : stdout p = "" -> counted [Sh.Wc_l] p = "0".
Proof. intros H. unfold counted. simpl. now rewrite H. Qed.

Lemma counted_nothing_tr_wc p :
  stdout p = "" -> counted [Sh.Tr_space_newline; Sh.Wc_l] p = "0".
Proof. intros H. unfold counted. simpl. now rewrite H. Qed.

Definition az_get_credentials (resource_group cluster_name : string) : string :=
  "az aks get-credentials --resource-group " ++ resource_group
    ++ " --name " ++ cluster_name.

Definition kubectl_config_view : string :=
  "kubectl config view --merge --flatten".

Definition kubectl_get_pods : string := "kubectl get pods --all-namespaces".

Lemma bind_print {A} line (k : unit -> M S A) st :
  bind (print line) k st = k tt (log (EPrint line) st).
Proof. reflexivity. Qed.

Lemma bind_input {A} (k : string -> M S A) (st : pstate S) line rest :
  stdin st = line :: rest ->
  bind input k st
  = k line (log (EInput line)
              (mkState S rest (trace st) (kubeconfig st) (files st) (mach st))).
Proof. intros H. unfold bind, input. now rewrite H. Qed.

Lemma bind_run_shell_unchecked {A} tool fs (k : completed -> M S A) st :
  bind (run_shell tool fs false) k st
  = k (Sh.pipe fs (answer tool (kubeconfig st) (mach st)))
      (set_mach (after1 tool (kubeconfig st) (mach st))
                (log (EShell (Sh.render tool fs)) st)).
Proof. unfold bind. now rewrite run_shell_eq. Qed.

Lemma bind_run_shell_checked {A} tool (k : completed -> M S A) st :
  returncode (answer tool (kubeconfig st) (mach st)) = 0%Z ->
  bind (run_shell tool [] true) k st
  = k (answer tool (kubeconfig st) (mach st))
      (set_mach (after1 tool (kubeconfig st) (mach st))
                (log (EShell tool) st)).
Proof.
  intros H. unfold bind. rewrite run_shell_eq. unfold checked.
  cbn [Sh.pipe Sh.render fold_left]. now rewrite H.
Qed.

(** The accepted branch of the Azure loop when the credentials were
    fetched and the two checked [kubectl] calls succeeded: a summary is
    appended, whose counts are read off the three pipelines. *)
Lemma azure_scan_cluster_counts name data (st : pstate S) line rest :
  stdin st = line :: rest ->
  let env := kubeconfig st in
  let cred := az_get_credentials (Py.strip line) name in
  let m3 := after [cred; kubectl_config_view; kubectl_get_pods] env (mach st) in
  returncode (answer cred env (mach st)) = 0%Z ->
  returncode (answer kubectl_config_view env (after [cred] env (mach st)))
  = 0%Z ->
  returncode (answer kubectl_get_pods env
                     (after [cred; kubectl_config_view] env (mach st)))
  = 0%Z ->
  exists st',
    Azure.scan_cluster name data st
    = (Ok (data ++ [cluster_summary name
                      (counted nodes_filters (answer nodes_tool env m3))
                      (counted pods_filters
                         (answer pods_tool env (after [nodes_tool] env m3)))
                      (counted containers_filters
                         (answer containers_tool env
                            (after [nodes_tool; pods_tool] env m3)))])%list,
       st')
    /\ stdin st' = rest
    /\ mach st' = after [nodes_tool; pods_tool; containers_tool] env m3
    /\ kubeconfig st' = env.
Proof.
  intros Hin env cred m3 H1 H2 H3.
  unfold m3, after, after1 in *. cbn [fold_left] in *.
  unfold env, cred, az_get_credentials, kubectl_config_view,
    kubectl_get_pods in *.
  unfold Azure.scan_cluster.
  rewrite bind_print. erewrite bind_input by exact Hin. state_simpl.
  rewrite bind_print. state_simpl.
  rewrite bind_run_shell_unchecked. state_simpl.
  cbn [Sh.pipe]. rewrite H1. cbn [Z.eqb negb].
  rewrite bind_run_shell_checked by (state_simpl; exact H2). state_simpl.
  rewrite bind_run_shell_checked by (state_simpl; exact H3). state_simpl.
  rewrite !bind_run_shell_unchecked. state_simpl.
  eexists. split; [reflexivity|]. state_simpl. repeat split; reflexivity.
Qed.

Definition aws_update_kubeconfig (region cluster_name : string) : string :=
  "aws eks update-kubeconfig --region " ++ region ++ " --name " ++ cluster_name.

Definition kubectl_config_view_to_file : string :=
  "kubectl config view --merge --flatten > kubeconfig.yaml".

Lemma check_output_eq tool fs (st : pstate S) :
  fs <> [] ->
  check_output_stripped tool fs st =
    (Ok (counted fs (answer tool (kubeconfig st) (mach st))),
     set_mach (after1 tool (kubeconfig st) (mach st))
              (log (EShell (Sh.render tool fs)) st)).
Proof.
  intros H. unfold check_output_stripped, bind.
  rewrite run_shell_eq, counting_pipeline_succeeds by assumption.
  reflexivity.
Qed.

(** The body of the AWS loop when the region was found and the two
    checked commands succeeded: a summary is appended, whose counts are
    read off the three pipelines, run under the new [KUBECONFIG]. *)
Lemma bind_cluster_region {A} name (k : string -> M S A) st arn region :
  api_describe_cluster_arn S name (mach st) = Some arn ->
  nth_error (Py.split ":"%char arn) 3 = Some region ->
  bind (Aws.cluster_region name) k st
  = k region (log (EApi "eks.describe_cluster") st).
Proof.
  intros H1 H2. unfold bind, Aws.cluster_region. now rewrite H1, H2.
Qed.

Lemma bind_getcwd {A} (k : string -> M S A) st :
  bind (Aws.py_getcwd (S:=S)) k st = k (getcwd S (mach st)) st.
Proof. reflexivity. Qed.

Lemma bind_set_kubeconfig {A} v (k : unit -> M S A) st :
  bind (set_kubeconfig v) k st
  = k tt (log (ESetenv "KUBECONFIG" v)
            (mkState S (stdin st) (trace st) (Some v) (files st) (mach st))).
Proof. reflexivity. Qed.

Lemma bind_check_output {A} tool fs (k : string -> M S A) st :
  fs <> [] ->
  bind (check_output_stripped tool fs) k st
  = k (counted fs (answer tool (kubeconfig st) (mach st)))
      (set_mach (after1 tool (kubeconfig st) (mach st))
                (log (EShell (Sh.render tool fs)) st)).
Proof. intros H. unfold bind at 1. now rewrite check_output_eq. Qed.

Lemma aws_scan_cluster_counts name data (st : pstate S) arn region :
  api_describe_cluster_arn S name (mach st) = Some arn ->
  nth_error (Py.split ":"%char arn) 3 = Some region ->
  let env := kubeconfig st in
  let upd := aws_update_kubeconfig region name in
  let m2 := after [upd; kubectl_config_view_to_file] env (mach st) in
  let env' := Some (getcwd S m2 ++ "/kubeconfig.yaml") in
  returncode (answer upd env (mach st)) = 0%Z ->
  returncode (answer kubectl_config_view_to_file env
                     (after [upd] env (mach st))) = 0%Z ->
  exists st',
    Aws.scan_cluster name data st
    = (Ok (data ++ [cluster_summary name
                      (counted nodes_filters (answer nodes_tool env' m2))
                      (counted pods_filters
                         (answer pods_tool env' (after [nodes_tool] env' m2)))
                      (counted containers_filters
                         (answer containers_tool env'
                            (after [nodes_tool; pods_tool] env' m2)))])%list,
       st')
    /\ kubeconfig st' = env'
    /\ mach st' = after [nodes_tool; pods_tool; containers_tool] env' m2.
Proof.
  intros Harn Hregion env upd m2 env' H1 H2.
  unfold env', m2, after, after1 in *. cbn [fold_left] in *.
  unfold env, upd, aws_update_kubeconfig, kubectl_config_view_to_file in *.
  unfold Aws.scan_cluster.
  erewrite bind_cluster_region by eassumption. state_simpl.
  rewrite bind_run_shell_checked by (state_simpl; exact H1). state_simpl.
  rewrite bind_run_shell_checked by (state_simpl; exact H2). state_simpl.
  rewrite bind_getcwd. state_simpl.
  rewrite bind_set_kubeconfig. state_simpl.
  rewrite bind_check_output by (unfold nodes_filters; discriminate).
  state_simpl.
  rewrite bind_check_output by (unfold pods_filters; discriminate).
  state_simpl.
  rewrite bind_check_output by (unfold containers_filters; discriminate).
  state_simpl.
  eexists. split; [reflexivity|]. state_simpl. split; reflexivity.
Qed.

(** C5.  In both scripts, once the access to the cluster is set up, the
    scan of a cluster yields a summary, whatever the counting tools
    answer; and a dimension whose tool prints nothing (no node, no pod,
    no container status) is counted as [0]. *)
Theorem empty_cluster_counts_zero :
  (forall name data (st : pstate S) line rest,
      stdin st = line :: rest ->
      let env := kubeconfig st in
      let cred := az_get_credentials (Py.strip line) name in
      let m3 := after [cred; kubectl_config_view; kubectl_get_pods] env
                      (mach st) in
      returncode (answer cred env (mach st)) = 0%Z ->
      returncode (answer kubectl_config_view env (after [cred] env (mach st)))
      = 0%Z ->
      returncode (answer kubectl_get_pods env
                         (after [cred; kubectl_config_view] env (mach st)))
      = 0%Z ->
      exists st' nodes pods containers,
        Azure.scan_cluster name data st
        = (Ok (data ++ [cluster_summary name nodes pods containers])%list, st')
        /\ (stdout (answer nodes_tool env m3) = "" -> nodes = "0")
        /\ (stdout (answer pods_tool env (after [nodes_tool] env m3)) = ""
            -> pods = "0")
        /\ (stdout (answer containers_tool env
                           (after [nodes_tool; pods_tool] env m3)) = ""
            -> containers = "0"))
  /\ (forall name data (st : pstate S) arn region,
         api_describe_cluster_arn S name (mach st) = Some arn ->
         nth_error (Py.split ":"%char arn) 3 = Some region ->
         let env := kubeconfig st in
         let upd := aws_update_kubeconfig region name in
         let m2 := after [upd; kubectl_config_view_to_file] env (mach st) in
         let env' := Some (getcwd S m2 ++ "/kubeconfig.yaml") in
         returncode (answer upd env (mach st)) = 0%Z ->
         returncode (answer kubectl_config_view_to_file env
                            (after [upd] env (mach st))) = 0%Z ->
         exists st' nodes pods containers,
           Aws.scan_cluster name data st
           = (Ok (data ++ [cluster_summary name nodes pods containers])%list,
              st')
           /\ (stdout (answer nodes_tool env' m2) = "" -> nodes = "0")
           /\ (stdout (answer pods_tool env' (after [nodes_tool] env' m2)) = ""
               -> pods = "0")
           /\ (stdout (answer containers_tool env'
                              (after [nodes_tool; pods_tool] env' m2)) = ""
               -> containers = "0")).
Proof.
  split.
  - intros name data st line rest Hin env cred m3 H1 H2 H3.
    destruct (azure_scan_cluster_counts name data st Hin H1 H2 H3)
      as [st' [E _]].
    do 4 eexists. split; [exact E|].
    repeat split; intros H.
    + now apply counted_nothing_wc.
    + now apply counted_nothing_wc.
    + now apply counted_nothing_tr_wc.
  - intros name data st arn region Harn Hregion env upd m2 env' H1 H2.
    destruct (aws_scan_cluster_counts name data st Harn Hregion H1 H2)
      as [st' [E _]].
    do 4 eexists. split; [exact E|].
    repeat split; intros H.
    + now apply counted_nothing_wc.
    + now apply counted_nothing_wc.
    + now apply counted_nothing_tr_wc.
Qed.

End Counting.

Arguments answer {S} tool env m.
Arguments after1 {S} tool env m.
Arguments after {S} tools env m.

(** ** A cluster whose credentials cannot be fetched *)

Section PartialFailure.

Variable S : Services.

Lemma bind_run_shell_checked_fails {A} tool (k : completed -> M S A) st :
  returncode (answer tool (kubeconfig st) (mach st)) <> 0%Z ->
  bind (run_shell tool [] true) k st
  = (Raise (CalledProcessError
              tool (returncode (answer tool (kubeconfig st) (mach st)))),
     set_mach (after1 tool (kubeconfig st) (mach st))
              (log (EShell tool) st)).
Proof.
  intros H. unfold bind. rewrite run_shell_eq. unfold checked.
  cbn [Sh.pipe Sh.render fold_left].
  apply Z.eqb_neq in H. now rewrite H.
Qed.

(** The diagnostic of the Azure script for a failed credential fetch. *)
Definition credentials_diagnostic (cmd : string) (result : completed)
  : string :=
  "Error running '" ++ cmd
    ++ "'. Please check the resource group and cluster name."
    ++ Sh.NL ++ "Error details: " ++ stderr result.

(** The state of the Azure process after a selection whose credential
    fetch failed: two lines read, the prompts and the diagnostic printed,
    the tool run once. *)
Definition after_failed_fetch (st : pstate S) (line rg_line : string)
           (rest : list string) : pstate S :=
  let cmd := az_get_credentials (Py.strip rg_line) (Py.strip line) in
  mkState S rest
    (trace st ++
       [EPrint selection_prompt;
        EInput line;
        EPrint "Enter the Resource Group of the AKS cluster:";
        EInput rg_line;
        EPrint ("Getting data for " ++ Py.strip line ++ "...");
        EShell cmd;
        EPrint (credentials_diagnostic cmd
                  (answer cmd (kubeconfig st) (mach st)))])%list
    (kubeconfig st) (files st)
    (after1 cmd (kubeconfig st) (mach st)).

(** C1, as the Azure script behaves.  A selected cluster whose credential
    fetch returns a non-zero status gets a printed diagnostic and no
    summary, marked or not; the scan is not given up: the loop goes on
    from the next line with the summaries gathered so far, so the
    clusters selected before and after are reported as they would be
    without it. *)
Theorem failed_credential_fetch
        rounds clusters data (st : pstate S) line rg_line rest :
  stdin st = line :: rg_line :: rest ->
  is_sentinel line = false ->
  Py.contains (Py.strip line) clusters = true ->
  returncode (answer (az_get_credentials (Py.strip rg_line) (Py.strip line))
                     (kubeconfig st) (mach st)) <> 0%Z ->
  Azure.selection_loop (Datatypes.S rounds) clusters data st
  = Azure.selection_loop rounds clusters data
      (after_failed_fetch st line rg_line rest).
Proof.
  intros Hin Hs Hc Hrc.
  rewrite (selection_loop_step _ _ _ _ Hin). cbv zeta. rewrite Hs, Hc.
  unfold Azure.scan_cluster.
  rewrite bind_assoc. rewrite bind_print. state_simpl.
  rewrite bind_assoc. erewrite bind_input by reflexivity. state_simpl.
  rewrite bind_assoc. rewrite bind_print. state_simpl.
  rewrite bind_assoc. rewrite bind_run_shell_unchecked. state_simpl.
  cbn [Sh.pipe].
  fold (az_get_credentials (Py.strip rg_line) (Py.strip line)).
  apply Z.eqb_neq in Hrc. rewrite Hrc. cbn [negb].
  rewrite bind_assoc. rewrite bind_print. state_simpl.
  rewrite bind_ret_l.
  unfold after_failed_fetch, credentials_diagnostic, log, set_mach.
  cbn [Sh.render fold_left stdin trace kubeconfig files mach].
  repeat rewrite <- app_assoc. reflexivity.
Qed.

End PartialFailure.

(** ** Scanning an unchanged cluster again *)

Section Idempotence.

Variable S : Services.












End Idempotence.

(** ** Writing a report and reading it back *)

Module CsvFacts.

Import Csv.

Lemma feed_app (a b : list ascii) : forall r,
  feed (a ++ b) r = match feed a r with
                    | Some r' => feed b r'
                    | None => None
                    end.
Proof.
  induction a as [|c a IH]; intros r; simpl; [reflexivity|].
  destruct (feed_char c r); [apply IH | reflexivity].
Qed.

Lemma special_false c :
  special c = false ->
  Ascii.eqb c COMMA = false /\ Ascii.eqb c QUOTE = false
  /\ Ascii.eqb c LF = false /\ Ascii.eqb c CR = false.
Proof.
  unfold special, is_newline. intros H.
  apply orb_false_elim in H as [H12 H34].
  apply orb_false_elim in H12 as [H1 H2].
  apply orb_false_elim in H34 as [H3 H4].
  repeat split; assumption.
Qed.

(** Inside quotes every character but the quote is taken as it is. *)
Lemma feed_quoted_char c cu rw o pend lo :
  Ascii.eqb c QUOTE = false ->
  exists pend' lo',
    feed_char c (mkReader IN_QUOTED_FIELD cu rw o pend lo)
    = Some (mkReader IN_QUOTED_FIELD (c :: cu) rw o pend' lo').
Proof.
  intros Hq. unfold feed_char, process_char. cbn [md pending_cr].
  rewrite Hq.
  destruct (Ascii.eqb c LF); destruct pend; cbn;
    do 2 eexists; reflexivity.
Qed.

Lemma feed_quote_in_quoted cu rw o pend lo :
  feed_char QUOTE (mkReader IN_QUOTED_FIELD cu rw o pend lo)
  = Some (mkReader QUOTE_IN_QUOTED_FIELD cu rw o false true).
Proof. destruct pend; reflexivity. Qed.

Lemma feed_quote_after_quote cu rw o :
  feed_char QUOTE (mkReader QUOTE_IN_QUOTED_FIELD cu rw o false true)
  = Some (mkReader IN_QUOTED_FIELD (QUOTE :: cu) rw o false true).
Proof. reflexivity. Qed.

(** The body of a quoted field and its closing quote. *)
Lemma feed_quoted_body : forall f cu rw o pend lo,
  feed (escape f ++ [QUOTE]) (mkReader IN_QUOTED_FIELD cu rw o pend lo)
  = Some (mkReader QUOTE_IN_QUOTED_FIELD (rev f ++ cu) rw o false true).
Proof.
  induction f as [|c f IH]; intros cu rw o pend lo.
  - simpl escape. simpl app. cbn [feed].
    now rewrite feed_quote_in_quoted.
  - simpl escape. destruct (Ascii.eqb c QUOTE) eqn:Hq.
    + apply Ascii.eqb_eq in Hq. subst c.
      change ((QUOTE :: QUOTE :: escape f) ++ [QUOTE])%list
        with (QUOTE :: QUOTE :: (escape f ++ [QUOTE]))%list.
      cbn [feed]. rewrite feed_quote_in_quoted, feed_quote_after_quote.
      rewrite IH. simpl rev. now rewrite <- app_assoc.
    + change ((c :: escape f) ++ [QUOTE])%list
        with (c :: (escape f ++ [QUOTE]))%list.
      cbn [feed].
      destruct (feed_quoted_char c cu rw o pend lo Hq) as (p' & l' & ->).
      rewrite IH. simpl rev. now rewrite <- app_assoc.
Qed.

(** A character that needs no quotes, read in or at the start of a
    field. *)
Lemma feed_plain_char c m cu rw o lo :
  special c = false ->
  (m = IN_FIELD \/ (cu = [] /\ (m = START_FIELD \/ m = START_RECORD))) ->
  feed_char c (mkReader m cu rw o false lo)
  = Some (mkReader IN_FIELD (c :: cu) rw o false true).
Proof.
  intros Hs Hm. apply special_false in Hs as (H1 & H2 & H3 & H4).
  unfold feed_char. rewrite H3. cbn [pending_cr].
  unfold process_char, start_field, is_newline. cbn [md].
  destruct Hm as [-> | [-> [-> | ->]]]; rewrite ?H1, ?H2, ?H3, ?H4; cbn;
    rewrite ?H4; reflexivity.
Qed.

Lemma feed_plain : forall f c cu rw o lo,
  existsb special (c :: f) = false ->
  feed f (mkReader IN_FIELD (c :: cu) rw o false lo)
  = Some (mkReader IN_FIELD (rev f ++ c :: cu) rw o false
                   (match f with [] => lo | _ => true end)).
Proof.
  induction f as [|d f IH]; intros c cu rw o lo H; [reflexivity|].
  simpl in H. apply orb_false_elim in H as [Hc H].
  apply orb_false_elim in H as [Hd H].
  cbn [feed]. rewrite feed_plain_char by auto.
  rewrite IH by (simpl; now rewrite Hd, H).
  simpl rev. rewrite <- app_assoc. simpl.
  destruct f; reflexivity.
Qed.

Lemma feed_open_quote m rw o lo :
  m = START_FIELD \/ m = START_RECORD ->
  feed_char QUOTE (mkReader m [] rw o false lo)
  = Some (mkReader IN_QUOTED_FIELD [] rw o false true).
Proof. intros [-> | ->]; reflexivity. Qed.

(** The delimiter ends a field. *)
Lemma feed_comma_ends_field m cu rw o lo :
  m = IN_FIELD \/ m = QUOTE_IN_QUOTED_FIELD ->
  feed [COMMA] (mkReader m cu rw o false lo)
  = Some (mkReader START_FIELD [] (rev cu :: rw) o false true).
Proof. intros [-> | ->]; reflexivity. Qed.

(** The line terminator ends a field and its record. *)
Lemma feed_crlf_ends_record m cu rw o lo :
  m = IN_FIELD \/ m = QUOTE_IN_QUOTED_FIELD ->
  feed [CR; LF] (mkReader m cu rw o false lo)
  = Some (mkReader START_RECORD [] [] (rev (rev cu :: rw) :: o) false false).
Proof. intros [-> | ->]; reflexivity. Qed.

(** A field followed by the delimiter. *)
Lemma feed_field_comma f m rw o lo :
  m = START_FIELD \/ m = START_RECORD ->
  feed (write_field f ++ [COMMA]) (mkReader m [] rw o false lo)
  = Some (mkReader START_FIELD [] (f :: rw) o false true).
Proof.
  intros Hm. unfold write_field.
  destruct (existsb special f) eqn:Hsp.
  - change ((QUOTE :: escape f ++ [QUOTE]) ++ [COMMA])%list
      with (QUOTE :: ((escape f ++ [QUOTE]) ++ [COMMA]))%list.
    cbn [feed]. rewrite feed_open_quote by assumption.
    rewrite feed_app, feed_quoted_body, feed_comma_ends_field by tauto.
    now rewrite app_nil_r, rev_involutive.
  - destruct f as [|c f].
    + destruct Hm as [-> | ->]; reflexivity.
    + change ((c :: f) ++ [COMMA])%list with (c :: (f ++ [COMMA]))%list.
      cbn [feed].
      rewrite feed_plain_char;
        [| simpl in Hsp; now apply orb_false_elim in Hsp as [? _] | tauto].
      rewrite feed_app, feed_plain, feed_comma_ends_field by tauto.
      rewrite rev_app_distr, rev_involutive. reflexivity.
Qed.

(** The last field of a row and the line terminator. *)
Lemma feed_field_crlf f m rw o lo :
  m = START_FIELD \/ (m = START_RECORD /\ f <> []) ->
  feed (write_field f ++ [CR; LF]) (mkReader m [] rw o false lo)
  = Some (mkReader START_RECORD [] [] (rev (f :: rw) :: o) false false).
Proof.
  intros Hm. unfold write_field.
  destruct (existsb special f) eqn:Hsp.
  - change ((QUOTE :: escape f ++ [QUOTE]) ++ [CR; LF])%list
      with (QUOTE :: ((escape f ++ [QUOTE]) ++ [CR; LF]))%list.
    cbn [feed]. rewrite feed_open_quote by tauto.
    rewrite feed_app, feed_quoted_body, feed_crlf_ends_record by tauto.
    now rewrite app_nil_r, rev_involutive.
  - destruct f as [|c f].
    + destruct Hm as [-> | [_ Hf]]; [reflexivity | congruence].
    + change ((c :: f) ++ [CR; LF])%list with (c :: (f ++ [CR; LF]))%list.
      cbn [feed].
      rewrite feed_plain_char;
        [| simpl in Hsp; now apply orb_false_elim in Hsp as [? _] | tauto].
      rewrite feed_app, feed_plain, feed_crlf_ends_record by tauto.
      rewrite rev_app_distr, rev_involutive. reflexivity.
Qed.

Lemma feed_row_fields : forall fs f m rw o lo,
  m = START_FIELD \/ (m = START_RECORD /\ (f <> [] \/ fs <> [])) ->
  feed (join_fields (f :: fs) ++ [CR; LF]) (mkReader m [] rw o false lo)
  = Some (mkReader START_RECORD [] [] ((rev rw ++ f :: fs)%list :: o)
                   false false).
Proof.
  induction fs as [|g fs IH]; intros f m rw o lo Hm.
  - cbn [join_fields]. rewrite feed_field_crlf; [reflexivity|].
    destruct Hm as [Hm | [Hm [Hf | Hf]]]; auto; congruence.
  - change (join_fields (f :: g :: fs))
      with (write_field f ++ COMMA :: join_fields (g :: fs))%list.
    replace ((write_field f ++ COMMA :: join_fields (g :: fs)) ++ [CR; LF])%list
      with ((write_field f ++ [COMMA])
              ++ (join_fields (g :: fs) ++ [CR; LF]))%list
      by (rewrite <- !app_assoc; reflexivity).
    rewrite feed_app, feed_field_comma by tauto.
    rewrite IH by auto. simpl rev. now rewrite <- app_assoc.
Qed.

Definition at_start (o : list (list (list ascii))) : reader :=
  mkReader START_RECORD [] [] o false false.

(** One written row is read back as one record. *)
Lemma feed_row fs o :
  feed (write_row fs) (at_start o) = Some (at_start (fs :: o)).
Proof.
  unfold at_start.
  destruct fs as [|f fs]; [reflexivity|].
  destruct f as [|c f], fs as [|g fs]; try reflexivity;
    unfold write_row; rewrite feed_row_fields; try reflexivity;
    right; split; auto; first [left; discriminate | right; discriminate].
Qed.

Lemma feed_rows : forall rows o,
  feed (write_rows rows) (at_start o) = Some (at_start (rev rows ++ o)%list).
Proof.
  induction rows as [|r rows IH]; intros o; [reflexivity|].
  unfold write_rows. simpl map. simpl concat.
  rewrite feed_app, feed_row. fold (write_rows rows). rewrite IH.
  simpl rev. now rewrite <- app_assoc.
Qed.

(** Reading what the writer wrote gives the rows back, field by field. *)
Lemma read_write_rows rows : read (write_rows rows) = Some rows.
Proof.
  unfold read. change reset with (at_start []).
  rewrite feed_rows. unfold finish, at_start.
  cbn [option_map line_open md cur out].
  now rewrite app_nil_r, rev_involutive.
Qed.

End CsvFacts.

(** ** Reports read back *)

Section ReadBack.

Variable S : Services.

Lemma concat_empty_cons (x : string) (xs : list string) :
  String.concat "" (x :: xs) = x ++ String.concat "" xs.
Proof.
  destruct xs; simpl; [now rewrite str_app_nil_r | reflexivity].
Qed.

Definition chars_of_rows (rows : list (list string))
  : list (list (list ascii)) :=
  map (map list_ascii_of_string) rows.

Lemma rows_text_chars (rows : list (list string)) :
  list_ascii_of_string (String.concat "" (map Csv.row_text rows))
  = Csv.write_rows (chars_of_rows rows).
Proof.
  induction rows as [|r rows IH]; [reflexivity|].
  simpl map. rewrite concat_empty_cons, list_ascii_of_string_app, IH.
  unfold Csv.row_text. now rewrite list_ascii_of_string_of_list_ascii.
Qed.

Lemma strings_of_chars_of_rows (rows : list (list string)) :
  map (map string_of_list_ascii) (chars_of_rows rows) = rows.
Proof.
  unfold chars_of_rows. rewrite map_map.
  rewrite <- (map_id rows) at 2. apply map_ext. intros r.
  rewrite map_map. rewrite <- (map_id r) at 2. apply map_ext.
  apply string_of_list_ascii_of_string.
Qed.

(** A report is read back as its header and its rows. *)
Lemma report_read_back (fieldnames : list string) (rows : list (list string)) :
  Csv.read_text (report_text fieldnames rows) = Some (fieldnames :: rows).
Proof.
  unfold Csv.read_text, report_text, Csv.header_text.
  rewrite <- concat_empty_cons.
  change (Csv.row_text fieldnames :: map Csv.row_text rows)
    with (map Csv.row_text (fieldnames :: rows)).
  rewrite rows_text_chars, CsvFacts.read_write_rows.
  cbv [option_map]. now rewrite strings_of_chars_of_rows.
Qed.

(** What is read from the file at [path]. *)
Definition read_file (path : string) (fs : list (string * string))
  : option (list (list string)) :=
  match file_get path fs with
  | Some content => Csv.read_text content
  | None => None
  end.

(** C7.  Whatever the characters of the cluster names and of the counts
    (commas, quotes, line breaks), the cluster report written from the
    summaries is read back as the header followed by one row per summary
    holding its name and its three counts unchanged. *)
Theorem cluster_report_round_trip
        (path : string) (data : list Csv.dict) (st : pstate S) :
  (forall d, In d data -> is_summary d) ->
  exists st',
    @write_cluster_csv S path data st = (Ok tt, st')
    /\ read_file path (files st')
       = Some (cluster_fieldnames :: map summary_row data)
    /\ forall name nodes pods containers,
        In (cluster_summary name nodes pods containers) data ->
        In [name; nodes; pods; containers] (map summary_row data).
Proof.
  intros Hdata.
  destruct (@write_cluster_csv_spec S path data st Hdata) as [st' [E W]].
  exists st'. split; [exact E|]. split.
  - unfold read_file. destruct W as [G _]. rewrite G.
    apply report_read_back.
  - intros name nodes pods containers Hin.
    apply in_map_iff. eexists. split; [|exact Hin]. reflexivity.
Qed.

End ReadBack.

(** ** A whole run *)

Section Runs.

Variable S : Services.

(** [m] writes no file. *)
Definition keeps_files {A} (m : M S A) : Prop :=
  forall st r st', m st = (r, st') -> files st' = files st.

Lemma keeps_quiet {A} (m : M S A) : quiet m -> keeps_files m.
Proof. intros H st r st' E. now destruct (H _ _ _ E). Qed.

Lemma keeps_bind {A B} (m : M S A) (k : A -> M S B) :
  keeps_files m -> (forall a, keeps_files (k a)) -> keeps_files (bind m k).
Proof.
  intros Hm Hk st r st' H. unfold bind in H.
  destruct (m st) as [[a | e | c] st1] eqn:E; pose proof (Hm _ _ _ E) as F.
  - rewrite <- F. eapply Hk; eassumption.
  - inversion H; subst. exact F.
  - inversion H; subst. exact F.
Qed.

Lemma keeps_try {A} (m : M S A) catches h :
  keeps_files m -> (forall e, keeps_files (h e)) ->
  keeps_files (try_except m catches h).
Proof.
  intros Hm Hh st r st' H. unfold try_except in H.
  destruct (m st) as [[a | e | c] st1] eqn:E; pose proof (Hm _ _ _ E) as F.
  - inversion H; subst. exact F.
  - destruct (catches e).
    + rewrite <- F. eapply Hh; eassumption.
    + inversion H; subst. exact F.
  - inversion H; subst. exact F.
Qed.

Lemma keeps_ret {A} (a : A) : keeps_files (ret (S:=S) a).
Proof. intros st r st' H. now inversion H. Qed.

Lemma keeps_raise {A} e : keeps_files (raise (S:=S) (A:=A) e).
Proof. intros st r st' H. now inversion H. Qed.

Lemma keeps_exit {A} c : keeps_files (sys_exit (S:=S) (A:=A) c).
Proof. intros st r st' H. now inversion H. Qed.

Lemma keeps_print line : keeps_files (print (S:=S) line).
Proof. apply keeps_quiet, quiet_print. Qed.

Lemma keeps_input : keeps_files (input (S:=S)).
Proof.
  intros st r st' H. unfold input in H.
  destruct (stdin st); inversion H; subst; reflexivity.
Qed.

Lemma keeps_run_shell tool fs check :
  keeps_files (run_shell (S:=S) tool fs check).
Proof. apply keeps_quiet, quiet_run_shell. Qed.

Lemma keeps_run_argv argv check : keeps_files (run_argv (S:=S) argv check).
Proof.
  intros st r st' H. unfold run_argv in H.
  destruct (exec_argv S argv (kubeconfig st) (mach st)) as [[p|] m];
    inversion H; subst; reflexivity.
Qed.

Lemma keeps_sdk_list call : keeps_files (sdk_list (S:=S) call).
Proof. apply keeps_quiet, quiet_sdk_list. Qed.

Lemma keeps_check_output tool fs :
  keeps_files (check_output_stripped (S:=S) tool fs).
Proof. apply keeps_quiet, quiet_check_output. Qed.

Lemma keeps_set_kubeconfig v : keeps_files (set_kubeconfig (S:=S) v).
Proof. apply keeps_quiet, quiet_set_kubeconfig. Qed.

Lemma keeps_for_each {A} (xs : list A) (body : A -> M S unit) :
  (forall x, keeps_files (body x)) -> keeps_files (for_each xs body).
Proof.
  intros Hb. induction xs as [|x xs IH]; simpl.
  - apply keeps_ret.
  - apply keeps_bind; auto.
Qed.

Ltac keeps :=
  repeat first
    [ apply keeps_ret | apply keeps_raise | apply keeps_exit
    | apply keeps_print | apply keeps_input
    | apply keeps_run_shell | apply keeps_run_argv | apply keeps_sdk_list
    | apply keeps_check_output | apply keeps_set_kubeconfig
    | apply keeps_bind; [|intros ?]
    | apply keeps_try; [|intros ?]
    | apply keeps_for_each; intros ?
    | match goal with
      | |- keeps_files (if ?b then _ else _) => destruct b
      | |- keeps_files (let _ := _ in _) => cbv zeta
      end ].


Lemma keeps_aws_check_tools : keeps_files (Aws.check_tools (S:=S)).
Proof. unfold Aws.check_tools, Aws.install_tool. keeps. Qed.


Lemma keeps_login_aws : keeps_files (Aws.login_aws (S:=S)).
Proof.
  unfold Aws.login_aws. keeps.
  intros st r st' H. unfold Aws.get_caller_identity in H.
  destruct (api_caller_identity S (mach st)); inversion H; subst; reflexivity.
Qed.


Lemma keeps_aws_get_inventory : keeps_files (Aws.get_inventory (S:=S)).
Proof. unfold Aws.get_inventory. keeps. Qed.




Lemma keeps_aws_scan_cluster name data :
  keeps_files (Aws.scan_cluster (S:=S) name data).
Proof.
  unfold Aws.scan_cluster. keeps.
  - intros st r st' H. unfold Aws.cluster_region in H.
    destruct (api_describe_cluster_arn S name (mach st)) as [arn|];
      [destruct (nth_error (Py.split ":"%char arn) 3)|];
      inversion H; subst; reflexivity.
  - intros st r st' H. inversion H; subst; reflexivity.
Qed.

Lemma keeps_scan_clusters : forall clusters data,
  keeps_files (Aws.scan_clusters (S:=S) clusters data).
Proof.
  induction clusters as [|c clusters IH]; intros data; simpl.
  - apply keeps_ret.
  - apply keeps_bind; [apply keeps_aws_scan_cluster | intros; apply IH].
Qed.

Lemma keeps_get_eks_data : keeps_files (Aws.get_eks_data (S:=S)).
Proof.
  unfold Aws.get_eks_data. keeps. apply keeps_scan_clusters.
Qed.

Ltac run_inv H :=
  let a := fresh "a" in
  let s := fresh "st" in
  let E := fresh "E" in
  apply bind_ok_inv in H as (a & s & E & H).


Lemma aws_data_are_summaries (st : pstate S) data st' :
  Aws.get_eks_data st = (Ok data, st') ->
  forall d, In d data -> is_summary d.
Proof.
  intros H. unfold Aws.get_eks_data in H. apply try_exit_ok_inv in H.
  run_inv H. apply aws_scan_clusters_ok in H as (new & -> & Hnew).
  simpl. clear E. induction Hnew as [|name d' cl new' Hd' _ IH];
    intros d Hd; [destruct Hd|].
  destruct Hd as [<- | Hd]; [|auto].
  destruct Hd' as (n & b & c & ->). unfold is_summary. eauto.
Qed.

(** The file at [path] holds the report of [rows] under [fieldnames], and
    is read back as the header and the rows. *)
Definition holds_report (path : string) (fieldnames : list string)
           (rows : list (list string)) (fs : list (string * string)) : Prop :=
  file_get path fs = Some (report_text fieldnames rows)
  /\ read_file path fs = Some (fieldnames :: rows).

Lemma holds_report_intro path fieldnames rows fs :
  file_get path fs = Some (report_text fieldnames rows) ->
  holds_report path fieldnames rows fs.
Proof.
  intros H. split; [exact H|]. unfold read_file. rewrite H.
  apply report_read_back.
Qed.



End Runs.

(** ** The properties on the example machines *)

Import Table Demo.

(** C4 at a line that is no subscription identifier. *)
Lemma invalid_subscription_witness :
  Py.re_match_subscription (Py.strip "not-a-subscription") = false
  /\ exists st',
      Azure.login_azure (start fleet ["not-a-subscription"; "b"])
      = (Exit 1, st')
      /\ mach st' = "".
Proof.
  split; [reflexivity|].
  destruct (@invalid_subscription_fails_before_any_call (services fleet)
              (start fleet ["not-a-subscription"; "b"])
              "not-a-subscription" ["b"] eq_refl eq_refl)
    as [(st' & E & _ & _ & Hm & _) _].
  exists st'. split; [exact E | exact Hm].
Defined.

(** C10 at [ DONE ] typed after a name that is turned down. *)
Lemma sentinel_before_any_cluster_witness :
  is_sentinel " DONE " = true
  /\ exists st1 st2,
      Azure.get_aks_data (start fleet ["zz"; " Done "; "later"]) = (Ok [], st1)
      /\ stdin st1 = ["later"]
      /\ @write_cluster_csv (services fleet) "aks_data.csv" [] st1 = (Ok tt, st2)
      /\ file_get "aks_data.csv" (files st2)
         = Some ("Cluster Name,Nodes,Pods,Containers" ++ CRLF).
Proof.
  destruct (@sentinel_before_any_cluster (services fleet)) as [Hpad Hrun].
  split.
  - apply (Hpad [" "%char] [" "%char] "DONE"); reflexivity.
  - destruct (Hrun (start fleet ["zz"; " Done "; "later"])
                   [["a"; "b"; "empty"]] ["zz"] " Done " ["later"]
                   eq_refl eq_refl eq_refl eq_refl)
      as (st1 & st2 & E1 & Hin & E2 & G & _).
    exists st1, st2. repeat split; assumption.
Defined.

(** C8 at a run that selects [b] and ends with the sentinel, and at the
    AWS scan of a listing that holds [b] alone. *)
Lemma summary_names_witness :
  (exists data st',
      Azure.get_aks_data (start fleet ["b"; "rg"; "done"; "later"])
      = (Ok data, st')
      /\ (forall d, In d data -> named_in ["a"; "b"; "empty"] d)
      /\ exists consumed line,
          ["b"; "rg"; "done"; "later"] = (consumed ++ line :: stdin st')%list
          /\ is_sentinel line = true)
  /\ (exists data st',
         Aws.get_eks_data (start only_b []) = (Ok data, st')
         /\ Forall2 summary_of ["b"] data).
Proof.
  split.
  - destruct (Azure.get_aks_data (start fleet ["b"; "rg"; "done"; "later"]))
      as [[data | e | c] st'] eqn:E;
      [| vm_compute in E; discriminate E | vm_compute in E; discriminate E].
    exists data, st'. split; [reflexivity|].
    destruct (proj1 (@summary_names_come_from_the_enumerator (services fleet))
                    _ _ _ E)
      as (pages & Hp & Hnames & Hs).
    vm_compute in Hp. injection Hp as <-.
    split; [exact Hnames | exact Hs].
  - destruct (Aws.get_eks_data (start only_b []))
      as [[data | e | c] st'] eqn:E;
      [| vm_compute in E; discriminate E | vm_compute in E; discriminate E].
    exists data, st'. split; [reflexivity|].
    destruct (proj2 (@summary_names_come_from_the_enumerator (services only_b))
                    _ _ _ E)
      as (pages & Hp & Hnames).
    vm_compute in Hp. injection Hp as <-. exact Hnames.
Defined.

(** C3 at an account whose storage listing fails. *)
Lemma inventory_all_or_nothing_witness :
  api_list (services storage_down) "storage.storage_accounts.list" "" = None
  /\ (exists st', Azure.get_inventory (start storage_down []) = (Exit 1, st'))
  /\ (exists st', Aws.get_inventory (start storage_down []) = (Exit 1, st'))
  /\ (forall inv st',
         Azure.get_inventory (start fleet []) = (Ok inv, st') ->
         map fst inv = azure_categories).
Proof.
  split; [reflexivity|].
  destruct (@inventory_is_all_or_nothing (services storage_down)
              (start storage_down [])) as (Haz & _ & Haws & _).
  split; [|split].
  - apply Haz. exists "storage.storage_accounts.list".
    split; [simpl; tauto | reflexivity].
  - apply Haws. exists "s3.list_buckets".
    split; [simpl; tauto | reflexivity].
  - intros inv st' H.
    apply (@inventory_is_all_or_nothing (services fleet) (start fleet [])) in H.
    apply H.
Defined.

(** C5 at the cluster on which the tools print nothing. *)
Lemma empty_cluster_witness :
  (exists st' nodes pods containers,
      Azure.scan_cluster "empty" [] (start fleet ["rg"])
      = (Ok [cluster_summary "empty" nodes pods containers], st')
      /\ nodes = "0" /\ pods = "0" /\ containers = "0")
  /\ (exists st' nodes pods containers,
         Aws.scan_cluster "empty" [] (start fleet [])
         = (Ok [cluster_summary "empty" nodes pods containers], st')
         /\ nodes = "0" /\ pods = "0" /\ containers = "0").
Proof.
  destruct (@empty_cluster_counts_zero (services fleet)) as [Haz Haws].
  split.
  - destruct (Haz "empty" [] (start fleet ["rg"]) "rg" []
                  ltac:(reflexivity)
                  ltac:(vm_compute; reflexivity)
                  ltac:(vm_compute; reflexivity)
                  ltac:(vm_compute; reflexivity))
      as (st' & n & p & c & E & Hn & Hp & Hc).
    exists st', n, p, c. split; [exact E|].
    split; [apply Hn | split; [apply Hp | apply Hc]];
      vm_compute; reflexivity.
  - destruct (Haws "empty" [] (start fleet [])
                   "arn:aws:eks:us-east-1:111122223333:cluster/empty"
                   "us-east-1"
                   ltac:(vm_compute; reflexivity)
                   ltac:(vm_compute; reflexivity)
                   ltac:(vm_compute; reflexivity)
                   ltac:(vm_compute; reflexivity))
      as (st' & n & p & c & E & Hn & Hp & Hc).
    exists st', n, p, c. split; [exact E|].
    split; [apply Hn | split; [apply Hp | apply Hc]];
      vm_compute; reflexivity.
Defined.

(** C1 as stated fails on both scripts: with the credentials of [a]
    refused, the Azure scan of [a] and [b] returns the summary of [b]
    alone, no entry for [a], marked or not; and the AWS scan of [b] and
    [a] exits with status 1 and returns nothing, not even for [b]. *)
Lemma failed_fetch_leaves_no_summary :
  returncode
    (fst (exec_shell (services fleet) (az_get_credentials "rg" "a") None ""))
  = 1%Z
  /\ (exists st',
      Azure.get_aks_data (start fleet ["a"; "rg"; "b"; "rg"; "done"])
      = (Ok [cluster_summary "b" "2" "3" "4"], st'))
  /\ (forall d,
         In d [cluster_summary "b" "2" "3" "4"] ->
         Csv.dict_get d "Cluster Name" <> Some (Csv.VStr "a"))
  /\ api_list (services fleet) eks_list_clusters "" = Some [["b"; "a"]]
  /\ fst (Aws.get_eks_data (start fleet [])) = Exit 1.
Proof.
  split; [vm_compute; reflexivity|].
  split; [eexists; vm_compute; reflexivity|].
  split; [intros d [<- | []]; discriminate|].
  split; vm_compute; reflexivity.
Qed.

(** C1 as amended, at the same selections of the Azure script. *)
Lemma failed_credential_fetch_witness :
  Azure.selection_loop 5 ["a"; "b"; "empty"] []
                       (start fleet ["a"; "rg"; "b"; "rg"; "done"])
  = Azure.selection_loop 4 ["a"; "b"; "empty"] []
      (after_failed_fetch (start fleet ["a"; "rg"; "b"; "rg"; "done"])
                          "a" "rg" ["b"; "rg"; "done"]).
Proof.
  apply (@failed_credential_fetch (services fleet)).
  - reflexivity.
  - vm_compute; reflexivity.
  - vm_compute; reflexivity.
  - vm_compute. lia.
Defined.


(** C7 at a summary whose name holds a comma, a quote and a line break. *)
Lemma cluster_report_round_trip_witness :
  exists st',
    @write_cluster_csv (services fleet) "aks_data.csv"
      [cluster_summary awkward_name "2" "3" "4"] (start fleet [])
    = (Ok tt, st')
    /\ read_file "aks_data.csv" (files st')
       = Some [["Cluster Name"; "Nodes"; "Pods"; "Containers"];
               [awkward_name; "2"; "3"; "4"]].
Proof.
  destruct (@cluster_report_round_trip (services fleet) "aks_data.csv"
              [cluster_summary awkward_name "2" "3" "4"] (start fleet []))
    as (st' & E & Hread & _).
  - intros d [<- | []]. exists awkward_name, "2", "3", "4". reflexivity.
  - exists st'. split; [exact E | exact Hread].
Defined.


(* ================================================================== *)
(** * Further properties *)

(** ** More example machines *)

Module Cases.

Import Table Demo.

(** The account of [fleet] on which [kubectl config view] fails. *)
Definition view_fails : table :=
  mkTable (listings fleet) (arns fleet) true true []
          (mkEntry "kubectl config view --merge --flatten" None
                   (mkCompleted 1 "" "no configuration") None
             :: shell fleet).

(** An AWS account whose only cluster has a description without an
    ARN of the usual form. *)
Definition odd_arn : table :=
  mkTable [("eks.list_clusters", [["x"]])] [("x", "cluster/x")]
          true true [] [].

(** Accounts on which the authentication fails. *)
Definition no_identity : table :=
  mkTable (listings fleet) (arns fleet) false true [] (shell fleet).

Definition no_credential : table :=
  mkTable (listings fleet) (arns fleet) true false [] (shell fleet).

(** A machine without [aws], on which [pip3] fails; and one without
    [az]. *)
Definition no_aws : table :=
  mkTable (listings fleet) (arns fleet) true true ["aws"]
          (mkEntry "pip3 uninstall -y awscli" None
                   (mkCompleted 1 "" "pip3: command failed") None
             :: shell fleet).

Definition no_az : table :=
  mkTable (listings fleet) (arns fleet) true true ["az"] (shell fleet).

(** The collaborators of [fleet] with credentials that the service
    turns down. *)
Definition refused : Services :=
  mkServices
    (machine := string)
    (api_list (services fleet))
    (api_describe_cluster_arn (services fleet))
    (fun _ => Some (ClientError "ExpiredToken: the security token is expired"))
    (new_credential (services fleet))
    (getcwd (services fleet))
    (exec_argv (services fleet))
    (exec_shell (services fleet)).

Definition refused_start : pstate refused :=
  mkState refused [] [] None [] "".

(** The collaborators of [fleet] with version commands that answer with
    status 2. *)
Definition bad_versions : Services :=
  mkServices
    (machine := string)
    (api_list (services fleet))
    (api_describe_cluster_arn (services fleet))
    (api_caller_identity (services fleet))
    (new_credential (services fleet))
    (getcwd (services fleet))
    (fun _ _ ctx => (Some (mkCompleted 2 "" "unknown option"), ctx))
    (exec_shell (services fleet)).

Definition bad_versions_start : pstate bad_versions :=
  mkState bad_versions [] [] None [] "".

(** What the container query prints for three containers. *)
Definition three_names : completed := mkCompleted 0 "web db cache" "".

(** What a listing prints for two objects. *)
Definition two_objects : completed := mkCompleted 0 two_lines "".

End Cases.

(** ** White space, decimal numbers and [split] *)

Module PyFacts.

Import Py.

Lemma lstrip_decomp (l : list ascii) :
  exists ws, l = (ws ++ lstrip l)%list /\ forallb isspace ws = true.
Proof.
  induction l as [|c l (ws & E & H)]; simpl.
  - exists []. auto.
  - destruct (isspace c) eqn:Hc.
    + exists (c :: ws). simpl. rewrite Hc, H. split; [now f_equal | reflexivity].
    + exists []. auto.
Qed.

Lemma lstrip_head (l : list ascii) c t :
  lstrip l = c :: t -> isspace c = false.
Proof.
  induction l as [|d l IH]; simpl; [discriminate|].
  destruct (isspace d) eqn:Hd; [exact IH|].
  intros E. injection E as <- _. exact Hd.
Qed.

Lemma lstrip_stable c t : isspace c = false -> lstrip (c :: t) = c :: t.
Proof. intros H. simpl. now rewrite H. Qed.

Lemma lstrip_idem (l : list ascii) : lstrip (lstrip l) = lstrip l.
Proof.
  destruct (lstrip l) as [|c t] eqn:E; [reflexivity|].
  apply lstrip_stable. eapply lstrip_head. exact E.
Qed.

(** What [rstrip] removes is white space at the end. *)
Lemma rstrip_decomp (l : list ascii) :
  exists ws, l = (rstrip l ++ ws)%list /\ forallb isspace ws = true.
Proof.
  unfold rstrip. destruct (lstrip_decomp (rev l)) as (ws & E & H).
  exists (rev ws). split.
  - rewrite <- rev_app_distr, <- E. now rewrite rev_involutive.
  - rewrite forallb_forall in *. intros x Hx. apply H. now apply in_rev.
Qed.

Lemma rstrip_last (l t : list ascii) c :
  rstrip l = (t ++ [c])%list -> isspace c = false.
Proof.
  unfold rstrip. intros E.
  apply (f_equal (@rev ascii)) in E.
  rewrite rev_involutive, rev_app_distr in E. simpl in E.
  eapply lstrip_head. exact E.
Qed.

Lemma rstrip_idem (l : list ascii) : rstrip (rstrip l) = rstrip l.
Proof. unfold rstrip. now rewrite rev_involutive, lstrip_idem. Qed.

(** The characters of [s.strip()]. *)
Definition strip_chars (l : list ascii) : list ascii := rstrip (lstrip l).

Lemma strip_chars_head (l : list ascii) c t :
  strip_chars l = c :: t -> isspace c = false.
Proof.
  unfold strip_chars. intros E.
  destruct (rstrip_decomp (lstrip l)) as (ws & D & _).
  rewrite E in D. simpl in D. eapply lstrip_head. exact D.
Qed.

Lemma strip_chars_last (l t : list ascii) c :
  strip_chars l = (t ++ [c])%list -> isspace c = false.
Proof. apply rstrip_last. Qed.

Lemma strip_chars_idem (l : list ascii) :
  strip_chars (strip_chars l) = strip_chars l.
Proof.
  unfold strip_chars at 1.
  replace (lstrip (strip_chars l)) with (strip_chars l).
  - unfold strip_chars. apply rstrip_idem.
  - destruct (strip_chars l) as [|c t] eqn:E; [reflexivity|].
    symmetry. apply lstrip_stable. eapply strip_chars_head. exact E.
Qed.

Lemma strip_as_chars (s : string) :
  list_ascii_of_string (strip s) = strip_chars (list_ascii_of_string s).
Proof. unfold strip. apply list_ascii_of_string_of_list_ascii. Qed.

(** [s.strip().strip()] is [s.strip()]. *)
Lemma strip_idem (s : string) : strip (strip s) = strip s.
Proof.
  unfold strip at 1. rewrite strip_as_chars.
  fold (strip_chars (strip_chars (list_ascii_of_string s))).
  rewrite strip_chars_idem. reflexivity.
Qed.

(** Text with a body free of white space at both ends, between white
    space, is stripped to the body. *)
Lemma strip_chars_padded (ws1 body ws2 : list ascii) c d :
  forallb isspace ws1 = true -> forallb isspace ws2 = true ->
  isspace c = false -> isspace d = false ->
  strip_chars (ws1 ++ (c :: body ++ [d]) ++ ws2) = (c :: body ++ [d])%list.
Proof.
  intros H1 H2 Hc Hd. unfold strip_chars.
  replace (lstrip (ws1 ++ (c :: body ++ [d]) ++ ws2))
    with ((c :: body ++ [d]) ++ ws2)%list.
  - unfold rstrip. rewrite rev_app_distr.
    replace (rev (c :: body ++ [d])) with (d :: rev (c :: body))%list.
    + replace (lstrip (rev ws2 ++ d :: rev (c :: body)))
        with (d :: rev (c :: body)).
      * simpl. rewrite rev_app_distr, rev_involutive. reflexivity.
      * symmetry. clear - H2 Hd. induction ws2 as [|w ws2 IH] using rev_ind.
        -- simpl. now rewrite Hd.
        -- rewrite rev_app_distr. simpl.
           rewrite forallb_app in H2. apply andb_prop in H2 as [H2 Hw].
           simpl in Hw. apply andb_prop in Hw as [Hw _]. rewrite Hw. auto.
    + change (c :: body ++ [d])%list with ((c :: body) ++ [d])%list.
      now rewrite rev_app_distr.
  - symmetry. clear - H1 Hc. induction ws1 as [|w ws1 IH]; simpl.
    + now rewrite Hc.
    + simpl in H1. apply andb_prop in H1 as [Hw H1]. rewrite Hw. auto.
Qed.

End PyFacts.

(** ** The subscription pattern *)

Module PatternFacts.

Import Py.

Definition DASH : ascii := "-"%char.

(** Five groups of hexadecimal digits, of 8, 4, 4, 4 and 12 characters,
    joined by dashes. *)
Definition five_groups (l : list ascii) : Prop :=
  exists g1 g2 g3 g4 g5,
    l = (g1 ++ DASH :: g2 ++ DASH :: g3 ++ DASH :: g4 ++ DASH :: g5)%list
    /\ length g1 = 8 /\ length g2 = 4 /\ length g3 = 4 /\ length g4 = 4
    /\ length g5 = 12
    /\ forallb is_hex_ci (g1 ++ g2 ++ g3 ++ g4 ++ g5) = true.

Lemma match_hex_some n : forall s r,
  match_hex n s = Some r ->
  exists b, s = (b ++ r)%list /\ length b = n /\ forallb is_hex_ci b = true.
Proof.
  induction n as [|n IH]; intros s r H; simpl in H.
  - injection H as <-. exists []. auto.
  - destruct s as [|c s]; [discriminate|].
    destruct (is_hex_ci c) eqn:Hc; [|discriminate].
    destruct (IH _ _ H) as (b & -> & Hl & Hb).
    exists (c :: b). simpl. rewrite Hc, Hb, Hl. auto.
Qed.

Lemma match_hex_app b r :
  forallb is_hex_ci b = true -> match_hex (length b) (b ++ r) = Some r.
Proof.
  induction b as [|c b IH]; simpl; [reflexivity|].
  intros H. apply andb_prop in H as [Hc Hb]. rewrite Hc. auto.
Qed.

Lemma match_dash_some (p : list pat_item) s r :
  match_items (Dash :: p) s = Some r ->
  exists s', s = DASH :: s' /\ match_items p s' = Some r.
Proof.
  simpl. destruct s as [|c s]; [discriminate|].
  destruct (Ascii.eqb c "-") eqn:E; [|discriminate].
  apply Ascii.eqb_eq in E. subst c. eauto.
Qed.

Lemma match_hex_item_some n (p : list pat_item) s r :
  match_items (Hex n :: p) s = Some r ->
  exists b s', s = (b ++ s')%list /\ length b = n
               /\ forallb is_hex_ci b = true
               /\ match_items p s' = Some r.
Proof.
  simpl. destruct (match_hex n s) as [s'|] eqn:E; [|discriminate].
  intros H. destruct (match_hex_some _ _ E) as (b & -> & Hl & Hb).
  exists b, s'. auto.
Qed.

(** What the pattern consumes is five groups joined by dashes. *)
Lemma match_subscription_some s r :
  match_items subscription_pattern s = Some r ->
  exists body, s = (body ++ r)%list /\ five_groups body.
Proof.
  unfold subscription_pattern. intros H.
  apply match_hex_item_some in H as (g1 & s1 & -> & L1 & H1 & H).
  apply match_dash_some in H as (s2 & -> & H).
  apply match_hex_item_some in H as (g2 & s3 & -> & L2 & H2 & H).
  apply match_dash_some in H as (s4 & -> & H).
  apply match_hex_item_some in H as (g3 & s5 & -> & L3 & H3 & H).
  apply match_dash_some in H as (s6 & -> & H).
  apply match_hex_item_some in H as (g4 & s7 & -> & L4 & H4 & H).
  apply match_dash_some in H as (s8 & -> & H).
  apply match_hex_item_some in H as (g5 & s9 & -> & L5 & H5 & H).
  simpl in H. injection H as ->.
  exists (g1 ++ DASH :: g2 ++ DASH :: g3 ++ DASH :: g4 ++ DASH :: g5)%list.
  split.
  - repeat (rewrite <- app_assoc; simpl). reflexivity.
  - exists g1, g2, g3, g4, g5. repeat split; try assumption.
    rewrite !forallb_app, H1, H2, H3, H4, H5. reflexivity.
Qed.

Lemma match_items_hex_app n (p : list pat_item) b s :
  length b = n -> forallb is_hex_ci b = true ->
  match_items (Hex n :: p) (b ++ s) = match_items p s.
Proof.
  intros <- H. cbn [match_items]. now rewrite match_hex_app.
Qed.

Lemma match_items_dash (p : list pat_item) s :
  match_items (Dash :: p) (DASH :: s) = match_items p s.
Proof. reflexivity. Qed.

Lemma match_subscription_groups body r :
  five_groups body ->
  match_items subscription_pattern (body ++ r) = Some r.
Proof.
  intros (g1 & g2 & g3 & g4 & g5 & -> & L1 & L2 & L3 & L4 & L5 & H).
  rewrite !forallb_app in H.
  apply andb_prop in H as [H1 H]. apply andb_prop in H as [H2 H].
  apply andb_prop in H as [H3 H]. apply andb_prop in H as [H4 H5].
  unfold subscription_pattern.
  repeat (rewrite <- app_assoc; simpl app).
  rewrite match_items_hex_app, match_items_dash by assumption.
  rewrite match_items_hex_app, match_items_dash by assumption.
  rewrite match_items_hex_app, match_items_dash by assumption.
  rewrite match_items_hex_app, match_items_dash by assumption.
  rewrite match_items_hex_app by assumption.
  reflexivity.
Qed.

Lemma five_groups_length body : five_groups body -> length body = 36.
Proof.
  intros (g1 & g2 & g3 & g4 & g5 & -> & L1 & L2 & L3 & L4 & L5 & _).
  repeat (rewrite length_app; simpl). lia.
Qed.

Lemma at_dollar_cases rest :
  at_dollar rest = true <-> rest = [] \/ rest = [LF].
Proof.
  unfold at_dollar. destruct rest as [|c [|d rest]]; split; intros H; auto.
  - right. apply Ascii.eqb_eq in H. now subst.
  - destruct H as [H | H]; [discriminate|]. injection H as ->.
    apply Ascii.eqb_refl.
  - discriminate.
  - destruct H; discriminate.
Qed.

End PatternFacts.

(** ** What [login_azure] accepts *)

Section LoginAccepts.

Variable S : Services.

Import PatternFacts.

Lemma length_list_ascii (s : string) :
  length (list_ascii_of_string s) = String.length s.
Proof. induction s as [|c s IH]; simpl; [reflexivity | now rewrite IH]. Qed.

(** On a stripped line the pattern matches exactly the five groups: the
    line feed that [$] tolerates cannot be there. *)
Lemma stripped_match_iff (line : string) :
  Py.re_match_subscription (Py.strip line) = true
  <-> five_groups (list_ascii_of_string (Py.strip line)).
Proof.
  unfold Py.re_match_subscription. split.
  - destruct (Py.match_items Py.subscription_pattern
                (list_ascii_of_string (Py.strip line))) as [rest|] eqn:E;
      [|discriminate].
    intros H. apply at_dollar_cases in H.
    apply match_subscription_some in E as (body & E & G).
    destruct H as [-> | ->].
    + rewrite app_nil_r in E. now rewrite E.
    + rewrite PyFacts.strip_as_chars in E.
      apply PyFacts.strip_chars_last in E. discriminate E.
  - intros G.
    rewrite <- (app_nil_r (list_ascii_of_string (Py.strip line))).
    now rewrite match_subscription_groups.
Qed.

(** X1.  [login_azure], a line being there to read: it hands back the
    stripped line when that is five groups of 8, 4, 4, 4 and 12
    hexadecimal digits joined by dashes (36 characters) and the
    credential object can be built; in every other case it ends the run
    with exit status 1. *)
Theorem login_azure_accepts_exactly (st : pstate S) line rest :
  stdin st = line :: rest ->
  let id := Py.strip line in
  let well_formed := five_groups (list_ascii_of_string id) in
  (well_formed -> String.length id = 36)
  /\ (well_formed /\ new_credential S (mach st) = true ->
      exists st', Azure.login_azure st = (Ok id, st')
                  /\ stdin st' = rest /\ mach st' = mach st)
  /\ (~ (well_formed /\ new_credential S (mach st) = true) ->
      exists st', Azure.login_azure st = (Exit 1, st')).
Proof.
  intros Hin id well_formed. split; [|split].
  - intros G. rewrite <- length_list_ascii. now apply five_groups_length.
  - intros [G Hc]. apply stripped_match_iff in G.
    unfold Azure.login_azure.
    rewrite bind_print. erewrite bind_input by exact Hin. state_simpl.
    rewrite G. cbn [negb].
    unfold bind, try_except, Azure.interactive_browser_credential.
    state_simpl. rewrite Hc.
    eexists. split; [reflexivity|]. split; reflexivity.
  - intros Hno.
    unfold Azure.login_azure.
    rewrite bind_print. erewrite bind_input by exact Hin. state_simpl.
    destruct (Py.re_match_subscription (Py.strip line)) eqn:Hm; cbn [negb].
    + unfold bind, try_except, Azure.interactive_browser_credential.
      state_simpl.
      destruct (new_credential S (mach st)) eqn:Hc.
      * exfalso. apply Hno. split; [|reflexivity].
        now apply stripped_match_iff.
      * eexists. reflexivity.
    + eexists. reflexivity.
Qed.

Lemma lower_chars (s : string) :
  list_ascii_of_string (Py.lower s)
  = map Py.lower_char (list_ascii_of_string s).
Proof. induction s as [|c s IH]; simpl; [reflexivity | now rewrite IH]. Qed.

Lemma is_hex_ci_lower c : Py.is_hex_ci (Py.lower_char c) = Py.is_hex_ci c.
Proof. destruct c as [[] [] [] [] [] [] [] []]; reflexivity. Qed.

Lemma is_dash_lower c :
  Ascii.eqb (Py.lower_char c) "-" = Ascii.eqb c "-".
Proof. destruct c as [[] [] [] [] [] [] [] []]; reflexivity. Qed.

Lemma is_lf_lower c :
  Ascii.eqb (Py.lower_char c) Py.LF = Ascii.eqb c Py.LF.
Proof. destruct c as [[] [] [] [] [] [] [] []]; reflexivity. Qed.

Lemma match_hex_lower n : forall l,
  Py.match_hex n (map Py.lower_char l)
  = option_map (map Py.lower_char) (Py.match_hex n l).
Proof.
  induction n as [|n IH]; intros l; simpl; [reflexivity|].
  destruct l as [|c l]; simpl; [reflexivity|].
  rewrite is_hex_ci_lower. destruct (Py.is_hex_ci c); [apply IH | reflexivity].
Qed.

Lemma match_items_lower p : forall l,
  Py.match_items p (map Py.lower_char l)
  = option_map (map Py.lower_char) (Py.match_items p l).
Proof.
  induction p as [|[n|] p IH]; intros l; simpl; [reflexivity| |].
  - rewrite match_hex_lower.
    destruct (Py.match_hex n l); simpl; [apply IH | reflexivity].
  - destruct l as [|c l]; simpl; [reflexivity|].
    rewrite is_dash_lower.
    destruct (Ascii.eqb c "-"); [apply IH | reflexivity].
Qed.

Lemma at_dollar_lower l :
  Py.at_dollar (map Py.lower_char l) = Py.at_dollar l.
Proof.
  destruct l as [|c [|d l]]; simpl; [reflexivity | apply is_lf_lower
                                    | reflexivity].
Qed.

(** X2.  The pattern is matched without regard to letter case: a text
    and its lower-case form are accepted or refused alike. *)
Theorem subscription_match_ignores_case (s : string) :
  Py.re_match_subscription (Py.lower s) = Py.re_match_subscription s.
Proof.
  unfold Py.re_match_subscription.
  rewrite lower_chars, match_items_lower.
  destruct (Py.match_items Py.subscription_pattern (list_ascii_of_string s));
    simpl; [apply at_dollar_lower | reflexivity].
Qed.

End LoginAccepts.

(** ** More on the selection loop of [get_aks_data] *)

Section SelectionMore.

Variable S : Services.

Lemma is_sentinel_strip (line : string) :
  is_sentinel (Py.strip line) = is_sentinel line.
Proof. unfold is_sentinel. now rewrite PyFacts.strip_idem. Qed.

(** [d] is the summary of a name that is stripped and is not the
    sentinel. *)
Definition typed_name (d : Csv.dict) : Prop :=
  exists name nodes pods containers,
    d = cluster_summary name nodes pods containers
    /\ Py.strip name = name /\ Py.lower name <> "done".

Lemma not_sentinel_lower (name : string) :
  Py.strip name = name -> is_sentinel name = false -> Py.lower name <> "done".
Proof.
  unfold is_sentinel. intros Hs H E. rewrite Hs, E in H. discriminate.
Qed.

Lemma selection_loop_typed_names clusters :
  forall rounds data (st : pstate S) data' st',
    Azure.selection_loop rounds clusters data st = (Ok data', st') ->
    (forall d, In d data -> typed_name d) ->
    forall d, In d data' -> typed_name d.
Proof.
  induction rounds as [|rounds IH]; intros data st data' st' H Hdata;
    [discriminate|].
  destruct (stdin st) as [|line rest] eqn:Hin.
  - rewrite selection_loop_eof in H by assumption. discriminate.
  - rewrite (selection_loop_step _ _ _ _ Hin) in H. cbv zeta in H.
    destruct (is_sentinel line) eqn:Hs.
    + inversion H; subst. assumption.
    + destruct (Py.contains (Py.strip line) clusters) eqn:Hc.
      * apply bind_ok_inv in H as (d1 & st1 & E & H).
        apply azure_scan_cluster_ok in E as [Hd _].
        apply (IH _ _ _ _ H).
        intros d Hd'. destruct Hd as [-> | (n & p & c & ->)]; auto.
        apply in_app_or in Hd' as [Hd' | [<- | []]]; auto.
        exists (Py.strip line), n, p, c. split; [reflexivity|].
        split; [apply PyFacts.strip_idem|].
        apply not_sentinel_lower; [apply PyFacts.strip_idem|].
        now rewrite is_sentinel_strip.
      * apply bind_ok_inv in H as (u & st1 & E & H).
        apply (IH _ _ _ _ H Hdata).
Qed.

(** X3.  The names in the summaries of [get_aks_data] are typed lines
    stripped of white space, and none of them spells [done] in any letter
    case: the sentinel test comes first, so a cluster of that name, listed
    or not, is never scanned. *)
Theorem sentinel_named_cluster_is_never_scanned
        (st : pstate S) data st' name nodes pods containers :
  Azure.get_aks_data st = (Ok data, st') ->
  In (cluster_summary name nodes pods containers) data ->
  Py.strip name = name /\ Py.lower name <> "done".
Proof.
  intros H Hin.
  destruct (api_list S managed_clusters_list (mach st)) as [pages|] eqn:L.
  - rewrite (get_aks_data_listed _ L) in H. apply try_exit_ok_inv in H.
    destruct (selection_loop_typed_names _ _ _ _ H (fun d (F : In d []) =>
                match F with end) _ Hin)
      as (n & a & b & c & E & Hs & Hl).
    injection E as <- _ _ _. auto.
  - pose proof (get_aks_data_list_fails _ L) as F.
    rewrite H in F. discriminate.
Qed.

(** [m] never ends the run by itself. *)
Definition never_exits {A} (m : M S A) : Prop :=
  forall st c st', m st <> (Exit c, st').

Lemma never_exits_bind {A B} (m : M S A) (k : A -> M S B) :
  never_exits m -> (forall a, never_exits (k a)) -> never_exits (bind m k).
Proof.
  intros Hm Hk st c st' H. unfold bind in H.
  destruct (m st) as [[a | e | x] st1] eqn:E.
  - exact (Hk a _ _ _ H).
  - discriminate.
  - exact (Hm _ _ _ E).
Qed.

Lemma never_exits_ret {A} (a : A) : never_exits (ret a).
Proof. intros st c st' H. discriminate. Qed.

Lemma never_exits_raise {A} e : never_exits (raise (S:=S) (A:=A) e).
Proof. intros st c st' H. discriminate. Qed.

Lemma never_exits_print line : never_exits (print line).
Proof. intros st c st' H. discriminate. Qed.

Lemma never_exits_input : never_exits (input (S:=S)).
Proof.
  intros st c st' H. unfold input in H. destruct (stdin st); discriminate.
Qed.

Lemma never_exits_run_shell tool fs check :
  never_exits (run_shell tool fs check).
Proof.
  intros st c st' H. rewrite run_shell_eq in H. unfold checked in H.
  destruct (check && negb (returncode _ =? 0)%Z); discriminate.
Qed.

Lemma never_exits_sdk_list call : never_exits (sdk_list call).
Proof.
  intros st c st' H. unfold sdk_list in H.
  destruct (api_list S call (mach st)); discriminate.
Qed.

Ltac no_exit :=
  repeat first
    [ apply never_exits_ret | apply never_exits_raise
    | apply never_exits_print | apply never_exits_input
    | apply never_exits_run_shell | apply never_exits_sdk_list
    | apply never_exits_bind; [|intros ?]
    | match goal with
      | |- never_exits (if ?b then _ else _) => destruct b
      end ].

Lemma never_exits_scan_cluster name data :
  never_exits (Azure.scan_cluster (S:=S) name data).
Proof. unfold Azure.scan_cluster. cbv zeta. no_exit. Qed.

Lemma never_exits_selection_loop clusters : forall rounds data,
  never_exits (Azure.selection_loop (S:=S) rounds clusters data).
Proof.
  induction rounds as [|rounds IH]; intros data; simpl.
  - apply never_exits_raise.
  - apply never_exits_bind; [apply never_exits_print | intros _].
    apply never_exits_bind; [apply never_exits_input | intros line].
    destruct (String.eqb _ _); [apply never_exits_ret|].
    destruct (Py.contains _ _).
    + apply never_exits_bind; [apply never_exits_scan_cluster | auto].
    + apply never_exits_bind; [apply never_exits_print | auto].
Qed.

(** A body that cannot exit, under a handler that prints and exits with
    status 1, returns or exits with status 1. *)
Lemma guarded_outcome {A} (m : M S A) (msg : exn -> string) (st : pstate S) :
  never_exits m ->
  (exists a st', try_except m any_exception
                   (fun e => print (msg e) ;;; sys_exit 1) st = (Ok a, st')
                 /\ m st = (Ok a, st'))
  \/ (exists st', try_except m any_exception
                    (fun e => print (msg e) ;;; sys_exit 1) st = (Exit 1, st')).
Proof.
  intros Hm. unfold try_except.
  destruct (m st) as [[a | e | c] st1] eqn:E.
  - left. eauto.
  - right. eexists. reflexivity.
  - exfalso. exact (Hm _ _ _ E).
Qed.

(** X4.  When no line of the input is the sentinel, [get_aks_data] ends
    the run with exit status 1: the input runs out inside the loop, and
    whatever was scanned before is not returned. *)
Theorem input_without_sentinel_exits (st : pstate S) :
  forallb (fun line => negb (is_sentinel line)) (stdin st) = true ->
  exists st', Azure.get_aks_data st = (Exit 1, st').
Proof.
  intros Hno.
  destruct (api_list S managed_clusters_list (mach st)) as [pages|] eqn:L.
  - rewrite (get_aks_data_listed _ L).
    destruct (guarded_outcome
                (fun e => "Error getting AKS data: " ++ exn_str e)
                (log (EApi managed_clusters_list) st)
                (never_exits_selection_loop (concat pages)
                   (Datatypes.S (length (stdin st))) []))
      as [(data & st' & _ & E) | Hexit]; [|exact Hexit].
    exfalso.
    apply selection_loop_sound in E as [_ (consumed & line & Hc & Hs)];
      [|intros ? []].
    simpl in Hc. rewrite Hc in Hno.
    rewrite forallb_app in Hno. apply andb_prop in Hno as [_ Hno].
    simpl in Hno. rewrite Hs in Hno. discriminate.
  - unfold Azure.get_aks_data, try_except, bind, sdk_list.
    unfold managed_clusters_list in L. rewrite L. eexists. reflexivity.
Qed.

End SelectionMore.

(** ** A checked [kubectl] call that fails *)

Section CheckedFailure.

Variable S : Services.

Lemma failed_kubectl_check_raises
      rounds clusters data (st : pstate S) line rg_line rest :
  stdin st = line :: rg_line :: rest ->
  is_sentinel line = false ->
  Py.contains (Py.strip line) clusters = true ->
  let env := kubeconfig st in
  let cred := az_get_credentials (Py.strip rg_line) (Py.strip line) in
  let view := answer kubectl_config_view env (after [cred] env (mach st)) in
  returncode (answer cred env (mach st)) = 0%Z ->
  returncode view <> 0%Z ->
  exists st',
    Azure.selection_loop (Datatypes.S rounds) clusters data st
    = (Raise (CalledProcessError kubectl_config_view (returncode view)), st').
Proof.
  intros Hin Hs Hc env cred view H1 H2.
  unfold view, env, cred, after, after1 in *. cbn [fold_left] in *.
  rewrite (selection_loop_step _ _ _ _ Hin). cbv zeta. rewrite Hs, Hc.
  unfold Azure.scan_cluster.
  rewrite bind_assoc. rewrite bind_print. state_simpl.
  rewrite bind_assoc. erewrite bind_input by reflexivity. state_simpl.
  rewrite bind_assoc. rewrite bind_print. state_simpl.
  rewrite bind_assoc. rewrite bind_run_shell_unchecked. state_simpl.
  cbn [Sh.pipe].
  fold (az_get_credentials (Py.strip rg_line) (Py.strip line)).
  rewrite H1. cbn [Z.eqb negb].
  rewrite bind_assoc. fold kubectl_config_view.
  rewrite bind_run_shell_checked_fails by (state_simpl; exact H2).
  state_simpl. eexists. reflexivity.
Qed.

(** X5.  The Azure loop forgives a failed credential fetch only.  When
    the fetch of a selected cluster succeeds and the checked
    [kubectl config view] that follows returns a non-zero status, the
    loop raises [CalledProcessError], whatever was gathered before, and
    [get_aks_data] ends the run with exit status 1. *)
Theorem failed_kubectl_check_ends_the_run
        (st : pstate S) pages line rg_line rest :
  api_list S managed_clusters_list (mach st) = Some pages ->
  stdin st = line :: rg_line :: rest ->
  is_sentinel line = false ->
  Py.contains (Py.strip line) (concat pages) = true ->
  let env := kubeconfig st in
  let cred := az_get_credentials (Py.strip rg_line) (Py.strip line) in
  let view := answer kubectl_config_view env (after [cred] env (mach st)) in
  returncode (answer cred env (mach st)) = 0%Z ->
  returncode view <> 0%Z ->
  (exists st', Azure.get_aks_data st = (Exit 1, st'))
  /\ (forall rounds data,
         exists st',
           Azure.selection_loop (Datatypes.S rounds) (concat pages) data st
           = (Raise (CalledProcessError kubectl_config_view
                       (returncode view)), st')).
Proof.
  intros Hlist Hin Hs Hc env cred view H1 H2. split.
  - rewrite (get_aks_data_listed _ Hlist).
    destruct (failed_kubectl_check_raises
                (length (stdin st)) (concat pages) []
                (log (EApi managed_clusters_list) st)
                (line:=line) (rg_line:=rg_line) (rest:=rest))
      as [st1 E]; try assumption.
    unfold try_except. rewrite E. eexists. reflexivity.
  - intros rounds data.
    now apply (failed_kubectl_check_raises rounds (concat pages) data st
                 (line:=line) (rg_line:=rg_line) (rest:=rest)).
Qed.

End CheckedFailure.

(** ** The region of an EKS cluster *)

Section Region.

Variable S : Services.

Definition COLON : ascii := ":"%char.

Definition no_colon (s : string) : Prop :=
  forallb (fun c => negb (Ascii.eqb c COLON)) (list_ascii_of_string s) = true.

Fixpoint colons (l : list ascii) : nat :=
  match l with
  | [] => 0
  | c :: r => (if Ascii.eqb c COLON then 1 else 0) + colons r
  end.

Lemma split_aux_field (x : list ascii) : forall cur y,
  forallb (fun c => negb (Ascii.eqb c COLON)) x = true ->
  Py.split_aux COLON cur (x ++ COLON :: y)
  = string_of_list_ascii (rev cur ++ x) :: Py.split_aux COLON [] y.
Proof.
  induction x as [|c x IH]; intros cur y H; simpl.
  - rewrite ?Ascii.eqb_refl, app_nil_r. reflexivity.
  - simpl in H. apply andb_prop in H as [Hc H].
    apply negb_true_iff in Hc. rewrite Hc.
    rewrite IH by assumption. simpl. now rewrite <- app_assoc.
Qed.

Lemma split_aux_last (x : list ascii) : forall cur,
  forallb (fun c => negb (Ascii.eqb c COLON)) x = true ->
  Py.split_aux COLON cur x = [string_of_list_ascii (rev cur ++ x)].
Proof.
  induction x as [|c x IH]; intros cur H; simpl.
  - now rewrite app_nil_r.
  - simpl in H. apply andb_prop in H as [Hc H].
    apply negb_true_iff in Hc. rewrite Hc.
    rewrite IH by assumption. simpl. now rewrite <- app_assoc.
Qed.

Lemma split_aux_length (l : list ascii) : forall cur,
  length (Py.split_aux COLON cur l) = Datatypes.S (colons l).
Proof.
  induction l as [|c l IH]; intros cur; simpl; [reflexivity|].
  destruct (Ascii.eqb c COLON); simpl; now rewrite IH.
Qed.

(** The fourth field of a text that starts with four fields free of
    colons. *)
Lemma fourth_field (f0 f1 f2 region tail : string) :
  no_colon f0 -> no_colon f1 -> no_colon f2 -> no_colon region ->
  tail = "" \/ (exists z, tail = ":" ++ z) ->
  nth_error (Py.split COLON
               (f0 ++ ":" ++ f1 ++ ":" ++ f2 ++ ":" ++ region ++ tail)) 3
  = Some region.
Proof.
  intros H0 H1 H2 H3 Ht. unfold Py.split, no_colon in *.
  rewrite !list_ascii_of_string_app. simpl list_ascii_of_string at 2 4 6.
  simpl app.
  rewrite split_aux_field, split_aux_field, split_aux_field by assumption.
  simpl nth_error.
  destruct Ht as [-> | [z ->]].
  - simpl list_ascii_of_string. rewrite app_nil_r.
    rewrite split_aux_last by assumption. simpl.
    now rewrite string_of_list_ascii_of_string.
  - simpl list_ascii_of_string.
    rewrite split_aux_field by assumption. simpl.
    now rewrite string_of_list_ascii_of_string.
Qed.

Lemma malformed_arn_raises (name arn : string) (st : pstate S) :
  api_describe_cluster_arn S name (mach st) = Some arn ->
  colons (list_ascii_of_string arn) < 3 ->
  Aws.cluster_region name st
  = (Raise IndexError, log (EApi "eks.describe_cluster") st).
Proof.
  intros Harn Hfew.
  assert (Hnone : nth_error (Py.split COLON arn) 3 = None).
  { apply nth_error_None. unfold Py.split. rewrite split_aux_length. lia. }
  unfold Aws.cluster_region. rewrite Harn.
  change ":"%char with COLON. now rewrite Hnone.
Qed.

(** X6.  The region handed to [aws eks update-kubeconfig] is the fourth
    colon-separated field of the cluster's ARN.  An ARN with fewer than
    three colons makes the lookup raise [IndexError]; when the cluster is
    the first of the listing this ends [get_eks_data] with exit status
    1. *)
Theorem region_is_fourth_arn_field (name : string) (st : pstate S) :
  (forall f0 f1 f2 region tail,
      api_describe_cluster_arn S name (mach st)
      = Some (f0 ++ ":" ++ f1 ++ ":" ++ f2 ++ ":" ++ region ++ tail) ->
      no_colon f0 -> no_colon f1 -> no_colon f2 -> no_colon region ->
      tail = "" \/ (exists z, tail = ":" ++ z) ->
      exists st', Aws.cluster_region name st = (Ok region, st')
                  /\ mach st' = mach st)
  /\ (forall arn pages post,
         api_describe_cluster_arn S name (mach st) = Some arn ->
         colons (list_ascii_of_string arn) < 3 ->
         api_list S eks_list_clusters (mach st) = Some pages ->
         Aws.first_page pages = name :: post ->
         (exists st', Aws.cluster_region name st = (Raise IndexError, st'))
         /\ exists st', Aws.get_eks_data st = (Exit 1, st')).
Proof.
  split.
  - intros f0 f1 f2 region tail Harn H0 H1 H2 H3 Ht.
    unfold Aws.cluster_region. rewrite Harn.
    change ":"%char with COLON.
    rewrite fourth_field by assumption.
    eexists. split; reflexivity.
  - intros arn pages post Harn Hfew Hlist Hpages.
    split; [eexists; now apply malformed_arn_raises with (arn:=arn)|].
    unfold Aws.get_eks_data, try_except.
    unfold bind at 1. unfold sdk_list at 1.
    unfold eks_list_clusters in Hlist. rewrite Hlist, Hpages.
    simpl Aws.scan_clusters. unfold Aws.scan_cluster.
    rewrite bind_assoc.
    rewrite (bind_raise _ _ _
               (@malformed_arn_raises name arn
                  (log (EApi "eks.list_clusters") st) Harn Hfew)).
    eexists. reflexivity.
Qed.

End Region.

(** ** The [KUBECONFIG] variable *)

Section Environment.

Variable S : Services.

(** [m] leaves [os.environ["KUBECONFIG"]] as it is. *)
Definition keeps_env {A} (m : M S A) : Prop :=
  forall st r st', m st = (r, st') -> kubeconfig st' = kubeconfig st.

Lemma env_bind {A B} (m : M S A) (k : A -> M S B) :
  keeps_env m -> (forall a, keeps_env (k a)) -> keeps_env (bind m k).
Proof.
  intros Hm Hk st r st' H. unfold bind in H.
  destruct (m st) as [[a | e | c] st1] eqn:E; pose proof (Hm _ _ _ E) as F.
  - rewrite <- F. eapply Hk; eassumption.
  - inversion H; subst. exact F.
  - inversion H; subst. exact F.
Qed.

Lemma env_try {A} (m : M S A) catches h :
  keeps_env m -> (forall e, keeps_env (h e)) ->
  keeps_env (try_except m catches h).
Proof.
  intros Hm Hh st r st' H. unfold try_except in H.
  destruct (m st) as [[a | e | c] st1] eqn:E; pose proof (Hm _ _ _ E) as F.
  - inversion H; subst. exact F.
  - destruct (catches e).
    + rewrite <- F. eapply Hh; eassumption.
    + inversion H; subst. exact F.
  - inversion H; subst. exact F.
Qed.

Lemma env_ret {A} (a : A) : keeps_env (ret a).
Proof. intros st r st' H. now inversion H. Qed.

Lemma env_raise {A} e : keeps_env (raise (S:=S) (A:=A) e).
Proof. intros st r st' H. now inversion H. Qed.

Lemma env_exit {A} c : keeps_env (sys_exit (S:=S) (A:=A) c).
Proof. intros st r st' H. now inversion H. Qed.

Lemma env_print line : keeps_env (print line).
Proof. intros st r st' H. now inversion H. Qed.

Lemma env_input : keeps_env (input (S:=S)).
Proof.
  intros st r st' H. unfold input in H.
  destruct (stdin st); inversion H; subst; reflexivity.
Qed.

Lemma env_run_shell tool fs check : keeps_env (run_shell tool fs check).
Proof.
  intros st r st' H. rewrite run_shell_eq in H. now inversion H.
Qed.

Lemma env_run_argv argv check : keeps_env (run_argv argv check).
Proof.
  intros st r st' H. unfold run_argv in H.
  destruct (exec_argv S argv (kubeconfig st) (mach st)) as [[p|] m];
    inversion H; subst; reflexivity.
Qed.

Lemma env_sdk_list call : keeps_env (sdk_list call).
Proof.
  intros st r st' H. unfold sdk_list in H.
  destruct (api_list S call (mach st)); inversion H; subst; reflexivity.
Qed.

Lemma env_open_w path : keeps_env (open_w path).
Proof. intros st r st' H. now inversion H. Qed.

Lemma env_file_write path text : keeps_env (file_write path text).
Proof. intros st r st' H. now inversion H. Qed.

Lemma env_for_each {A} (xs : list A) (body : A -> M S unit) :
  (forall x, keeps_env (body x)) -> keeps_env (for_each xs body).
Proof.
  intros Hb. induction xs as [|x xs IH]; simpl.
  - apply env_ret.
  - apply env_bind; auto.
Qed.

Lemma env_writerow path fieldnames d :
  keeps_env (@dict_writerow S path fieldnames d).
Proof.
  unfold dict_writerow. destruct (Csv.dict_to_list fieldnames d).
  - apply env_file_write.
  - apply env_raise.
Qed.

Lemma env_credential : keeps_env (Azure.interactive_browser_credential (S:=S)).
Proof.
  intros st r st' H. unfold Azure.interactive_browser_credential in H.
  destruct (new_credential S (mach st)); inversion H; subst; reflexivity.
Qed.

Ltac env :=
  repeat first
    [ apply env_ret | apply env_raise | apply env_exit
    | apply env_print | apply env_input
    | apply env_run_shell | apply env_run_argv | apply env_sdk_list
    | apply env_open_w | apply env_file_write | apply env_writerow
    | apply env_credential
    | apply env_bind; [|intros ?]
    | apply env_try; [|intros ?]
    | apply env_for_each; intros ?
    | match goal with
      | |- keeps_env (if ?b then _ else _) => destruct b
      end ].

Lemma env_selection_loop clusters : forall rounds data,
  keeps_env (Azure.selection_loop (S:=S) rounds clusters data).
Proof.
  induction rounds as [|rounds IH]; intros data; simpl.
  - apply env_raise.
  - apply env_bind; [apply env_print | intros _].
    apply env_bind; [apply env_input | intros line].
    destruct (String.eqb _ _); [apply env_ret|].
    destruct (Py.contains _ _).
    + apply env_bind; [|auto]. unfold Azure.scan_cluster. cbv zeta. env.
    + apply env_bind; [apply env_print | auto].
Qed.

Lemma env_get_aks_data : keeps_env (Azure.get_aks_data (S:=S)).
Proof.
  unfold Azure.get_aks_data.
  apply env_try; [|intros e; env].
  apply env_bind; [apply env_sdk_list | intros pages].
  intros st r st' H. eapply env_selection_loop. exact H.
Qed.

(** X7.  The Azure script never touches [KUBECONFIG]: however a run
    ends, the variable is what it was.  The AWS script points it at
    [kubeconfig.yaml] in the working directory in every scan that returns,
    so every later tool of the run sees that file. *)
Theorem kubeconfig_is_set_by_aws_only :
  (forall (st : pstate S) r st',
      Azure.main st = (r, st') -> kubeconfig st' = kubeconfig st)
  /\ (forall name data (st : pstate S) data' st',
         Aws.scan_cluster name data st = (Ok data', st') ->
         exists m, kubeconfig st' = Some (getcwd S m ++ "/kubeconfig.yaml")).
Proof.
  split.
  - assert (H : keeps_env (Azure.main (S:=S))); [|exact H].
    unfold Azure.main.
    apply env_bind; [unfold Azure.check_tools, Azure.install_tool; env
                    | intros _].
    apply env_bind; [unfold Azure.login_azure; env | intros sub].
    apply env_bind; [unfold Azure.get_inventory; env | intros inv].
    apply env_bind; [apply env_get_aks_data | intros data].
    unfold write_inventory_csv, write_cluster_csv, dict_writeheader. env.
  - intros name data st data' st' H. unfold Aws.scan_cluster in H.
    apply bind_ok_inv in H as (region & s1 & _ & H).
    apply bind_ok_inv in H as (p1 & s2 & _ & H).
    apply bind_ok_inv in H as (p2 & s3 & _ & H).
    apply bind_ok_inv in H as (cwd & s4 & Ecwd & H).
    apply bind_ok_inv in H as (u & s5 & Eset & H).
    inversion Ecwd; subst. inversion Eset; subst. clear Ecwd Eset.
    exists (mach s4).
    assert (K : keeps_env
                  (nodes <- check_output_stripped nodes_tool nodes_filters ;;
                   pods <- check_output_stripped pods_tool pods_filters ;;
                   containers <- check_output_stripped containers_tool
                                   containers_filters ;;
                   ret (data ++ [cluster_summary name nodes pods containers])%list)).
    { unfold check_output_stripped. env. }
    rewrite (K _ _ _ H). reflexivity.
Qed.

End Environment.

(** ** What the counting pipelines count *)

Section Counts.

Variable S : Services.

Definition is_digit (c : ascii) : bool := Py.between 48 57 (nat_of_ascii c).

Lemma digit_not_space c : is_digit c = true -> Py.isspace c = false.
Proof. destruct c as [[] [] [] [] [] [] [] []]; vm_compute; congruence. Qed.

Lemma uint_digits (d : Decimal.uint) :
  forallb is_digit (list_ascii_of_string (NilEmpty.string_of_uint d)) = true.
Proof. induction d; simpl; auto. Qed.

Lemma str_nat_digits (n : nat) :
  exists c t, list_ascii_of_string (Py.str_nat n) = c :: t
              /\ forallb is_digit (c :: t) = true.
Proof.
  unfold Py.str_nat, NilZero.string_of_uint.
  pose proof (uint_digits (Nat.to_uint n)) as H.
  destruct (Nat.to_uint n) eqn:E; simpl in *;
    do 2 eexists; (split; [reflexivity | exact H]).
Qed.

Lemma lstrip_skip (ws x : list ascii) :
  forallb Py.isspace ws = true -> Py.lstrip (ws ++ x) = Py.lstrip x.
Proof.
  induction ws as [|w ws IH]; simpl; [reflexivity|].
  intros H. apply andb_prop in H as [Hw H]. rewrite Hw. auto.
Qed.

(** Text free of white space, between white space, is stripped to
    itself. *)
Lemma strip_chars_clean (ws1 l ws2 : list ascii) :
  forallb Py.isspace ws1 = true -> forallb Py.isspace ws2 = true ->
  forallb (fun c => negb (Py.isspace c)) l = true ->
  PyFacts.strip_chars (ws1 ++ l ++ ws2) = l.
Proof.
  intros H1 H2 Hl. unfold PyFacts.strip_chars.
  rewrite lstrip_skip by assumption.
  destruct l as [|c l].
  - simpl. unfold Py.rstrip.
    destruct (PyFacts.lstrip_decomp ws2) as (ws & E & _).
    assert (Hn : Py.lstrip ws2 = []).
    { clear - H2. induction ws2 as [|w ws2 IH]; simpl; [reflexivity|].
      simpl in H2. apply andb_prop in H2 as [Hw H2]. rewrite Hw. auto. }
    rewrite Hn. reflexivity.
  - simpl in Hl. apply andb_prop in Hl as [Hc Hl].
    apply negb_true_iff in Hc.
    change ((c :: l) ++ ws2)%list with (c :: (l ++ ws2))%list.
    rewrite PyFacts.lstrip_stable by assumption.
    unfold Py.rstrip.
    change (c :: l ++ ws2)%list with ((c :: l) ++ ws2)%list.
    rewrite rev_app_distr, lstrip_skip
      by (rewrite forallb_forall in *; intros x Hx; apply H2;
          now apply in_rev).
    assert (Hrev : forallb (fun c => negb (Py.isspace c)) (rev (c :: l)) = true).
    { rewrite forallb_forall in *. intros x Hx. apply in_rev in Hx.
      destruct Hx as [<- | Hx]; [now rewrite Hc | auto]. }
    destruct (rev (c :: l)) as [|d r] eqn:E.
    + apply (f_equal (@length ascii)) in E. rewrite length_rev in E.
      discriminate.
    + simpl in Hrev. apply andb_prop in Hrev as [Hd _].
      apply negb_true_iff in Hd.
      rewrite PyFacts.lstrip_stable by assumption.
      rewrite <- E. apply rev_involutive.
Qed.

(** What [wc -l] prints, stripped, is the decimal number of line feeds. *)
Lemma strip_wc_l (s : string) :
  Py.strip (Sh.wc_l s) = Py.str_nat (Sh.count_lf s).
Proof.
  unfold Py.strip, Sh.wc_l.
  rewrite list_ascii_of_string_app.
  destruct (str_nat_digits (Sh.count_lf s)) as (c & t & E & Hd).
  fold (PyFacts.strip_chars
          (list_ascii_of_string (Py.str_nat (Sh.count_lf s))
             ++ list_ascii_of_string Sh.NL)).
  rewrite <- (app_nil_l (list_ascii_of_string (Py.str_nat (Sh.count_lf s))
                           ++ list_ascii_of_string Sh.NL)).
  rewrite strip_chars_clean.
  - apply string_of_list_ascii_of_string.
  - reflexivity.
  - reflexivity.
  - rewrite E. rewrite forallb_forall in *. intros x Hx.
    apply negb_true_iff. apply digit_not_space. auto.
Qed.

(** Spaces and line feeds of a text. *)
Fixpoint count_breaks (s : string) : nat :=
  match s with
  | EmptyString => 0
  | String c r =>
      (if Ascii.eqb c " " || Ascii.eqb c Py.LF then 1 else 0) + count_breaks r
  end.

Lemma count_lf_tr (s : string) :
  Sh.count_lf (Sh.tr_space_newline s) = count_breaks s.
Proof.
  induction s as [|c s IH]; simpl; [reflexivity|].
  rewrite IH. destruct (Ascii.eqb c " ") eqn:E; simpl; [reflexivity|].
  reflexivity.
Qed.

Lemma counted_lines (p : completed) :
  counted [Sh.Wc_l] p = Py.str_nat (Sh.count_lf (stdout p)).
Proof. unfold counted. simpl. apply strip_wc_l. Qed.

Lemma counted_breaks (p : completed) :
  counted [Sh.Tr_space_newline; Sh.Wc_l] p
  = Py.str_nat (count_breaks (stdout p)).
Proof. unfold counted. simpl. now rewrite strip_wc_l, count_lf_tr. Qed.

(** X8.  In both scripts, once the access to the cluster is set up, the
    [Nodes] and [Pods] fields of the summary are the decimal numbers of
    line feeds that the two [kubectl] listings print, and [Containers] is
    the decimal number of spaces and line feeds that the [jsonpath] query
    prints. *)
Theorem summary_counts_are_break_counts :
  (forall name data (st : pstate S) line rest,
      stdin st = line :: rest ->
      let env := kubeconfig st in
      let cred := az_get_credentials (Py.strip line) name in
      let m3 := after [cred; kubectl_config_view; kubectl_get_pods] env
                      (mach st) in
      returncode (answer cred env (mach st)) = 0%Z ->
      returncode (answer kubectl_config_view env (after [cred] env (mach st)))
      = 0%Z ->
      returncode (answer kubectl_get_pods env
                         (after [cred; kubectl_config_view] env (mach st)))
      = 0%Z ->
      exists st',
        Azure.scan_cluster name data st
        = (Ok (data ++ [cluster_summary name
                 (Py.str_nat (Sh.count_lf (stdout (answer nodes_tool env m3))))
                 (Py.str_nat (Sh.count_lf
                    (stdout (answer pods_tool env (after [nodes_tool] env m3)))))
                 (Py.str_nat (count_breaks
                    (stdout (answer containers_tool env
                               (after [nodes_tool; pods_tool] env m3)))))])%list,
           st'))
  /\ (forall name data (st : pstate S) arn region,
         api_describe_cluster_arn S name (mach st) = Some arn ->
         nth_error (Py.split ":"%char arn) 3 = Some region ->
         let env := kubeconfig st in
         let upd := aws_update_kubeconfig region name in
         let m2 := after [upd; kubectl_config_view_to_file] env (mach st) in
         let env' := Some (getcwd S m2 ++ "/kubeconfig.yaml") in
         returncode (answer upd env (mach st)) = 0%Z ->
         returncode (answer kubectl_config_view_to_file env
                            (after [upd] env (mach st))) = 0%Z ->
         exists st',
           Aws.scan_cluster name data st
           = (Ok (data ++ [cluster_summary name
                    (Py.str_nat (Sh.count_lf (stdout (answer nodes_tool env' m2))))
                    (Py.str_nat (Sh.count_lf
                       (stdout (answer pods_tool env'
                                  (after [nodes_tool] env' m2)))))
                    (Py.str_nat (count_breaks
                       (stdout (answer containers_tool env'
                                  (after [nodes_tool; pods_tool] env' m2)))))])%list,
              st')).
Proof.
  split.
  - intros name data st line rest Hin env cred m3 H1 H2 H3.
    destruct (azure_scan_cluster_counts name data st Hin H1 H2 H3)
      as [st' [E _]].
    exists st'. rewrite E. unfold nodes_filters, pods_filters,
      containers_filters.
    now rewrite !counted_lines, counted_breaks.
  - intros name data st arn region Harn Hregion env upd m2 env' H1 H2.
    destruct (aws_scan_cluster_counts name data st Harn Hregion H1 H2)
      as [st' [E _]].
    exists st'. rewrite E. unfold nodes_filters, pods_filters,
      containers_filters.
    now rewrite !counted_lines, counted_breaks.
Qed.

Lemma count_lf_app (a b : string) :
  Sh.count_lf (a ++ b) = Sh.count_lf a + Sh.count_lf b.
Proof.
  induction a as [|c a IH]; simpl; [reflexivity|]. rewrite IH. lia.
Qed.

Lemma count_breaks_app (a b : string) :
  count_breaks (a ++ b) = count_breaks a + count_breaks b.
Proof.
  induction a as [|c a IH]; simpl; [reflexivity|]. rewrite IH. lia.
Qed.

(** The text of [lines], each ended by a line feed. *)
Definition unlines (lines : list string) : string :=
  String.concat "" (map (fun l => l ++ Sh.NL) lines).

Lemma count_lf_unlines (lines : list string) :
  (forall l, In l lines -> Sh.count_lf l = 0) ->
  Sh.count_lf (unlines lines) = length lines.
Proof.
  unfold unlines. induction lines as [|l lines IH]; intros H; [reflexivity|].
  simpl map. rewrite concat_empty_cons, !count_lf_app.
  rewrite (H l) by now left. rewrite IH by (intros; apply H; now right).
  reflexivity.
Qed.

Lemma count_breaks_words (names : list string) :
  names <> [] ->
  (forall w, In w names -> count_breaks w = 0) ->
  count_breaks (String.concat " " names) = length names - 1.
Proof.
  induction names as [|w names IH]; intros Hne H; [congruence|].
  destruct names as [|v names].
  - simpl. rewrite (H w) by now left. reflexivity.
  - change (String.concat " " (w :: v :: names))
      with (w ++ " " ++ String.concat " " (v :: names)).
    rewrite !count_breaks_app, (H w) by now left.
    rewrite IH; [simpl; lia | discriminate | intros; apply H; now right].
Qed.

(** X9.  The three pipelines on the output they are written for.  A
    listing of [n] lines, each ended by a line feed, is counted as [n].
    The container names come on one line, separated by single spaces and
    without a final line feed: [k] names, [k] at least 1, are counted as
    [k - 1], so a cluster with one container shows the count of a cluster
    with none. *)
Theorem pipeline_counts (p : completed) :
  (forall lines,
      (forall l, In l lines -> Sh.count_lf l = 0) ->
      stdout p = unlines lines ->
      Py.strip (stdout (Sh.pipe nodes_filters p)) = Py.str_nat (length lines)
      /\ Py.strip (stdout (Sh.pipe pods_filters p))
         = Py.str_nat (length lines))
  /\ (forall names,
         names <> [] ->
         (forall w, In w names -> count_breaks w = 0) ->
         stdout p = String.concat " " names ->
         Py.strip (stdout (Sh.pipe containers_filters p))
         = Py.str_nat (length names - 1)).
Proof.
  split.
  - intros lines Hl Hout.
    fold (counted nodes_filters p). fold (counted pods_filters p).
    unfold nodes_filters, pods_filters.
    rewrite counted_lines, Hout, count_lf_unlines by assumption. auto.
  - intros names Hne Hw Hout.
    fold (counted containers_filters p). unfold containers_filters.
    now rewrite counted_breaks, Hout, count_breaks_words.
Qed.

End Counts.

(** ** Runs that end before the reports *)

Section Unfinished.

Variable S : Services.

(** [open(.., 'w')] *)
Definition is_open (e : event) : bool :=
  match e with EWrite _ => true | _ => false end.

(** [m] opens no file: what it adds to the trace holds no [open], and the
    files that the process wrote are as they were. *)
Definition opens_nothing {A} (m : M S A) : Prop :=
  forall st r st',
    m st = (r, st') ->
    files st' = files st
    /\ exists evs, trace st' = (trace st ++ evs)%list
                   /\ forallb (fun e => negb (is_open e)) evs = true.

Lemma nothing_done {A} (m : M S A) :
  (forall st r st', m st = (r, st') -> st' = st) -> opens_nothing m.
Proof.
  intros Hm st r st' H. rewrite (Hm _ _ _ H).
  split; [reflexivity|]. exists []. now rewrite app_nil_r.
Qed.

Lemma one_event {A} (m : M S A) (ev : pstate S -> event) :
  (forall st, is_open (ev st) = false) ->
  (forall st r st',
      m st = (r, st') ->
      files st' = files st /\ trace st' = (trace st ++ [ev st])%list) ->
  opens_nothing m.
Proof.
  intros Hev Hm st r st' H. destruct (Hm _ _ _ H) as [F T].
  split; [exact F|]. exists [ev st]. split; [exact T|].
  simpl. now rewrite Hev.
Qed.

Lemma open_bind {A B} (m : M S A) (k : A -> M S B) :
  opens_nothing m -> (forall a, opens_nothing (k a)) ->
  opens_nothing (bind m k).
Proof.
  intros Hm Hk st r st' H. unfold bind in H.
  destruct (m st) as [[a | e | c] st1] eqn:E;
    destruct (Hm _ _ _ E) as (F & evs & T & N).
  - destruct (Hk a _ _ _ H) as (F' & evs' & T' & N').
    split; [congruence|]. exists (evs ++ evs')%list. split.
    + rewrite T', T. now rewrite app_assoc.
    + rewrite forallb_app. now rewrite N, N'.
  - inversion H; subst. split; [exact F|]. eauto.
  - inversion H; subst. split; [exact F|]. eauto.
Qed.

Lemma open_try {A} (m : M S A) catches h :
  opens_nothing m -> (forall e, opens_nothing (h e)) ->
  opens_nothing (try_except m catches h).
Proof.
  intros Hm Hh st r st' H. unfold try_except in H.
  destruct (m st) as [[a | e | c] st1] eqn:E;
    destruct (Hm _ _ _ E) as (F & evs & T & N).
  - inversion H; subst. split; [exact F|]. eauto.
  - destruct (catches e).
    + destruct (Hh e _ _ _ H) as (F' & evs' & T' & N').
      split; [congruence|]. exists (evs ++ evs')%list. split.
      * rewrite T', T. now rewrite app_assoc.
      * rewrite forallb_app. now rewrite N, N'.
    + inversion H; subst. split; [exact F|]. eauto.
  - inversion H; subst. split; [exact F|]. eauto.
Qed.

Lemma open_ret {A} (a : A) : opens_nothing (ret a).
Proof. apply nothing_done. intros st r st' H. now inversion H. Qed.

Lemma open_raise {A} e : opens_nothing (raise (S:=S) (A:=A) e).
Proof. apply nothing_done. intros st r st' H. now inversion H. Qed.

Lemma open_exit {A} c : opens_nothing (sys_exit (S:=S) (A:=A) c).
Proof. apply nothing_done. intros st r st' H. now inversion H. Qed.

Lemma open_getcwd : opens_nothing (Aws.py_getcwd (S:=S)).
Proof. apply nothing_done. intros st r st' H. now inversion H. Qed.

Lemma open_print line : opens_nothing (print line).
Proof.
  apply (@one_event _ _ (fun _ => EPrint line)); [reflexivity|].
  intros st r st' H. inversion H; subst. auto.
Qed.

Lemma open_input : opens_nothing (input (S:=S)).
Proof.
  intros st r st' H. unfold input in H.
  destruct (stdin st) as [|l rest]; inversion H; subst.
  - split; [reflexivity|]. exists []. now rewrite app_nil_r.
  - split; [reflexivity|]. exists [EInput l]. auto.
Qed.

Lemma open_run_shell tool fs check : opens_nothing (run_shell tool fs check).
Proof.
  apply (@one_event _ _ (fun _ => EShell (Sh.render tool fs)));
    [reflexivity|].
  intros st r st' H. rewrite run_shell_eq in H. inversion H; subst. auto.
Qed.

Lemma open_check_output tool fs :
  opens_nothing (check_output_stripped tool fs).
Proof.
  unfold check_output_stripped.
  apply open_bind; [apply open_run_shell | intros p; apply open_ret].
Qed.

Lemma open_run_argv argv check : opens_nothing (run_argv argv check).
Proof.
  apply (@one_event _ _ (fun _ => ERun argv)); [reflexivity|].
  intros st r st' H. unfold run_argv in H.
  destruct (exec_argv S argv (kubeconfig st) (mach st)) as [[p|] m];
    inversion H; subst; auto.
Qed.

Lemma open_sdk_list call : opens_nothing (sdk_list call).
Proof.
  apply (@one_event _ _ (fun _ => EApi call)); [reflexivity|].
  intros st r st' H. unfold sdk_list in H.
  destruct (api_list S call (mach st)); inversion H; subst; auto.
Qed.

Lemma open_set_kubeconfig v : opens_nothing (set_kubeconfig (S:=S) v).
Proof.
  apply (@one_event _ _ (fun _ => ESetenv "KUBECONFIG" v)); [reflexivity|].
  intros st r st' H. inversion H; subst. auto.
Qed.

Lemma open_credential :
  opens_nothing (Azure.interactive_browser_credential (S:=S)).
Proof.
  apply (@one_event _ _ (fun _ => ECredential)); [reflexivity|].
  intros st r st' H. unfold Azure.interactive_browser_credential in H.
  destruct (new_credential S (mach st)); inversion H; subst; auto.
Qed.

Lemma open_caller_identity : opens_nothing (Aws.get_caller_identity (S:=S)).
Proof.
  apply (@one_event _ _ (fun _ => EApi "sts.get_caller_identity"));
    [reflexivity|].
  intros st r st' H. unfold Aws.get_caller_identity in H.
  destruct (api_caller_identity S (mach st)); inversion H; subst; auto.
Qed.

Lemma open_cluster_region name : opens_nothing (Aws.cluster_region (S:=S) name).
Proof.
  apply (@one_event _ _ (fun _ => EApi "eks.describe_cluster"));
    [reflexivity|].
  intros st r st' H. unfold Aws.cluster_region in H.
  destruct (api_describe_cluster_arn S name (mach st)) as [arn|];
    [destruct (nth_error (Py.split ":"%char arn) 3)|];
    inversion H; subst; auto.
Qed.

Lemma open_for_each {A} (xs : list A) (body : A -> M S unit) :
  (forall x, opens_nothing (body x)) -> opens_nothing (for_each xs body).
Proof.
  intros Hb. induction xs as [|x xs IH]; simpl.
  - apply open_ret.
  - apply open_bind; auto.
Qed.

Ltac no_open :=
  repeat first
    [ apply open_ret | apply open_raise | apply open_exit
    | apply open_print | apply open_input | apply open_getcwd
    | apply open_run_shell | apply open_run_argv | apply open_sdk_list
    | apply open_check_output | apply open_set_kubeconfig
    | apply open_credential | apply open_caller_identity
    | apply open_cluster_region
    | apply open_bind; [|intros ?]
    | apply open_try; [|intros ?]
    | apply open_for_each; intros ?
    | match goal with
      | |- opens_nothing (if ?b then _ else _) => destruct b
      end ].

Lemma open_selection_loop clusters : forall rounds data,
  opens_nothing (Azure.selection_loop (S:=S) rounds clusters data).
Proof.
  induction rounds as [|rounds IH]; intros data; simpl.
  - apply open_raise.
  - apply open_bind; [apply open_print | intros _].
    apply open_bind; [apply open_input | intros line].
    destruct (String.eqb _ _); [apply open_ret|].
    destruct (Py.contains _ _).
    + apply open_bind; [|auto]. unfold Azure.scan_cluster. cbv zeta. no_open.
    + apply open_bind; [apply open_print | auto].
Qed.

Lemma open_scan_clusters : forall clusters data,
  opens_nothing (Aws.scan_clusters (S:=S) clusters data).
Proof.
  induction clusters as [|c clusters IH]; intros data; simpl.
  - apply open_ret.
  - apply open_bind; [|intros d; apply IH].
    unfold Aws.scan_cluster. cbv zeta. no_open.
Qed.

(** What [__main__] does before it opens the reports: lines 170 to 173
    of the Azure script, lines 119 to 122 of the AWS script. *)
Definition azure_collect : M S (Csv.dict * list Csv.dict) :=
  Azure.check_tools (S:=S) ;;;
  _subscription_id <- Azure.login_azure (S:=S) ;;
  inventory <- Azure.get_inventory (S:=S) ;;
  aks_data <- Azure.get_aks_data (S:=S) ;;
  ret (inventory, aks_data).

Definition aws_collect : M S (Csv.dict * list Csv.dict) :=
  Aws.check_tools (S:=S) ;;;
  Aws.login_aws (S:=S) ;;;
  inventory <- Aws.get_inventory (S:=S) ;;
  eks_data <- Aws.get_eks_data (S:=S) ;;
  ret (inventory, eks_data).

Lemma azure_main_collects (st : pstate S) :
  Azure.main st
  = bind azure_collect
      (fun p => @write_inventory_csv S "azure_inventory.csv" (fst p) ;;;
                @write_cluster_csv S "aks_data.csv" (snd p)) st.
Proof.
  unfold Azure.main, azure_collect.
  rewrite bind_assoc. apply bind_ext. intros u s1.
  rewrite bind_assoc. apply bind_ext. intros sub s2.
  rewrite bind_assoc. apply bind_ext. intros inv s3.
  rewrite bind_assoc. apply bind_ext. intros data s4.
  reflexivity.
Qed.

Lemma aws_main_collects (st : pstate S) :
  Aws.main st
  = bind aws_collect
      (fun p => @write_inventory_csv S "aws_inventory.csv" (fst p) ;;;
                @write_cluster_csv S "eks_data.csv" (snd p)) st.
Proof.
  unfold Aws.main, aws_collect.
  rewrite bind_assoc. apply bind_ext. intros u s1.
  rewrite bind_assoc. apply bind_ext. intros v s2.
  rewrite bind_assoc. apply bind_ext. intros inv s3.
  rewrite bind_assoc. apply bind_ext. intros data s4.
  reflexivity.
Qed.

Lemma azure_collect_opens_nothing : opens_nothing azure_collect.
Proof.
  unfold azure_collect.
  apply open_bind;
    [unfold Azure.check_tools, Azure.install_tool; no_open | intros _].
  apply open_bind; [unfold Azure.login_azure; no_open | intros sub].
  apply open_bind; [unfold Azure.get_inventory; no_open | intros inv].
  apply open_bind; [|intros data; apply open_ret].
  unfold Azure.get_aks_data.
  apply open_try; [|intros e; no_open].
  apply open_bind; [apply open_sdk_list | intros pages].
  intros st r st' H. eapply open_selection_loop. exact H.
Qed.

Lemma aws_collect_opens_nothing : opens_nothing aws_collect.
Proof.
  unfold aws_collect.
  apply open_bind;
    [unfold Aws.check_tools, Aws.install_tool; no_open | intros _].
  apply open_bind; [unfold Aws.login_aws; no_open | intros _].
  apply open_bind; [unfold Aws.get_inventory; no_open | intros inv].
  apply open_bind; [|intros data; apply open_ret].
  unfold Aws.get_eks_data.
  apply open_try; [|intros e; no_open].
  apply open_bind; [apply open_sdk_list | intros pages].
  apply open_scan_clusters.
Qed.

(** X10.  The reports are opened last.  When the tool check, the login,
    the inventory or the cluster scan of either script does not return,
    [main] ends there with the same exception or exit status, and the
    process has opened no file on the way: no [open] is among the events
    it added to its trace, so neither report was created or emptied.
    (What the tools and the shell wrote meanwhile, as the
    [kubeconfig.yaml] of the AWS scan, is theirs and is not spoken of.) *)
Theorem failure_before_the_reports_opens_no_file :
  (forall (st : pstate S) r st',
      azure_collect st = (r, st') ->
      (files st' = files st
       /\ exists evs, trace st' = (trace st ++ evs)%list
                      /\ forallb (fun e => negb (is_open e)) evs = true)
      /\ (forall e, r = Raise e -> Azure.main st = (Raise e, st'))
      /\ (forall c, r = Exit c -> Azure.main st = (Exit c, st')))
  /\ (forall (st : pstate S) r st',
         aws_collect st = (r, st') ->
         (files st' = files st
          /\ exists evs, trace st' = (trace st ++ evs)%list
                         /\ forallb (fun e => negb (is_open e)) evs = true)
         /\ (forall e, r = Raise e -> Aws.main st = (Raise e, st'))
         /\ (forall c, r = Exit c -> Aws.main st = (Exit c, st'))).
Proof.
  split; intros st r st' H.
  - split; [exact (azure_collect_opens_nothing _ H)|].
    split; [intros e -> | intros c ->]; rewrite azure_main_collects.
    + now rewrite (bind_raise _ _ _ H).
    + now rewrite (bind_exit _ _ _ H).
  - split; [exact (aws_collect_opens_nothing _ H)|].
    split; [intros e -> | intros c ->]; rewrite aws_main_collects.
    + now rewrite (bind_raise _ _ _ H).
    + now rewrite (bind_exit _ _ _ H).
Qed.

End Unfinished.

(** ** The inventory report on its own *)

Section InventoryReport.

Variable S : Services.

(** The number a field of decimal digits stands for. *)
Definition number_of (s : string) : option nat :=
  option_map Nat.of_uint (NilZero.uint_of_string s).

Lemma number_of_str_nat (n : nat) : number_of (Py.str_nat n) = Some n.
Proof.
  unfold number_of, Py.str_nat.
  pose proof (DecimalNat.Unsigned.of_to n) as Hn.
  destruct (Nat.to_uint n) as [| | | | | | | | | |] eqn:E;
    try (rewrite NilZero.usu by discriminate; simpl option_map;
         now rewrite Hn).
  simpl in Hn. subst n. reflexivity.
Qed.

(** X11.  [write_inventory_csv] on any inventory and any state: the file
    at the path, whatever it held, is replaced by the report; the report
    is read back as the header and one row per entry, in the order of the
    dictionary, whatever characters the keys hold; the count of a row
    stands for the number that was written; and no other file changes. *)
Theorem inventory_report_round_trip
        (path : string) (inventory : Csv.dict) (st : pstate S) :
  exists st',
    @write_inventory_csv S path inventory st = (Ok tt, st')
    /\ read_file path (files st')
       = Some (["Resource Type"; "Count"] :: map inventory_row inventory)
    /\ (forall key n,
           In (key, Csv.VInt n) inventory ->
           exists count,
             In [key; count] (map inventory_row inventory)
             /\ number_of count = Some n)
    /\ (forall q, q <> path -> file_get q (files st') = file_get q (files st)).
Proof.
  destruct (@write_inventory_csv_spec S path inventory st) as [st' [E W]].
  exists st'. split; [exact E|].
  destruct W as (G & _ & _ & _ & _ & _ & O).
  split; [|split].
  - unfold read_file. rewrite G. apply report_read_back.
  - intros key n Hin. exists (Py.str_nat n). split.
    + apply in_map_iff. exists (key, Csv.VInt n). split; [reflexivity | exact Hin].
    + apply number_of_str_nat.
  - exact O.
Qed.

End InventoryReport.

(** ** Authentication that fails *)

Section FailedLogin.

Variable S : Services.

Definition aws_login_failure_events (e : exn) : list event :=
  [EApi "sts.get_caller_identity";
   EPrint ("Error logging into AWS: " ++ exn_str e)].

Definition azure_login_failure_events (line : string) : list event :=
  [EPrint "Please enter your Azure subscription ID:";
   EInput line;
   ECredential;
   EPrint ("Error logging into Azure: "
             ++ exn_str (ServiceError "credential unavailable"))].

(** X12.  Authentication that fails.  AWS: when the identity call raises
    an error of botocore's own family, [main] exits with status 1, and the
    identity call and the diagnostic are all that happened after the tool
    check; when it raises anything else, as the [ClientError] of a
    request that the service turned down, the handler of [login_aws] does
    not catch it: no diagnostic is printed and [main] ends with that
    exception instead of an exit status of its own.  Azure: when the
    identifier is well formed and the credential object cannot be built,
    [main] exits with status 1 after the prompt, the line read, the
    credential request and the diagnostic.  In all cases no listing call
    is made and the process opens no file. *)
Theorem failed_login_ends_the_run :
  (forall (st0 st : pstate S) e,
      Aws.check_tools st0 = (Ok tt, st) ->
      api_caller_identity S (mach st) = Some e ->
      (Aws.is_BotoCoreError e = true ->
       exists st',
         Aws.main st0 = (Exit 1, st')
         /\ trace st' = (trace st ++ aws_login_failure_events e)%list
         /\ files st' = files st /\ mach st' = mach st)
      /\ (Aws.is_BotoCoreError e = false ->
          exists st',
            Aws.main st0 = (Raise e, st')
            /\ trace st' = (trace st ++ [EApi "sts.get_caller_identity"])%list
            /\ files st' = files st /\ mach st' = mach st))
  /\ (forall (st0 st : pstate S) line rest,
         Azure.check_tools st0 = (Ok tt, st) ->
         stdin st = line :: rest ->
         Py.re_match_subscription (Py.strip line) = true ->
         new_credential S (mach st) = false ->
         exists st',
           Azure.main st0 = (Exit 1, st')
           /\ trace st' = (trace st ++ azure_login_failure_events line)%list
           /\ files st' = files st /\ mach st' = mach st).
Proof.
  split.
  - intros st0 st e Htools Hid. split; intros He.
    + unfold Aws.main. rewrite (bind_ok _ _ _ Htools).
      unfold bind at 1. unfold Aws.login_aws, try_except.
      unfold bind at 1. unfold Aws.get_caller_identity. rewrite Hid, He.
      rewrite bind_print. unfold sys_exit.
      eexists. split; [reflexivity|].
      unfold log, aws_login_failure_events.
      cbn [trace files mach]. rewrite <- app_assoc. auto.
    + unfold Aws.main. rewrite (bind_ok _ _ _ Htools).
      unfold bind at 1. unfold Aws.login_aws, try_except.
      unfold bind at 1. unfold Aws.get_caller_identity. rewrite Hid, He.
      eexists. split; [reflexivity|].
      unfold log. cbn [trace files mach]. auto.
  - intros st0 st line rest Htools Hin Hm Hc.
    unfold Azure.main. rewrite (bind_ok _ _ _ Htools).
    unfold bind at 1. unfold Azure.login_azure.
    rewrite bind_print. erewrite bind_input by exact Hin. state_simpl.
    rewrite Hm. cbn [negb].
    unfold bind at 1. unfold try_except, Azure.interactive_browser_credential.
    state_simpl. rewrite Hc. cbn [any_exception].
    rewrite bind_print. unfold sys_exit.
    eexists. split; [reflexivity|].
    unfold log, azure_login_failure_events.
    cbn [trace files mach]. repeat rewrite <- app_assoc. auto.
Qed.

End FailedLogin.

(** ** The tool check *)

Section ToolCheck.

Variable S : Services.

(** [subprocess.run(argv, check=True)] on a tool that is there. *)
Lemma run_argv_present argv (st : pstate S) p m :
  exec_argv S argv (kubeconfig st) (mach st) = (Some p, m) ->
  run_argv argv true st
  = (checked true (String.concat " " argv) p,
     set_mach m (log (ERun argv) st)).
Proof. intros H. unfold run_argv. now rewrite H. Qed.

Lemma run_argv_missing argv (st : pstate S) m :
  exec_argv S argv (kubeconfig st) (mach st) = (None, m) ->
  run_argv argv true st
  = (Raise (FileNotFoundError (hd "" argv)),
     set_mach m (log (ERun argv) st)).
Proof. intros H. unfold run_argv. now rewrite H. Qed.

Lemma checked_fails cmd p :
  returncode p <> 0%Z ->
  checked true cmd p = Raise (CalledProcessError cmd (returncode p)).
Proof.
  intros H. unfold checked. apply Z.eqb_neq in H. now rewrite H.
Qed.

(** X13.  A tool that is installed but whose version command returns a
    non-zero status: [check_tools] catches [FileNotFoundError] only, so
    the [CalledProcessError] of the check escapes it, nothing is
    installed, and [main] ends with that exception instead of an exit
    status of its own. *)
Theorem failing_version_check_escapes (st : pstate S) p m :
  returncode p <> 0%Z ->
  (exec_argv S ["az"; "--version"] (kubeconfig st) (mach st) = (Some p, m) ->
   let e := CalledProcessError "az --version" (returncode p) in
   let st' := set_mach m (log (ERun ["az"; "--version"]) st) in
   Azure.check_tools st = (Raise e, st') /\ Azure.main st = (Raise e, st'))
  /\ (exec_argv S ["aws"; "--version"] (kubeconfig st) (mach st) = (Some p, m) ->
      let e := CalledProcessError "aws --version" (returncode p) in
      let st' := set_mach m (log (ERun ["aws"; "--version"]) st) in
      Aws.check_tools st = (Raise e, st') /\ Aws.main st = (Raise e, st')).
Proof.
  intros Hrc. split; intros Hexec e st'.
  - assert (E : Azure.check_tools st = (Raise e, st')).
    { unfold Azure.check_tools, Azure.tools. cbn [for_each fst snd].
      unfold bind at 1. unfold try_except at 1. unfold bind at 1.
      rewrite (run_argv_present _ _ Hexec), checked_fails by assumption.
      reflexivity. }
    split; [exact E|]. unfold Azure.main. now rewrite (bind_raise _ _ _ E).
  - assert (E : Aws.check_tools st = (Raise e, st')).
    { unfold Aws.check_tools, Aws.tools. cbn [for_each fst snd].
      unfold bind at 1. unfold try_except at 1. unfold bind at 1.
      rewrite (run_argv_present _ _ Hexec), checked_fails by assumption.
      reflexivity. }
    split; [exact E|]. unfold Aws.main. now rewrite (bind_raise _ _ _ E).
Qed.

Definition pip_uninstall : string := "pip3 uninstall -y awscli".

Definition az_install : string :=
  "curl -sL https://aka.ms/InstallAzureCLIDeb | sudo bash".

(** X14.  A missing tool is installed, and the check goes on without
    running the version command again; a failing installation step ends
    the run with exit status 1 before any later step.  AWS: when [aws] is
    missing and the first step, the [pip3 uninstall], fails, neither the
    download nor the installer is started and [kubectl] is not checked.
    Azure: when [az] is missing and its installation succeeds, the next
    thing started is the check of [kubectl]. *)
Theorem missing_tool_installation (st : pstate S) m1 :
  (exec_argv S ["aws"; "--version"] (kubeconfig st) (mach st) = (None, m1) ->
   returncode (answer pip_uninstall (kubeconfig st) m1) <> 0%Z ->
   exists st',
     Aws.check_tools st = (Exit 1, st')
     /\ trace st'
        = (trace st ++
             [ERun ["aws"; "--version"];
              EPrint "aws is not installed. Installing...";
              EShell pip_uninstall;
              EPrint ("Error installing aws: "
                        ++ exn_str (CalledProcessError pip_uninstall
                                      (returncode
                                         (answer pip_uninstall
                                                 (kubeconfig st) m1))))])%list)
  /\ (exec_argv S ["az"; "--version"] (kubeconfig st) (mach st) = (None, m1) ->
      returncode (answer az_install (kubeconfig st) m1) = 0%Z ->
      forall p m3,
        exec_argv S ["kubectl"; "version"; "--client"] (kubeconfig st)
                  (after1 az_install (kubeconfig st) m1) = (Some p, m3) ->
        returncode p = 0%Z ->
        exists st',
          Azure.check_tools st = (Ok tt, st')
          /\ trace st'
             = (trace st ++
                  [ERun ["az"; "--version"];
                   EPrint "az is not installed. Installing...";
                   EShell az_install;
                   ERun ["kubectl"; "version"; "--client"]])%list
          /\ mach st' = m3).
Proof.
  split.
  - intros Hexec Hrc.
    unfold Aws.check_tools, Aws.tools. cbn [for_each fst snd].
    unfold bind at 1. unfold try_except at 1. unfold bind at 1.
    rewrite (run_argv_missing _ _ Hexec). cbn [is_FileNotFoundError].
    rewrite bind_print. state_simpl.
    unfold try_except at 1. unfold Aws.install_tool.
    cbn [String.eqb Ascii.eqb Bool.eqb].
    rewrite bind_run_shell_checked_fails by (state_simpl; exact Hrc).
    cbn [is_CalledProcessError]. rewrite bind_print. unfold sys_exit.
    eexists. split; [reflexivity|].
    unfold log, set_mach, pip_uninstall. cbn [trace].
    repeat rewrite <- app_assoc. reflexivity.
  - intros Hexec Hrc p m3 Hk Hp.
    unfold Azure.check_tools, Azure.tools. cbn [for_each fst snd].
    unfold bind at 1. unfold try_except at 1. unfold bind at 1.
    rewrite (run_argv_missing _ _ Hexec). cbn [is_FileNotFoundError].
    rewrite bind_print. state_simpl.
    unfold try_except at 1. unfold Azure.install_tool.
    cbn [String.eqb Ascii.eqb Bool.eqb].
    rewrite bind_run_shell_checked by (state_simpl; exact Hrc).
    state_simpl. unfold ret at 1. cbv iota.
    unfold bind at 1. unfold try_except at 1. unfold bind at 1.
    erewrite run_argv_present by exact Hk.
    unfold checked. rewrite Hp. cbn [Z.eqb negb andb].
    unfold ret. cbv iota beta.
    eexists. split; [reflexivity|]. split.
    + unfold log, set_mach, az_install. cbn [trace].
      repeat rewrite <- app_assoc. reflexivity.
    + reflexivity.
Qed.

End ToolCheck.

(** ** The inventory against the pages of a listing *)

Section Pages.

Variable S : Services.

Lemma first_page_le (pages : list (list string)) :
  length (Aws.first_page pages) <= length (concat pages).
Proof.
  destruct pages as [|p rest]; simpl; [lia|].
  rewrite length_app. lia.
Qed.

Lemma first_page_all (pages : list (list string)) :
  length (Aws.first_page pages) = length (concat pages)
  <-> concat (tl pages) = [].
Proof.
  destruct pages as [|p rest]; simpl; [tauto|].
  rewrite length_app. split; intros H.
  - apply length_zero_iff_nil. lia.
  - rewrite H. simpl. lia.
Qed.

(** X15.  What the two inventories count, for any account.  The Azure
    inventory holds, for every category, the number of items on all the
    pages of its listing.  The AWS inventory holds the number of items on
    the first page: it never reports more than the listing holds, and it
    reports the true total exactly when no item lies on a later page. *)
Theorem inventory_counts_against_the_listing (st : pstate S) :
  (forall inv st' category call pages,
      Azure.get_inventory st = (Ok inv, st') ->
      In (category, call) azure_sources ->
      api_list S call (mach st) = Some pages ->
      Csv.dict_get inv category
      = Some (Csv.VInt (length (concat pages))))
  /\ (forall inv st' category call pages,
         Aws.get_inventory st = (Ok inv, st') ->
         In (category, call) aws_sources ->
         api_list S call (mach st) = Some pages ->
         exists n,
           Csv.dict_get inv category = Some (Csv.VInt n)
           /\ n <= length (concat pages)
           /\ (n = length (concat pages) <-> concat (tl pages) = [])).
Proof.
  split; intros inv st' category call pages H Hin Hp.
  - exact (azure_inventory_counts_all_pages _ H Hin Hp).
  - exists (length (Aws.first_page pages)). split; [|split].
    + exact (aws_inventory_counts_first_page _ H Hin Hp).
    + apply first_page_le.
    + apply first_page_all.
Qed.

End Pages.

(** ** A run over the reports of an earlier run *)

Section Rerun.

Variable S : Services.

Lemma reports_replace p1 p2 inventory data (st st' : pstate S) :
  p1 <> p2 ->
  (forall d, In d data -> is_summary d) ->
  (@write_inventory_csv S p1 inventory ;;; @write_cluster_csv S p2 data) st
  = (Ok tt, st') ->
  holds_report p1 inventory_fieldnames (map inventory_row inventory)
               (files st')
  /\ holds_report p2 cluster_fieldnames (map summary_row data) (files st')
  /\ forall q, q <> p1 -> q <> p2 ->
               file_get q (files st') = file_get q (files st).
Proof.
  intros Hne Hdata H.
  destruct (@write_inventory_csv_spec S p1 inventory st) as [s1 [E1 W1]].
  destruct (@write_cluster_csv_spec S p2 data s1 Hdata) as [s2 [E2 W2]].
  rewrite (bind_ok _ _ _ E1), E2 in H. inversion H; subst s2; clear H.
  destruct W1 as (G1 & _ & _ & _ & _ & _ & O1).
  destruct W2 as (G2 & _ & _ & _ & _ & _ & O2).
  split; [|split].
  - apply holds_report_intro. rewrite O2 by congruence. exact G1.
  - apply holds_report_intro. exact G2.
  - intros q H1 H2. rewrite O2 by exact H2. apply O1. exact H1.
Qed.


Lemma aws_run_stages (st st' : pstate S) :
  Aws.main st = (Ok tt, st') ->
  exists (s2 s3 s4 : pstate S) inventory data,
    Aws.get_inventory s2 = (Ok inventory, s3)
    /\ Aws.get_eks_data s3 = (Ok data, s4)
    /\ files s4 = files st
    /\ (@write_inventory_csv S "aws_inventory.csv" inventory ;;;
        @write_cluster_csv S "eks_data.csv" data) s4 = (Ok tt, st').
Proof.
  intros H. unfold Aws.main in H.
  apply bind_ok_inv in H as (u & s1 & E0 & H).
  apply bind_ok_inv in H as (v & s2 & E1 & H).
  apply bind_ok_inv in H as (inv & s3 & E2 & H).
  apply bind_ok_inv in H as (data & s4 & E3 & H).
  pose proof (keeps_aws_check_tools _ E0) as F0.
  pose proof (keeps_login_aws _ E1) as F1.
  pose proof (keeps_aws_get_inventory _ E2) as F2.
  pose proof (keeps_get_eks_data _ E3) as F3.
  exists s2, s3, s4, inv, data. repeat split; try assumption. congruence.
Qed.


(** The AWS inventory, when it is returned: the four counts in the order
    they are taken, the last one that of the first page of the cluster
    listing; the machine is as it was. *)
Lemma aws_inventory_shape (st : pstate S) inv st' :
  Aws.get_inventory st = (Ok inv, st') ->
  exists n1 n2 n3 pages,
    api_list S "eks.list_clusters" (mach st) = Some pages
    /\ inv = [("EC2 Instances", Csv.VInt n1); ("VPCs", Csv.VInt n2);
              ("S3 Buckets", Csv.VInt n3);
              ("EKS Clusters", Csv.VInt (length (Aws.first_page pages)))]
    /\ mach st' = mach st.
Proof.
  unfold Aws.get_inventory, try_except, bind, sdk_list. simpl.
  destruct (api_list S "ec2.describe_instances" (mach st)) as [p1|];
    simpl; [|discriminate].
  destruct (api_list S "ec2.describe_vpcs" (mach st)) as [p2|];
    simpl; [|discriminate].
  destruct (api_list S "s3.list_buckets" (mach st)) as [p3|];
    simpl; [|discriminate].
  destruct (api_list S "eks.list_clusters" (mach st)) as [p4|];
    simpl; [|discriminate].
  intros H. inversion H; subst; clear H.
  exists (length (Aws.first_page p1)), (length (Aws.first_page p2)),
    (length (Aws.first_page p3)), p4.
  split; [reflexivity|]. split; reflexivity.
Qed.

Lemma eks_data_of_first_page (st : pstate S) data st' :
  Aws.get_eks_data st = (Ok data, st') ->
  exists pages,
    api_list S "eks.list_clusters" (mach st) = Some pages
    /\ length data = length (Aws.first_page pages).
Proof.
  intros H. unfold Aws.get_eks_data in H. apply try_exit_ok_inv in H.
  apply bind_ok_inv in H as (pages & s1 & E & H).
  unfold sdk_list in E.
  destruct (api_list S "eks.list_clusters" (mach st)) as [pages'|];
    [|discriminate].
  inversion E; subst. exists pages. split; [reflexivity|].
  apply aws_scan_clusters_ok in H as (new & -> & Hnew).
  simpl. symmetry. exact (Forall2_length Hnew).
Qed.

(** X17.  The two AWS reports of one run agree: the [EKS Clusters] row
    of [aws_inventory.csv] carries the number of rows of [eks_data.csv].
    Both come from the first page of the cluster listing, which the
    account answers alike both times, nothing having run in between. *)
Theorem aws_reports_agree (st st' : pstate S) :
  Aws.main st = (Ok tt, st') ->
  exists n1 n2 n3 clusters,
    read_file "aws_inventory.csv" (files st')
    = Some [["Resource Type"; "Count"];
            ["EC2 Instances"; Py.str_nat n1];
            ["VPCs"; Py.str_nat n2];
            ["S3 Buckets"; Py.str_nat n3];
            ["EKS Clusters"; Py.str_nat (length clusters)]]
    /\ read_file "eks_data.csv" (files st')
       = Some (["Cluster Name"; "Nodes"; "Pods"; "Containers"] :: clusters).
Proof.
  intros H.
  apply aws_run_stages in H as (s2 & s3 & s4 & inv & data
                                & E2 & E3 & F & H).
  apply reports_replace in H as ([_ R1] & [_ R2] & _);
    [| discriminate | exact (@aws_data_are_summaries _ _ _ _ E3)].
  apply aws_inventory_shape in E2 as (n1 & n2 & n3 & pages & L & -> & Hm).
  apply eks_data_of_first_page in E3 as (pages' & L' & Hlen).
  rewrite Hm, L in L'. inversion L'; subst pages'; clear L'.
  exists n1, n2, n3, (map summary_row data).
  split; [|exact R2].
  rewrite R1. rewrite length_map, Hlen. reflexivity.
Qed.

End Rerun.

(** ** The further properties on the example machines *)

Import Table Demo Cases.

(** X1 at a well-formed identifier typed with white space around it. *)
Lemma login_azure_accepts_witness :
  exists st',
    Azure.login_azure (start fleet ["  " ++ subscription ++ " "; "b"])
    = (Ok subscription, st')
    /\ stdin st' = ["b"].
Proof.
  destruct (@login_azure_accepts_exactly (services fleet)
              (start fleet ["  " ++ subscription ++ " "; "b"])
              ("  " ++ subscription ++ " ") ["b"] eq_refl)
    as (_ & Hok & _).
  destruct Hok as (st' & E & Hin & _).
  - split; [|reflexivity].
    apply (proj1 (stripped_match_iff _)). vm_compute. reflexivity.
  - exists st'. split; [exact E | exact Hin].
Defined.

(** X3 at a run that scans [b]. *)
Lemma sentinel_named_cluster_witness :
  Py.strip "b" = "b" /\ Py.lower "b" <> "done".
Proof.
  destruct (Azure.get_aks_data (start fleet ["b"; "rg"; "done"]))
    as [[data | e | c] st'] eqn:E;
    [| vm_compute in E; discriminate E | vm_compute in E; discriminate E].
  apply (@sentinel_named_cluster_is_never_scanned (services fleet)
           (start fleet ["b"; "rg"; "done"]) data st' "b" "2" "3" "4" E).
  vm_compute in E. injection E as <- _. left. reflexivity.
Defined.

(** X4 at an input that ends after one selection. *)
Lemma input_without_sentinel_witness :
  exists st', Azure.get_aks_data (start fleet ["b"; "rg"]) = (Exit 1, st').
Proof.
  apply (@input_without_sentinel_exits (services fleet)).
  vm_compute. reflexivity.
Defined.

(** X5 at the selection of [b] on the machine where the view fails. *)
Lemma failed_kubectl_check_witness :
  exists st',
    Azure.get_aks_data (start view_fails ["b"; "rg"; "done"]) = (Exit 1, st').
Proof.
  destruct (@failed_kubectl_check_ends_the_run (services view_fails)
              (start view_fails ["b"; "rg"; "done"])
              [["a"; "b"; "empty"]] "b" "rg" ["done"])
    as [H _].
  - vm_compute; reflexivity.
  - reflexivity.
  - vm_compute; reflexivity.
  - vm_compute; reflexivity.
  - vm_compute; reflexivity.
  - vm_compute. lia.
  - exact H.
Defined.

(** X6 at the ARN of [b], and at a description that is no ARN. *)
Lemma region_witness :
  (exists st', Aws.cluster_region "b" (start fleet []) = (Ok "us-east-1", st'))
  /\ (exists st', Aws.get_eks_data (start odd_arn []) = (Exit 1, st')).
Proof.
  split.
  - destruct (proj1 (@region_is_fourth_arn_field (services fleet) "b"
                       (start fleet []))
                    "arn" "aws" "eks" "us-east-1" ":111122223333:cluster/b")
      as (st' & E & _).
    + vm_compute; reflexivity.
    + vm_compute; reflexivity.
    + vm_compute; reflexivity.
    + vm_compute; reflexivity.
    + vm_compute; reflexivity.
    + right. exists "111122223333:cluster/b". reflexivity.
    + exists st'. exact E.
  - destruct (proj2 (@region_is_fourth_arn_field (services odd_arn) "x"
                       (start odd_arn []))
                    "cluster/x" [["x"]] [])
      as (_ & H).
    + vm_compute; reflexivity.
    + vm_compute. lia.
    + vm_compute; reflexivity.
    + reflexivity.
    + exact H.
Defined.

(** X7 at an Azure run that scans [b], and at the AWS scan of [b]. *)
Lemma kubeconfig_witness :
  (exists st',
      Azure.main (start fleet [subscription; "b"; "rg"; "done"]) = (Ok tt, st')
      /\ kubeconfig st' = None)
  /\ (exists data' st',
         Aws.scan_cluster "b" [] (start fleet []) = (Ok data', st')
         /\ kubeconfig st' = Some "/home/operator/kubeconfig.yaml").
Proof.
  destruct (@kubeconfig_is_set_by_aws_only (services fleet)) as [Haz Haws].
  split.
  - destruct (Azure.main (start fleet [subscription; "b"; "rg"; "done"]))
      as [[[] | e | c] st'] eqn:E;
      [| vm_compute in E; discriminate E | vm_compute in E; discriminate E].
    exists st'. split; [reflexivity|]. exact (Haz _ _ _ E).
  - destruct (Aws.scan_cluster "b" [] (start fleet []))
      as [[data' | e | c] st'] eqn:E;
      [| vm_compute in E; discriminate E | vm_compute in E; discriminate E].
    exists data', st'. split; [reflexivity|].
    destruct (Haws _ _ _ _ _ E) as [m Hm]. rewrite Hm. reflexivity.
Defined.

(** X8 at the scans of [b]. *)
Lemma summary_counts_witness :
  (exists st',
      Azure.scan_cluster "b" [] (start fleet ["rg"])
      = (Ok [cluster_summary "b" "2" "3" "4"], st'))
  /\ (exists st',
         Aws.scan_cluster "b" [] (start fleet [])
         = (Ok [cluster_summary "b" "2" "3" "4"], st')).
Proof.
  destruct (@summary_counts_are_break_counts (services fleet)) as [Haz Haws].
  split.
  - destruct (Haz "b" [] (start fleet ["rg"]) "rg" []
                  ltac:(reflexivity)
                  ltac:(vm_compute; reflexivity)
                  ltac:(vm_compute; reflexivity)
                  ltac:(vm_compute; reflexivity))
      as (st' & E).
    exists st'. rewrite E. vm_compute. reflexivity.
  - destruct (Haws "b" [] (start fleet [])
                   "arn:aws:eks:us-east-1:111122223333:cluster/b"
                   "us-east-1"
                   ltac:(vm_compute; reflexivity)
                   ltac:(vm_compute; reflexivity)
                   ltac:(vm_compute; reflexivity)
                   ltac:(vm_compute; reflexivity))
      as (st' & E).
    exists st'. rewrite E. vm_compute. reflexivity.
Defined.

(** X9 at a listing of two lines and at three container names. *)
Lemma pipeline_counts_witness :
  Py.strip (stdout (Sh.pipe nodes_filters two_objects)) = "2"
  /\ Py.strip (stdout (Sh.pipe containers_filters three_names)) = "2".
Proof.
  split.
  - apply (proj1 (pipeline_counts two_objects) ["n1 Ready"; "n2 Ready"]).
    + intros l [<- | [<- | []]]; reflexivity.
    + reflexivity.
  - apply (proj2 (pipeline_counts three_names) ["web"; "db"; "cache"]).
    + discriminate.
    + intros w [<- | [<- | [<- | []]]]; reflexivity.
    + reflexivity.
Defined.

(** X10 at an Azure run refused at the subscription prompt and at an AWS
    run whose second cluster cannot be reached. *)
Lemma failure_before_the_reports_witness :
  (exists st',
      Azure.main (start fleet ["not-a-subscription"]) = (Exit 1, st')
      /\ forall path, ~ In (EWrite path) (trace st'))
  /\ (exists st',
         Aws.main (start fleet []) = (Exit 1, st')
         /\ forall path, ~ In (EWrite path) (trace st')).
Proof.
  assert (Hno : forall (evs : list event) path,
             forallb (fun e => negb (is_open e)) evs = true ->
             ~ In (EWrite path) evs).
  { intros evs path N Hin. rewrite forallb_forall in N.
    specialize (N _ Hin). discriminate N. }
  destruct (@failure_before_the_reports_opens_no_file (services fleet))
    as [Haz Haws].
  split.
  - destruct (azure_collect (start fleet ["not-a-subscription"]))
      as [r st'] eqn:E.
    assert (Hr : r = Exit 1)
      by (change r with (fst (r, st')); rewrite <- E; vm_compute; reflexivity).
    destruct (Haz _ _ _ E) as ((_ & evs & T & N) & _ & Hexit).
    exists st'. split; [exact (Hexit _ Hr)|].
    intros path. rewrite T. simpl. exact (Hno evs path N).
  - destruct (aws_collect (start fleet [])) as [r st'] eqn:E.
    assert (Hr : r = Exit 1)
      by (change r with (fst (r, st')); rewrite <- E; vm_compute; reflexivity).
    destruct (Haws _ _ _ E) as ((_ & evs & T & N) & _ & Hexit).
    exists st'. split; [exact (Hexit _ Hr)|].
    intros path. rewrite T. simpl. exact (Hno evs path N).
Defined.

(** X12 at an account without credentials, at one whose credentials the
    service turns down, and at one that cannot build the credential. *)
Lemma failed_login_witness :
  (exists st', Aws.main (start no_identity []) = (Exit 1, st'))
  /\ (exists st',
         Aws.main refused_start
         = (Raise (ClientError "ExpiredToken: the security token is expired"),
            st')
         /\ last (trace st') ECredential = EApi "sts.get_caller_identity")
  /\ (exists st', Azure.main (start no_credential [subscription]) = (Exit 1, st')
                  /\ files st' = []).
Proof.
  split; [|split].
  - destruct (Aws.check_tools (start no_identity []))
      as [[[] | e | c] st] eqn:E;
      [| vm_compute in E; discriminate E | vm_compute in E; discriminate E].
    destruct (proj1 (@failed_login_ends_the_run (services no_identity))
                    _ _ (ServiceError "Unable to locate credentials") E
                    eq_refl) as [Hcaught _].
    destruct (Hcaught eq_refl) as (st' & Hm & _).
    exists st'. exact Hm.
  - destruct (Aws.check_tools refused_start)
      as [[[] | e | c] st] eqn:E;
      [| vm_compute in E; discriminate E | vm_compute in E; discriminate E].
    destruct (proj1 (@failed_login_ends_the_run refused)
                    _ _ (ClientError "ExpiredToken: the security token is expired")
                    E eq_refl) as [_ Hescapes].
    destruct (Hescapes eq_refl) as (st' & Hm & Ht & _).
    exists st'. split; [exact Hm|].
    rewrite Ht. apply last_last.
  - destruct (Azure.check_tools (start no_credential [subscription]))
      as [[[] | e | c] st] eqn:E;
      [| vm_compute in E; discriminate E | vm_compute in E; discriminate E].
    assert (Hin : stdin st = [subscription])
      by (vm_compute in E; injection E as <-; reflexivity).
    destruct (proj2 (@failed_login_ends_the_run (services no_credential))
                    _ _ subscription [] E Hin
                    ltac:(vm_compute; reflexivity) eq_refl)
      as (st' & Hm & _ & Hf & _).
    exists st'. split; [exact Hm|]. rewrite Hf.
    vm_compute in E. injection E as <-. reflexivity.
Defined.

(** X13 on the machine whose version commands answer with status 2. *)
Lemma failing_version_check_witness :
  fst (Azure.main bad_versions_start)
  = Raise (CalledProcessError "az --version" 2)
  /\ fst (Aws.main bad_versions_start)
     = Raise (CalledProcessError "aws --version" 2).
Proof.
  destruct (@failing_version_check_escapes bad_versions bad_versions_start
              (mkCompleted 2 "" "unknown option") ""
              ltac:(simpl; lia)) as [Haz Haws].
  split.
  - destruct (Haz eq_refl) as [_ E]. rewrite E. reflexivity.
  - destruct (Haws eq_refl) as [_ E]. rewrite E. reflexivity.
Defined.

(** X14 on the machines without [aws] and without [az]. *)
Lemma missing_tool_witness :
  (exists st', Aws.check_tools (start no_aws []) = (Exit 1, st'))
  /\ (exists st', Azure.check_tools (start no_az []) = (Ok tt, st')).
Proof.
  split.
  - destruct (proj1 (@missing_tool_installation (services no_aws)
                       (start no_aws []) ""))
      as (st' & E & _).
    + vm_compute; reflexivity.
    + vm_compute. lia.
    + exists st'. exact E.
  - destruct (proj2 (@missing_tool_installation (services no_az)
                       (start no_az []) "")
                    ltac:(vm_compute; reflexivity)
                    ltac:(vm_compute; reflexivity)
                    ok_completed ""
                    ltac:(vm_compute; reflexivity)
                    ltac:(reflexivity))
      as (st' & E & _).
    exists st'. exact E.
Defined.

(** X15 on the account whose cluster listing needs two pages. *)
Lemma inventory_counts_witness :
  (exists inv st',
      Azure.get_inventory (start two_page_account []) = (Ok inv, st')
      /\ Csv.dict_get inv "AKS Clusters"
         = Some (Csv.VInt (length (concat two_page_listing))))
  /\ (exists inv st' n,
         Aws.get_inventory (start two_page_account []) = (Ok inv, st')
         /\ Csv.dict_get inv "EKS Clusters" = Some (Csv.VInt n)
         /\ n <= length (concat two_page_listing)).
Proof.
  destruct (@inventory_counts_against_the_listing
              (services two_page_account) (start two_page_account []))
    as [Haz Haws].
  split.
  - destruct (Azure.get_inventory (start two_page_account []))
      as [[inv | e | c] st'] eqn:E;
      [| vm_compute in E; discriminate E | vm_compute in E; discriminate E].
    exists inv, st'. split; [reflexivity|].
    apply (Haz inv st' "AKS Clusters"
               "containerservice.managed_clusters.list" two_page_listing
               eq_refl).
    + simpl. tauto.
    + vm_compute; reflexivity.
  - destruct (Aws.get_inventory (start two_page_account []))
      as [[inv | e | c] st'] eqn:E;
      [| vm_compute in E; discriminate E | vm_compute in E; discriminate E].
    destruct (Haws inv st' "EKS Clusters" "eks.list_clusters"
                   two_page_listing eq_refl)
      as (n & Hn & Hle & _).
    + simpl. tauto.
    + vm_compute; reflexivity.
    + exists inv, st', n. split; [reflexivity|]. split; assumption.
Defined.


(** X17 at the AWS run on the account that lists [b]. *)
Lemma aws_reports_agree_witness :
  exists st' n1 n2 n3 clusters,
    Aws.main (start fleet_of_b []) = (Ok tt, st')
    /\ read_file "aws_inventory.csv" (files st')
       = Some [["Resource Type"; "Count"];
               ["EC2 Instances"; Py.str_nat n1];
               ["VPCs"; Py.str_nat n2];
               ["S3 Buckets"; Py.str_nat n3];
               ["EKS Clusters"; Py.str_nat (length clusters)]]
    /\ read_file "eks_data.csv" (files st')
       = Some (["Cluster Name"; "Nodes"; "Pods"; "Containers"] :: clusters).
Proof.
  destruct (Aws.main (start fleet_of_b []))
    as [[[] | e | c] st'] eqn:E;
    [| vm_compute in E; discriminate E | vm_compute in E; discriminate E].
  destruct (@aws_reports_agree (services fleet_of_b) _ _ E)
    as (n1 & n2 & n3 & clusters & R1 & R2).
  exists st', n1, n2, n3, clusters.
  split; [reflexivity|]. split; assumption.
Defined.
